(** * Volleyball stats tracker: command resolution, ledger and session state

    A shallow embedding of [app.py] and [database.py].

    - Python [str] values are embedded as [string]; a character stands for
      a code point below 256, and [lower], [isspace] follow Python on that
      range.
    - A pandas [DataFrame] is embedded column by column, as the [data]
      dictionary from which [create_stats_dataframe] builds it, together
      with its row labels.  The frames of this program have int64 columns
      and, where a value is missing, float64 columns; the arithmetic on a
      cell is that of its column: int64 wraps around, float64 rounds.
      A count of the store is an integer; where a statement needs a bound
      on it, the statement says so.
    - [st.session_state] is a record that every handler receives and
      returns; the relational store is a record of three tables, and the
      calls of [database.py] run against it in a small transaction monad
      in which a statement may raise. *)

From Stdlib Require Import String Ascii List ZArith NArith Bool Arith Lia.
Import ListNotations.

Local Open Scope string_scope.
Local Open Scope list_scope.
Local Open Scope nat_scope.

(** ** Python strings *)

Module PyStr.

(** [c.lower()] on one code point below 256: A..Z and the accented
    capitals U+00C0..U+00DE (the multiplication sign U+00D7 apart) move
    up by 32. *)
Definition lower_char (c : ascii) : ascii :=
  let n := nat_of_ascii c in
  if ((65 <=? n) && (n <=? 90))
     || ((192 <=? n) && (n <=? 222) && negb (n =? 215))
  then ascii_of_nat (n + 32)
  else c.

(** [s.lower()] *)
Fixpoint lower (s : string) : string :=
  match s with
  | EmptyString => EmptyString
  | String c r => String (lower_char c) (lower r)
  end.

(** [c.isspace()]: TAB, LF, VT, FF, CR, FS, GS, RS, US, SPACE, NEL and
    the no-break space. *)
Definition isspace (c : ascii) : bool :=
  let n := nat_of_ascii c in
  ((9 <=? n) && (n <=? 13)) || ((28 <=? n) && (n <=? 32))
  || (n =? 133) || (n =? 160).

Fixpoint lstrip (s : string) : string :=
  match s with
  | EmptyString => EmptyString
  | String c r => if isspace c then lstrip r else s
  end.

(** [s.rstrip()]: a character is dropped when it is a space and all
    that follows it has been dropped. *)
Fixpoint rstrip (s : string) : string :=
  match s with
  | EmptyString => EmptyString
  | String c r =>
      match rstrip r with
      | EmptyString => if isspace c then EmptyString else String c EmptyString
      | r' => String c r'
      end
  end.

(** [s.strip()] *)
Definition strip (s : string) : string := rstrip (lstrip s).

(** [s.split()] with no separator: the maximal runs of characters that
    are not white space.  [cur] is the run being read, reversed. *)
Fixpoint split_from (cur : list ascii) (s : string) : list string :=
  let flush (rest : list string) :=
    match cur with
    | [] => rest
    | _ :: _ => string_of_list_ascii (rev cur) :: rest
    end in
  match s with
  | EmptyString => flush []
  | String c r =>
      if isspace c then flush (split_from [] r)
      else split_from (c :: cur) r
  end.

Definition split (s : string) : list string := split_from [] s.

(** [s.split(sep)] for a one-character separator: every field is kept,
    the empty ones too. *)
Fixpoint split_on_from (sep : ascii) (cur : list ascii) (s : string)
  : list string :=
  match s with
  | EmptyString => [string_of_list_ascii (rev cur)]
  | String c r =>
      if Ascii.eqb c sep
      then string_of_list_ascii (rev cur) :: split_on_from sep [] r
      else split_on_from sep (c :: cur) r
  end.

Definition split_on (sep : ascii) (s : string) : list string :=
  split_on_from sep [] s.

(** [needle in hay]: [needle] occurs in [hay] at some position. *)
Fixpoint contains (needle hay : string) : bool :=
  String.prefix needle hay
  || match hay with
     | EmptyString => false
     | String _ r => contains needle r
     end.

(** Truth value of a string: [bool(s)]. *)
Definition truthy (s : string) : bool :=
  match s with
  | EmptyString => false
  | String _ _ => true
  end.

(** What [contains] decides. *)
Definition occurs_in (needle hay : string) : Prop :=
  exists pre post, hay = (pre ++ needle ++ post)%string.

End PyStr.

(** ** The skill enumeration *)

Definition VOLLEYBALL_SKILLS : list string :=
  [ "Serve Attempt"; "Serve Ace"; "Serve Error";
    "Pass Zero"; "Pass One"; "Pass Two"; "Pass Three";
    "Spike Attempt"; "Kill"; "Spike Error";
    "Block"; "Assist"; "Ball handling Error" ].

(** ** The two scans of [handle_voice_command] *)

(** [name.lower() in command.lower()] *)
Definition mentions (command name : string) : bool :=
  PyStr.contains (PyStr.lower name) (PyStr.lower command).

(** [for x in names: if x.lower() in command.lower(): found = x; break] *)
Definition first_mention (command : string) (names : list string)
  : option string :=
  find (mentions command) names.

(** [words = command.strip().lower().split()] *)
Definition words (command : string) : list string :=
  PyStr.split (PyStr.lower (PyStr.strip command)).

(** The (player_name, skill) pair with which control reaches the ledger
    update of [handle_voice_command], if it does. *)
Definition resolution (players : list string) (command : string)
  : option (string * string) :=
  if List.length (words command) <? 2 then None
  else
    match first_mention command players with
    | None => None
    | Some player_name =>
        if negb (PyStr.truthy player_name) then None
        else
          match first_mention command VOLLEYBALL_SKILLS with
          | None => None
          | Some skill =>
              if negb (PyStr.truthy skill) then None
              else Some (player_name, skill)
          end
    end.

(** ** Python dictionaries

    A [dict] keeps its keys in insertion order; assigning to a key that is
    present replaces the value where it stands. *)

Module PyDict.
Section Dict.
Context {K V : Type}.
Variable eqb : K -> K -> bool.

Fixpoint get (k : K) (d : list (K * V)) : option V :=
  match d with
  | [] => None
  | (k', v) :: r => if eqb k k' then Some v else get k r
  end.

Definition mem (k : K) (d : list (K * V)) : bool :=
  match get k d with Some _ => true | None => false end.

(** [d[k] = v] *)
Fixpoint set (k : K) (v : V) (d : list (K * V)) : list (K * V) :=
  match d with
  | [] => [(k, v)]
  | (k', v') :: r =>
      if eqb k k' then (k, v) :: r else (k', v') :: set k v r
  end.

(** [{k: v for (k, v) in l}] *)
Definition of_list (l : list (K * V)) : list (K * V) :=
  fold_left (fun d kv => set (fst kv) (snd kv) d) l [].
End Dict.
End PyDict.

(** ** The ledger: a pandas DataFrame *)

(** A cell of a frame: a number, or the missing value that pandas puts
    where the source dictionary had no entry.  A column that holds a
    missing value is a float64 column, whose numbers are floats with an
    integer value; every other column is an int64 column. *)
Inductive cell : Type :=
| Num (z : Z)
| NaN.

Definition is_missing (v : cell) : bool :=
  match v with
  | NaN => true
  | Num _ => false
  end.

(** The dtype of a column: float64 when it holds a missing value. *)
Definition float_column (vs : list cell) : bool := existsb is_missing vs.

(** int64 arithmetic wraps around. *)
Definition int64 (z : Z) : Z := ((z + 2 ^ 63) mod 2 ^ 64 - 2 ^ 63)%Z.

(** The float64 nearest to an integer, ties going to the even mantissa:
    an integer of magnitude up to 2^53 is a float64; beyond it the low
    [e] bits are rounded away. *)
Definition float64 (z : Z) : Z :=
  let m := Z.abs z in
  if (m <=? 2 ^ 53)%Z then z
  else
    let e := (Z.log2 m - 52)%Z in
    let q := Z.shiftr m e in
    let r := (m - Z.shiftl q e)%Z in
    let half := Z.shiftl 1 (e - 1) in
    let q' :=
      if (half <? r)%Z || ((r =? half)%Z && Z.odd q) then (q + 1)%Z else q in
    (Z.sgn z * Z.shiftl q' e)%Z.

(** A value taken into a float64 column or row. *)
Definition to_float (v : cell) : cell :=
  match v with
  | Num z => Num (float64 z)
  | NaN => NaN
  end.

(** [index] are the row labels; [data] gives every column, in order, with
    one value per row. *)
Record DataFrame : Type := mkFrame {
  index : list string;
  data : list (string * list cell)
}.

(** [df.columns] *)
Definition columns (df : DataFrame) : list string := map fst (data df).

(** [label in df.index], [label in df.columns] *)
Definition has_label (label : string) (labels : list string) : bool :=
  existsb (String.eqb label) labels.

(** The value in row number [i] of column [c]. *)
Definition cell_at (df : DataFrame) (i : nat) (c : string) : option cell :=
  match PyDict.get String.eqb c (data df) with
  | None => None
  | Some vs => nth_error vs i
  end.

(** The dtype of the column [c] of the frame: float64 or int64. *)
Definition float_at (df : DataFrame) (c : string) : bool :=
  match PyDict.get String.eqb c (data df) with
  | None => false
  | Some vs => float_column vs
  end.

(** All cells of the frame with their (row label, column label) key,
    column by column. *)
Definition cells (df : DataFrame) : list (string * string * cell) :=
  flat_map (fun col => map (fun lv => (fst lv, fst col, snd lv))
                           (combine (index df) (snd col)))
           (data df).

Definition cell_keys (df : DataFrame) : list (string * string) :=
  map fst (cells df).

(** [x + 1] on a cell of a float64 or of an int64 column; the missing
    value absorbs. *)
Definition add1 (float : bool) (v : cell) : cell :=
  match v with
  | Num z => Num (if float then float64 (z + 1) else int64 (z + 1))
  | NaN => NaN
  end.

(** One column under [df.loc[label, col] += 1]: every row carrying the
    label moves. *)
Fixpoint add1_rows (float : bool) (label : string) (idx : list string)
  (vs : list cell) : list cell :=
  match idx, vs with
  | l :: idx', v :: vs' =>
      (if String.eqb l label then add1 float v else v)
      :: add1_rows float label idx' vs'
  | _, _ => vs
  end.

(** [df.loc[label, col] += 1], for a label of the index and a column of
    the frame. *)
Definition loc_add1 (label col : string) (df : DataFrame) : DataFrame :=
  mkFrame (index df)
    (map (fun cv => if String.eqb (fst cv) col
                    then (fst cv,
                          add1_rows (float_column (snd cv)) label (index df)
                            (snd cv))
                    else cv)
         (data df)).

(** [df[col] = 0] *)
Definition set_column_zero (col : string) (df : DataFrame) : DataFrame :=
  mkFrame (index df)
    (PyDict.set String.eqb col (repeat (Num 0) (List.length (index df)))
       (data df)).

(** What a row of the frame makes of a value: a row is one Series, whose
    values share a dtype, so when some column is a float64 column every
    value of the row is a float64. *)
Definition in_row (df : DataFrame) (v : cell) : cell :=
  if existsb (fun cv => float_column (snd cv)) (data df) then to_float v
  else v.

(** [df.iterrows()], each row as [row.items()]. *)
Definition iterrows (df : DataFrame)
  : list (string * list (string * cell)) :=
  map (fun il => (snd il,
                  map (fun cv => (fst cv, in_row df (nth (fst il) (snd cv) NaN)))
                      (data df)))
      (combine (seq 0 (List.length (index df))) (index df)).

(** [create_stats_dataframe(players)] *)
Definition create_stats_dataframe (players : list string) : DataFrame :=
  let data :=
    fold_left
      (fun data skill =>
         PyDict.set String.eqb skill
           (repeat (Num 0) (List.length players)) data)
      VOLLEYBALL_SKILLS [] in
  mkFrame players data.

(** A column as pandas stores it: with a missing value it is a float64
    column and its numbers are taken to float64. *)
Definition as_column (vs : list cell) : list cell :=
  if float_column vs then map to_float vs else vs.

(** [pd.DataFrame.from_dict(d, orient='index')] for a dictionary of
    dictionaries, as pandas 1 and 2 build it: the inner keys become the
    columns, in order of first appearance; the rows are the outer keys
    that have at least one entry; an absent entry is the missing value. *)
Definition from_dict_index (d : list (string * list (string * Z)))
  : DataFrame :=
  let new_data :=
    fold_left
      (fun nd row =>
         fold_left
           (fun nd cv =>
              let inner :=
                match PyDict.get String.eqb (fst cv) nd with
                | Some m => m
                | None => []
                end in
              PyDict.set String.eqb (fst cv)
                (PyDict.set String.eqb (fst row) (snd cv) inner) nd)
           (snd row) nd)
      d [] in
  let idx :=
    fold_left
      (fun idx col =>
         fold_left
           (fun idx k => if has_label k idx then idx else idx ++ [k])
           (map fst (snd col)) idx)
      new_data [] in
  mkFrame idx
    (map (fun col =>
            (fst col,
             as_column
               (map (fun i => match PyDict.get String.eqb i (snd col) with
                              | Some z => Num z
                              | None => NaN
                              end) idx)))
         new_data).

(** ** Session state *)

Record SessionState : Type := mkSession {
  stats_df : option DataFrame;
  players : list string;
  listening : bool;
  last_command : string;
  command_history : list string;
  current_team_id : option Z
}.

(** The state the script sets up when a key is not yet present. *)
Definition initial_session : SessionState :=
  mkSession None [] false "" [] None.

Definition set_stats_df (v : option DataFrame) (s : SessionState) :=
  mkSession v (players s) (listening s) (last_command s)
            (command_history s) (current_team_id s).
Definition set_players (v : list string) (s : SessionState) :=
  mkSession (stats_df s) v (listening s) (last_command s)
            (command_history s) (current_team_id s).
Definition set_listening (v : bool) (s : SessionState) :=
  mkSession (stats_df s) (players s) v (last_command s)
            (command_history s) (current_team_id s).
Definition set_last_command (v : string) (s : SessionState) :=
  mkSession (stats_df s) (players s) (listening s) v
            (command_history s) (current_team_id s).
Definition set_command_history (v : list string) (s : SessionState) :=
  mkSession (stats_df s) (players s) (listening s) (last_command s)
            v (current_team_id s).
Definition set_current_team_id (v : option Z) (s : SessionState) :=
  mkSession (stats_df s) (players s) (listening s) (last_command s)
            (command_history s) v.

(** [if st.session_state.current_team_id:] *)
Definition team_id_truthy (t : option Z) : bool :=
  match t with
  | Some z => negb (Z.eqb z 0)
  | None => false
  end.

(** ** The relational store of [database.py]

    The timestamp columns of players and stats are never read by the
    program and are left out. *)

Record Team : Type := mkTeam {
  team_id : Z;
  team_name : string;
  team_created_at : Z
}.

Record Player : Type := mkPlayer {
  player_id : Z;
  player_name : string;
  player_team_id : Z
}.

Record Stat : Type := mkStat {
  stat_id : Z;
  stat_player_id : Z;
  stat_skill_name : string;
  stat_count : Z
}.

Record Db : Type := mkDb {
  tbl_teams : list Team;
  tbl_players : list Player;
  tbl_stats : list Stat
}.

(** What the user is shown ([st.success] and the like) or what is
    printed. *)
Inductive Msg : Type :=
| StSuccess (text : string)
| StWarning (text : string)
| StError (text : string)
| StInfo (text : string)
| Printed (text : string).

Inductive exn : Type :=
| StoreError
| ValueError
| KeyError
| AttributeError.

Inductive result (A : Type) : Type :=
| Ok (a : A)
| Raise (e : exn).
Arguments Ok {A} a.
Arguments Raise {A} e.

(** What lies outside the session state: the committed tables, the number
    of statements sent to the store so far, and the messages shown. *)
Record World : Type := mkWorld {
  durable : Db;
  sent : nat;
  shown : list Msg
}.

Definition show (m : Msg) (W : World) : World :=
  mkWorld (durable W) (sent W) (shown W ++ [m]).

(** A new primary key. *)
Definition next_id (ids : list Z) : Z := (1 + fold_right Z.max 0 ids)%Z.

(** ** Sessions and transactions

    [faults n] says that statement number [n] sent to the store raises.
    A session works on its own copy of the tables; [commit] makes the copy
    durable and [rollback] gives it up. *)

Section Store.

Variable faults : nat -> bool.

Definition Tx (A : Type) : Type := Db -> World -> result A * Db * World.

Definition ret {A} (a : A) : Tx A := fun w W => (Ok a, w, W).

Definition bind {A B} (m : Tx A) (k : A -> Tx B) : Tx B :=
  fun w W =>
    match m w W with
    | (Ok a, w', W') => k a w' W'
    | (Raise e, w', W') => (Raise e, w', W')
    end.

Definition raise {A} (e : exn) : Tx A := fun w W => (Raise e, w, W).

Definition tick (W : World) : World :=
  mkWorld (durable W) (S (sent W)) (shown W).

(** One statement: a query, an update, an insert flushed to the store. *)
Definition statement {A} (f : Db -> A * Db) : Tx A :=
  fun w W =>
    if faults (sent W) then (Raise StoreError, w, tick W)
    else (Ok (fst (f w)), snd (f w), tick W).

Definition query {A} (f : Db -> A) : Tx A :=
  statement (fun w => (f w, w)).

(** [session.commit()] *)
Definition commit : Tx unit :=
  fun w W =>
    if faults (sent W) then (Raise StoreError, w, tick W)
    else (Ok tt, w, mkWorld w (S (sent W)) (shown W)).

(** [session.rollback()] *)
Definition rollback : Tx unit := fun w W => (Ok tt, durable W, W).

(** [print(...)] *)
Definition print (text : string) : Tx unit :=
  fun w W => (Ok tt, w, show (Printed text) W).

(** [try: body except Exception as e: handler] *)
Definition try_except {A} (body : Tx A) (handler : exn -> Tx A) : Tx A :=
  fun w W =>
    match body w W with
    | (Ok a, w', W') => (Ok a, w', W')
    | (Raise e, w', W') => handler e w' W'
    end.

(** [for x in l: body] *)
Fixpoint for_each {X} (l : list X) (body : X -> Tx unit) : Tx unit :=
  match l with
  | [] => ret tt
  | x :: r => bind (body x) (fun _ => for_each r body)
  end.

(** [session = Session()] ... : the body runs on a copy of the committed
    tables, and what it has not committed is lost with the session. *)
Definition in_session {A} (body : Tx A) (W : World) : result A * World :=
  match body (durable W) W with
  | (r, _, W') => (r, W')
  end.

(** [int(count)] *)
Definition int_of_cell (v : cell) : result Z :=
  match v with
  | Num z => Ok z
  | NaN => Raise ValueError
  end.

Definition insert_team (t : Team) (w : Db) : Db :=
  mkDb (tbl_teams w ++ [t]) (tbl_players w) (tbl_stats w).
Definition insert_player (p : Player) (w : Db) : Db :=
  mkDb (tbl_teams w) (tbl_players w ++ [p]) (tbl_stats w).
Definition insert_stat (s : Stat) (w : Db) : Db :=
  mkDb (tbl_teams w) (tbl_players w) (tbl_stats w ++ [s]).

(** [update(Stat).where(cond).values(count=f(count))]; the result is the
    number of rows matched. *)
Definition update_stats (cond : Stat -> bool) (f : Z -> Z) (w : Db)
  : nat * Db :=
  (List.length (filter cond (tbl_stats w)),
   mkDb (tbl_teams w) (tbl_players w)
     (map (fun s => if cond s
                    then mkStat (stat_id s) (stat_player_id s)
                                (stat_skill_name s) (f (stat_count s))
                    else s)
          (tbl_stats w))).

(** [create_team(team_name)]; [now] is the value of [datetime.now]. *)
Definition create_team (now : Z) (name : string) (W : World)
  : result Z * World :=
  in_session
    (bind (statement (fun w =>
             let id := next_id (map team_id (tbl_teams w)) in
             (id, insert_team (mkTeam id name now) w))) (fun id =>
     bind commit (fun _ =>
     (* team.id is read back after the commit *)
     bind (query (fun _ => id)) (fun id =>
     ret id)))) W.

(** [add_players_to_team(team_id, player_names)] *)
Definition add_players_to_team (team : Z) (player_names : list string)
  (W : World) : result unit * World :=
  in_session
    (bind (for_each player_names (fun name =>
             statement (fun w =>
               let id := next_id (map player_id (tbl_players w)) in
               (tt, insert_player (mkPlayer id name team) w)))) (fun _ =>
     commit)) W.

(** [initialize_player_stats(player_id, skill_names)] *)
Definition initialize_player_stats (player : Z) (skill_names : list string)
  (W : World) : result unit * World :=
  in_session
    (bind (for_each skill_names (fun skill =>
             statement (fun w =>
               let id := next_id (map stat_id (tbl_stats w)) in
               (tt, insert_stat (mkStat id player skill 0) w)))) (fun _ =>
     commit)) W.

(** [get_team_with_players(team_id)] *)
Definition get_team_with_players (team : Z) (W : World)
  : result (option Team * list Player) * World :=
  in_session
    (bind (query (fun w =>
             find (fun t => Z.eqb (team_id t) team) (tbl_teams w))) (fun t =>
     bind (query (fun w =>
             filter (fun p => Z.eqb (player_team_id p) team)
                    (tbl_players w))) (fun ps =>
     ret (t, ps)))) W.

(** [get_player_by_name(name)] *)
Definition get_player_by_name (name : string) (W : World)
  : result (option Player) * World :=
  in_session
    (query (fun w =>
       find (fun p => String.eqb (player_name p) name) (tbl_players w))) W.

(** [update_player_stat(player_id, skill_name)] *)
Definition update_player_stat (player : Z) (skill : string) (W : World)
  : bool * World :=
  match
    in_session
      (try_except
         (bind (statement (update_stats
                  (fun s => Z.eqb (stat_player_id s) player
                            && String.eqb (stat_skill_name s) skill)
                  (fun c => (c + 1)%Z))) (fun _ =>
          bind commit (fun _ =>
          ret true)))
         (fun _ =>
          bind (print "Error updating stat") (fun _ =>
          bind rollback (fun _ =>
          ret false)))) W
  with
  | (Ok b, W') => (b, W')
  | (Raise _, W') => (false, W')
  end.

(** The loop of [get_all_stats_for_team] that fills [stats_dict]. *)
Fixpoint fill_stats (id_to_name : list (Z * string)) (all_stats : list Stat)
  (stats_dict : list (string * list (string * Z)))
  : result (list (string * list (string * Z))) :=
  match all_stats with
  | [] => Ok stats_dict
  | stat :: r =>
      match PyDict.get Z.eqb (stat_player_id stat) id_to_name with
      | None => Raise KeyError
      | Some name =>
          match PyDict.get String.eqb name stats_dict with
          | None => Raise KeyError
          | Some inner =>
              fill_stats id_to_name r
                (PyDict.set String.eqb name
                   (PyDict.set String.eqb (stat_skill_name stat)
                      (stat_count stat) inner)
                   stats_dict)
          end
      end
  end.

(** [query(Stat.skill_name).distinct()]: every skill name of the table
    once, in the order of first occurrence. *)
Definition distinct_skill_names (w : Db) : list string :=
  fold_left (fun seen s => if has_label s seen then seen else seen ++ [s])
    (map stat_skill_name (tbl_stats w)) [].

(** [for skill in skills: if skill not in df.columns: df[skill] = 0] *)
Definition backfill_columns (skills : list string) (df : DataFrame)
  : DataFrame :=
  fold_left
    (fun df skill =>
       if has_label skill (columns df) then df else set_column_zero skill df)
    skills df.

(** [get_all_stats_for_team(team_id)] *)
Definition get_all_stats_for_team (team : Z) (W : World)
  : result DataFrame * World :=
  in_session
    (bind (query (fun w =>
             filter (fun p => Z.eqb (player_team_id p) team)
                    (tbl_players w))) (fun players =>
     let player_ids := map player_id players in
     let player_names := map player_name players in
     bind (query (fun w =>
             filter (fun s => existsb (Z.eqb (stat_player_id s)) player_ids)
                    (tbl_stats w))) (fun all_stats =>
     let stats_dict :=
       PyDict.of_list String.eqb (map (fun n => (n, [])) player_names) in
     let id_to_name :=
       PyDict.of_list Z.eqb
         (map (fun p => (player_id p, player_name p)) players) in
     match fill_stats id_to_name all_stats stats_dict with
     | Raise e => raise e
     | Ok stats_dict =>
         let df := from_dict_index stats_dict in
         bind (query distinct_skill_names) (fun skills =>
         ret (backfill_columns skills df))
     end))) W.

(** [get_most_recent_team()]: the team with the latest [created_at], the
    first of them in the table when several share it. *)
Definition get_most_recent_team (W : World) : result (option Team) * World :=
  in_session
    (query (fun w =>
       fold_left
         (fun best t =>
            match best with
            | None => Some t
            | Some b =>
                if (team_created_at b <? team_created_at t)%Z
                then Some t else best
            end)
         (tbl_teams w) None)) W.

(** [save_current_stats(team_id, stats_df)] *)
Definition save_current_stats (team : Z) (stats_df : DataFrame) (W : World)
  : result unit * World :=
  in_session
    (try_except
       (bind (query (fun w =>
                filter (fun p => Z.eqb (player_team_id p) team)
                       (tbl_players w))) (fun players =>
        let player_name_to_id :=
          PyDict.of_list String.eqb
            (map (fun p => (player_name p, player_id p)) players) in
        bind (for_each (iterrows stats_df) (fun row =>
          match PyDict.get String.eqb (fst row) player_name_to_id with
          | None => ret tt
          | Some player =>
              for_each (snd row) (fun item =>
                let skill_name := fst item in
                match int_of_cell (snd item) with
                | Raise e => raise e
                | Ok count =>
                    bind (statement (update_stats
                            (fun s => Z.eqb (stat_player_id s) player
                                      && String.eqb (stat_skill_name s)
                                                    skill_name)
                            (fun _ => count))) (fun rowcount =>
                    if rowcount =? 0 then
                      bind (statement (fun w =>
                              let id := next_id (map stat_id (tbl_stats w)) in
                              (id, insert_stat
                                     (mkStat id player skill_name 0) w)))
                        (fun new_id =>
                      bind (statement (update_stats
                              (fun s => Z.eqb (stat_id s) new_id)
                              (fun _ => count))) (fun _ =>
                      ret tt))
                    else ret tt)
                end)
          end)) (fun _ =>
        commit)))
       (fun _ =>
        bind (print "Error saving stats") (fun _ =>
        rollback))) W.

End Store.

(** ** The handlers of [app.py] *)

(** The session state together with what lies outside it. *)
Record App : Type := mkApp {
  session : SessionState;
  world : World
}.

(** How a handler ends: it returns, it asks for a rerun of the script
    ([st.rerun()]), or an exception escapes it. *)
Inductive Flow : Type :=
| Returned
| Rerun
| Crashed (e : exn).

(** A value passed as [command]: a string, [None], or some other object
    with its truth value. *)
Inductive pyobj : Type :=
| PyString (s : string)
| PyNone
| PyOther (truth : bool).

Section Handlers.

Variable faults : nat -> bool.

(** The store part of [handle_voice_command]. *)
Definition write_through (player_name skill : string) (W : World) : World :=
  match get_player_by_name faults player_name W with
  | (Ok (Some player), W1) =>
      snd (update_player_stat faults (player_id player) skill W1)
  | (Ok None, W1) => W1
  | (Raise _, W1) => show (StWarning "Could not save stat to database") W1
  end.

(** [handle_voice_command(command)] *)
Definition handle_voice_command (command : pyobj) (a : App) : App * Flow :=
  match command with
  | PyNone | PyOther _ => (a, Returned)
  | PyString command =>
      if negb (PyStr.truthy command) then (a, Returned)
      else
        let ss := set_last_command command (session a) in
        let ss :=
          set_command_history (firstn 10 (command :: command_history ss)) ss in
        let a := mkApp ss (world a) in
        if List.length (words command) <? 2 then (a, Returned)
        else
          match first_mention command (players ss) with
          | None => (a, Returned)
          | Some player_name =>
              if negb (PyStr.truthy player_name) then (a, Returned)
              else
                match first_mention command VOLLEYBALL_SKILLS with
                | None => (a, Returned)
                | Some skill =>
                    if negb (PyStr.truthy skill) then (a, Returned)
                    else
                      match stats_df ss with
                      | None => (a, Crashed AttributeError)
                      | Some df =>
                          if has_label player_name (index df)
                             && has_label skill (columns df)
                          then
                            let ss :=
                              set_stats_df
                                (Some (loc_add1 player_name skill df)) ss in
                            let W :=
                              if team_id_truthy (current_team_id ss)
                              then write_through player_name skill (world a)
                              else world a in
                            (mkApp ss W, Rerun)
                          else (a, Returned)
                      end
                end
          end
  end.

(** The messages of the voice tab. *)
Definition voice_warning : string :=
  "Voice recognition is currently not fully functional in this environment. Please use the Manual Input tab instead.".
Definition voice_info : string :=
  "In a supported environment, this would allow you to use voice commands like 'John Serve Ace' to update stats in real-time.".
Definition voice_off : string :=
  "Enable voice recognition to start tracking stats with voice commands.".

(** [voice_recognition_component(key)]: a warning, an info, and always
    [None]. *)
Definition voice_recognition_component (W : World) : pyobj * World :=
  (PyNone, show (StInfo voice_info) (show (StWarning voice_warning) W)).

(** [load_existing_team()]; [load_team] is the state of the Load Team
    button. *)
Definition load_existing_team (load_team : bool) (a : App) : App * Flow :=
  let failed W :=
    show (StError "Database connection error. Please create a new team.") W in
  match get_most_recent_team faults (world a) with
  | (Raise _, W) => (mkApp (session a) (failed W), Returned)
  | (Ok None, W) => (mkApp (session a) W, Returned)
  | (Ok (Some recent_team), W) =>
      let team := team_id recent_team in
      match get_team_with_players faults team W with
      | (Raise _, W) => (mkApp (session a) (failed W), Returned)
      | (Ok (_, team_players), W) =>
          let player_names := map player_name team_players in
          let W := show (StWarning "Found existing team") W in
          if load_team then
            let ss :=
              set_players player_names
                (set_current_team_id (Some team) (session a)) in
            match get_all_stats_for_team faults team W with
            | (Raise _, W) => (mkApp ss (failed W), Returned)
            | (Ok df, W) =>
                let df := backfill_columns VOLLEYBALL_SKILLS df in
                (mkApp (set_stats_df (Some df) ss)
                       (show (StSuccess "Loaded team") W), Rerun)
            end
          else (mkApp (session a) W, Returned)
      end
  end.

(** [[p.strip() for p in players_input.split('\n') if p.strip()]] *)
Definition parse_players (players_input : string) : list string :=
  map PyStr.strip
    (filter (fun p => PyStr.truthy (PyStr.strip p))
       (PyStr.split_on "010"%char players_input)).

(** The loop of the setup form over the new players. *)
Fixpoint initialize_all (names : list string) (W : World)
  : result unit * World :=
  match names with
  | [] => (Ok tt, W)
  | name :: r =>
      match get_player_by_name faults name W with
      | (Raise e, W) => (Raise e, W)
      | (Ok None, W) => initialize_all r W
      | (Ok (Some player), W) =>
          match initialize_player_stats faults (player_id player)
                  VOLLEYBALL_SKILLS W with
          | (Raise e, W) => (Raise e, W)
          | (Ok _, W) => initialize_all r W
          end
      end
  end.

(** The setup form, submitted with Start Tracking. *)
Definition start_tracking (now : Z) (team_name players_input : string)
  (a : App) : App * Flow :=
  let players := parse_players players_input in
  match players with
  | [] =>
      (mkApp (session a)
             (show (StError "Please enter at least one player name.")
                   (world a)), Returned)
  | _ :: _ =>
      let in_memory (ss : SessionState) (W : World) :=
        let W := show (StWarning "Database connection issue") W in
        let W := show (StInfo "Creating team in memory only") W in
        (mkApp (set_stats_df (Some (create_stats_dataframe players))
                  (set_players players (set_current_team_id None ss))) W,
         Rerun) in
      match create_team faults now team_name (world a) with
      | (Raise _, W) => in_memory (session a) W
      | (Ok team, W) =>
          match add_players_to_team faults team players W with
          | (Raise _, W) => in_memory (session a) W
          | (Ok _, W) =>
              match initialize_all players W with
              | (Raise _, W) => in_memory (session a) W
              | (Ok _, W) =>
                  let df := create_stats_dataframe players in
                  let ss :=
                    set_stats_df (Some df)
                      (set_players players
                         (set_current_team_id (Some team) (session a))) in
                  match save_current_stats faults team df W with
                  | (Raise _, W) => in_memory ss W
                  | (Ok _, W) =>
                      (mkApp ss (show (StSuccess "Team created successfully!")
                                      W), Rerun)
                  end
              end
          end
      end
  end.

(** The buttons below are drawn only on the tracking page, that is when
    [stats_df] is not [None]. *)

(** Save Stats *)
Definition save_stats_button (a : App) : App * Flow :=
  match stats_df (session a) with
  | None => (a, Returned)
  | Some df =>
      match current_team_id (session a) with
      | Some team =>
          if team_id_truthy (Some team) then
            match save_current_stats faults team df (world a) with
            | (Ok _, W) =>
                (mkApp (session a)
                   (show (StSuccess "Stats saved to database successfully!")
                         W), Returned)
            | (Raise _, W) =>
                (mkApp (session a) (show (StError "Failed to save stats") W),
                 Returned)
            end
          else
            (mkApp (session a)
               (show (StWarning
                        "Cannot save stats - team not stored in database")
                     (world a)), Returned)
      | None =>
          (mkApp (session a)
             (show (StWarning
                      "Cannot save stats - team not stored in database")
                   (world a)), Returned)
      end
  end.

(** Reset Stats *)
Definition reset_stats_button (a : App) : App * Flow :=
  match stats_df (session a) with
  | None => (a, Returned)
  | Some _ =>
      let df := create_stats_dataframe (players (session a)) in
      let ss := set_stats_df (Some df) (session a) in
      let in_memory_only :=
        show (StSuccess "Stats reset in memory only!") (world a) in
      let W :=
        match current_team_id ss with
        | Some team =>
            if team_id_truthy (Some team) then
              match save_current_stats faults team df (world a) with
              | (Ok _, W) =>
                  show (StSuccess "Stats reset and saved to database!") W
              | (Raise _, W) =>
                  show (StWarning
                          "Stats reset in memory but database update failed")
                       W
              end
            else in_memory_only
        | None => in_memory_only
        end in
      (mkApp ss W, Rerun)
  end.

(** Start Over (New Team) *)
Definition start_over_button (a : App) : App * Flow :=
  match stats_df (session a) with
  | None => (a, Returned)
  | Some _ =>
      (mkApp (set_current_team_id None
                (set_listening false
                   (set_players [] (set_stats_df None (session a)))))
             (world a), Rerun)
  end.

(** What follows a call of [handle_voice_command] from the manual tab:
    [st.success(f"Added: {command}")], unless the script was rerun. *)
Definition then_added (command : string) (r : App * Flow) : App * Flow :=
  match snd r with
  | Returned =>
      (mkApp (session (fst r))
             (show (StSuccess ("Added: " ++ command)) (world (fst r))),
       Returned)
  | _ => r
  end.

(** Add Stat from Dropdowns; the two arguments are what the select boxes
    hold. *)
Definition add_stat_from_dropdowns (player_name skill : option string)
  (a : App) : App * Flow :=
  match stats_df (session a), player_name, skill with
  | Some _, Some player_name, Some skill =>
      if PyStr.truthy player_name && PyStr.truthy skill then
        let manual_command := (player_name ++ " " ++ skill)%string in
        then_added manual_command
          (handle_voice_command (PyString manual_command) a)
      else (a, Returned)
  | _, _, _ => (a, Returned)
  end.

(** Add Stat from Text *)
Definition add_stat_from_text (text_command : string) (a : App)
  : App * Flow :=
  match stats_df (session a) with
  | None => (a, Returned)
  | Some _ =>
      if PyStr.truthy text_command then
        then_added text_command
          (handle_voice_command (PyString text_command) a)
      else (a, Returned)
  end.

(** The voice tab while listening. *)
Definition voice_tab (a : App) : App * Flow :=
  match stats_df (session a) with
  | None => (a, Returned)
  | Some _ =>
      let (command, W) := voice_recognition_component (world a) in
      let a := mkApp (session a) W in
      match command with
      | PyString c =>
          if PyStr.truthy c then handle_voice_command (PyString c) a
          else (a, Returned)
      | PyOther true => handle_voice_command (PyOther true) a
      | _ => (a, Returned)
      end
  end.

(** ** One run of the script *)

(** What the user did before the run.  A select box holds one of its
    options, given here by position. *)
Inductive Event : Type :=
| LoadTeam
| StartTracking (now : Z) (team_name players_input : string)
| SaveStats
| ResetStats
| StartOver
| AddFromDropdowns (player skill : nat)
| AddFromText (text_command : string)
| ToggleVoice (listening : bool).

(** A run is followed through the handler of the widget that the user
    acted on, up to the rerun it asks for or to its end.  The voice tab is
    followed in the run of its toggle; what it draws in the runs of the
    other widgets is not recorded. *)
Definition run_script (ev : Event) (a : App) : App * Flow :=
  match stats_df (session a) with
  | None =>
      match ev with
      | LoadTeam => load_existing_team true a
      | StartTracking now team_name players_input =>
          match load_existing_team false a with
          | (a, Returned) => start_tracking now team_name players_input a
          | r => r
          end
      | _ => load_existing_team false a
      end
  | Some _ =>
      match ev with
      | SaveStats => save_stats_button a
      | ResetStats => reset_stats_button a
      | StartOver => start_over_button a
      | AddFromDropdowns i j =>
          add_stat_from_dropdowns (nth_error (players (session a)) i)
            (nth_error VOLLEYBALL_SKILLS j) a
      | AddFromText text_command => add_stat_from_text text_command a
      | ToggleVoice on =>
          if Bool.eqb on (listening (session a)) then
            if on then voice_tab a
            else
              (mkApp (session a) (show (StInfo voice_off) (world a)),
               Returned)
          else (mkApp (set_listening on (session a)) (world a), Rerun)
      | _ => (a, Returned)
      end
  end.

(** The states the application can be in: the start, over any store, and
    what the runs of the script make of it. *)
Inductive reachable : App -> Prop :=
| reach_start (db : Db) :
    reachable (mkApp initial_session (mkWorld db 0 []))
| reach_run (ev : Event) (a : App) :
    reachable a -> reachable (fst (run_script ev a)).

End Handlers.

(** ** Notions used by the statements *)

(** [x] is the first element of [l] that satisfies [f]. *)
Definition first_such {A} (f : A -> bool) (l : list A) (x : A) : Prop :=
  exists before after,
    l = before ++ x :: after /\ f x = true
    /\ Forall (fun y => f y = false) before.

(** The in-memory ledger of a state. *)
Definition ledger (a : App) : option DataFrame := stats_df (session a).

(** A store in which no statement raises. *)
Definition no_faults : nat -> bool := fun _ => false.

(** The session after the two bookkeeping steps of
    [handle_voice_command]: the last command and the bounded history. *)
Definition logged (command : string) (ss : SessionState) : SessionState :=
  set_command_history (firstn 10 (command :: command_history ss))
    (set_last_command command ss).

(** Resolution of any value passed as a command: only a string can
    resolve. *)
Definition resolves (players : list string) (command : pyobj)
  : option (string * string) :=
  match command with
  | PyString c => resolution players c
  | PyNone | PyOther _ => None
  end.

(** Every column has one value per row. *)
Definition rectangular (df : DataFrame) : Prop :=
  Forall (fun cv => List.length (snd cv) = List.length (index df)) (data df).

(** The ledger is the table of a roster: its rows are the players, in
    order, its columns the skills, in order, and it has one value per row
    and column. *)
Definition roster_shaped (df : DataFrame) (players : list string) : Prop :=
  index df = players /\ columns df = VOLLEYBALL_SKILLS /\ rectangular df.

(** The keys of the cells of the ledger of a state. *)
Definition ledger_keys (a : App) : list (string * string) :=
  match ledger a with
  | Some df => cell_keys df
  | None => []
  end.

(** A store that holds one team with one player, and for that player a
    count under a skill name that is not in the enumeration. *)
Definition legacy_db : Db :=
  mkDb [mkTeam 1 "Old Team" 0] [mkPlayer 1 "Ann" 1] [mkStat 1 1 "Dig" 4].

(** The application after Load Team over that store. *)
Definition loaded_app : App :=
  fst (run_script no_faults LoadTeam
         (mkApp initial_session (mkWorld legacy_db 0 []))).

(** What a piece of a session may do: it sends statements one after the
    other, shows nothing, returns normally only if none of the statements
    it sent was a failing one, and changes the committed tables only by
    committing, which it may do only when [commits] allows it and never on
    the way to an exception. *)
Definition tx_ok (faults : nat -> bool) {A} (commits : bool) (m : Tx A)
  : Prop :=
  forall w W,
    match m w W with
    | (r, _, W') =>
        sent W <= sent W'
        /\ shown W' = shown W
        /\ match r with
           | Ok _ =>
               (forall n, sent W <= n < sent W' -> faults n = false)
               /\ (commits = false -> durable W' = durable W)
           | Raise _ => durable W' = durable W
           end
    end.

(** The ledger has a row for every player of the roster and a column for
    every skill. *)
Definition holds_roster (df : DataFrame) (players : list string) : Prop :=
  (forall q, In q players -> has_label q (index df) = true)
  /\ (forall s, In s VOLLEYBALL_SKILLS -> has_label s (columns df) = true).

(** The text of the players box for the given lines. *)
Definition lines (l : list string) : string :=
  String.concat (String "010"%char EmptyString) l.

(** The application at its start, over an empty store. *)
Definition fresh_app : App :=
  mkApp initial_session (mkWorld (mkDb [] [] []) 0 []).

(** The application once the setup form was submitted with the given
    players, the store serving every statement. *)
Definition tracking_app (names : list string) : App :=
  fst (run_script no_faults
         (StartTracking 0 "My Volleyball Team" (lines names)) fresh_app).

(** The (row label, column label) keys of a roster and the skill
    enumeration, column by column. *)
Definition roster_keys (players : list string) : list (string * string) :=
  flat_map (fun skill => map (fun p => (p, skill)) players) VOLLEYBALL_SKILLS.

(** ** Notions used by the further statements *)

(** Every character of the string is white space. *)
Definition all_space (s : string) : bool :=
  forallb PyStr.isspace (list_ascii_of_string s).

(** The tables after the rows of [initialize_player_stats],
    [add_players_to_team] were added one by one. *)
Definition with_new_stats (player : Z) (skill_names : list string) (w : Db)
  : Db :=
  fold_left
    (fun w skill =>
       insert_stat
         (mkStat (next_id (map stat_id (tbl_stats w))) player skill 0) w)
    skill_names w.

Definition with_new_players (team : Z) (player_names : list string) (w : Db)
  : Db :=
  fold_left
    (fun w name =>
       insert_player
         (mkPlayer (next_id (map player_id (tbl_players w))) name team) w)
    player_names w.

(** Strictly increasing identifiers, all above [lo]. *)
Fixpoint ascending_from (lo : Z) (ids : list Z) : Prop :=
  match ids with
  | [] => True
  | x :: r => (lo < x)%Z /\ ascending_from x r
  end.

(** The ledger of a state, when there is one, is a full table: every
    column has one value per row and every skill is a column. *)
Definition full_table (a : App) : Prop :=
  forall df,
    ledger a = Some df ->
    rectangular df
    /\ forall s, In s VOLLEYBALL_SKILLS -> has_label s (columns df) = true.

(** The store serves every statement from now on. *)
Definition served (faults : nat -> bool) (W : World) : Prop :=
  forall n, sent W <= n -> faults n = false.

(** Nothing was committed or shown between [W] and [W']. *)
Definition later (W W' : World) : Prop :=
  durable W' = durable W /\ shown W' = shown W /\ sent W <= sent W'.

(** The row of a player and skill. *)
Definition hits (player : Z) (skill : string) (s : Stat) : bool :=
  Z.eqb (stat_player_id s) player && String.eqb (stat_skill_name s) skill.

(** The loop bodies of [save_current_stats]: what it does for one cell of
    a row, and for one row. *)
Definition save_cell (faults : nat -> bool) (player : Z)
  (item : string * cell) : Tx unit :=
  let skill_name := fst item in
  match int_of_cell (snd item) with
  | Raise e => raise e
  | Ok count =>
      bind (statement faults (update_stats
              (fun s => Z.eqb (stat_player_id s) player
                        && String.eqb (stat_skill_name s) skill_name)
              (fun _ => count))) (fun rowcount =>
      if rowcount =? 0 then
        bind (statement faults (fun w =>
                let id := next_id (map stat_id (tbl_stats w)) in
                (id, insert_stat (mkStat id player skill_name 0) w)))
          (fun new_id =>
        bind (statement faults (update_stats
                (fun s => Z.eqb (stat_id s) new_id)
                (fun _ => count))) (fun _ =>
        ret tt))
      else ret tt)
  end.

Definition save_row (faults : nat -> bool) (name_to_id : list (string * Z))
  (row : string * list (string * cell)) : Tx unit :=
  match PyDict.get String.eqb (fst row) name_to_id with
  | None => ret tt
  | Some player => for_each (snd row) (save_cell faults player)
  end.

(** [player_name_to_id] of [save_current_stats]. *)
Definition player_name_to_id (team : Z) (w : Db) : list (string * Z) :=
  PyDict.of_list String.eqb
    (map (fun p => (player_name p, player_id p))
       (filter (fun p => Z.eqb (player_team_id p) team) (tbl_players w))).

(** What [save_current_stats] does to the tables for one cell when its
    statements are served: the rows of the player and skill get the count;
    when there is none, a row is inserted and then given the count. *)
Definition upsert (player : Z) (skill : string) (count : Z) (w : Db) : Db :=
  let w1 := snd (update_stats (hits player skill) (fun _ => count) w) in
  if fst (update_stats (hits player skill) (fun _ => count) w) =? 0 then
    let id := next_id (map stat_id (tbl_stats w1)) in
    snd (update_stats (fun s => Z.eqb (stat_id s) id) (fun _ => count)
           (insert_stat (mkStat id player skill 0) w1))
  else w1.

Definition upsert_cell (w : Db) (c : Z * string * cell) : Db :=
  match snd c with
  | Num count => upsert (fst (fst c)) (snd (fst c)) count w
  | NaN => w
  end.

(** The cells that [save_current_stats] visits, in its order: for every
    row whose label is a player of the team, every column. *)
Definition cells_of_rows (name_to_id : list (string * Z))
  (rows : list (string * list (string * cell))) : list (Z * string * cell) :=
  flat_map
    (fun row =>
       match PyDict.get String.eqb (fst row) name_to_id with
       | None => []
       | Some player =>
           map (fun item => (player, fst item, snd item)) (snd row)
       end)
    rows.

Definition saved_cells (team : Z) (df : DataFrame) (w : Db)
  : list (Z * string * cell) :=
  cells_of_rows (player_name_to_id team w) (iterrows df).

(** The store holds the count for the player and skill: there is a row,
    and every row of that player and skill has the count. *)
Definition holds_count (w : Db) (player : Z) (skill : string) (count : Z)
  : Prop :=
  (exists s, In s (tbl_stats w) /\ hits player skill s = true)
  /\ forall s, In s (tbl_stats w) -> hits player skill s = true ->
               stat_count s = count.

(** A store from before the tracker initialised every skill: two players
    of one team with one stat each, for different skills. *)
Definition ragged_db : Db :=
  mkDb [mkTeam 1 "Old Team" 0] [mkPlayer 1 "Ann" 1; mkPlayer 2 "Bo" 1]
       [mkStat 1 1 "Kill" 2; mkStat 2 2 "Block" 1].

(** The application after Load Team over that store. *)
Definition ragged_app : App :=
  fst (run_script no_faults LoadTeam
         (mkApp initial_session (mkWorld ragged_db 0 []))).






(** A store with two teams that each have a player called Ann, and the
    application tracking the second team. *)
Definition namesake_db : Db :=
  mkDb [mkTeam 1 "Juniors" 0; mkTeam 2 "Seniors" 1]
       [mkPlayer 1 "Ann" 1; mkPlayer 2 "Ann" 2]
       [mkStat 1 1 "Kill" 0; mkStat 2 2 "Kill" 0].

Definition namesake_app : App :=
  mkApp (mkSession (Some (create_stats_dataframe ["Ann"])) ["Ann"] false
           "" [] (Some 2%Z))
        (mkWorld namesake_db 0 []).

(** The entry of a dictionary of dictionaries. *)
Definition lookup2 {V} (d : list (string * list (string * V)))
  (k1 k2 : string) : option V :=
  match PyDict.get String.eqb k1 d with
  | Some inner => PyDict.get String.eqb k2 inner
  | None => None
  end.

(** The parts of [from_dict_index]: the dictionary turned over, one row
    at a time, and the row labels gathered from its columns. *)
Definition transpose_row (row : string * list (string * Z))
  (nd : list (string * list (string * Z))) : list (string * list (string * Z)) :=
  fold_left
    (fun nd cv =>
       let inner :=
         match PyDict.get String.eqb (fst cv) nd with
         | Some m => m
         | None => []
         end in
       PyDict.set String.eqb (fst cv)
         (PyDict.set String.eqb (fst row) (snd cv) inner) nd)
    (snd row) nd.

Definition transpose (d : list (string * list (string * Z)))
  : list (string * list (string * Z)) :=
  fold_left (fun nd row => transpose_row row nd) d [].

Definition add_label (idx : list string) (k : string) : list string :=
  if has_label k idx then idx else idx ++ [k].

Definition row_labels (new_data : list (string * list (string * Z)))
  : list string :=
  fold_left
    (fun idx col => fold_left add_label (map fst (snd col)) idx)
    new_data [].

(** The players of a team, as the queries of the store select them. *)
Definition team_players (team : Z) (w : Db) : list Player :=
  filter (fun p => Z.eqb (player_team_id p) team) (tbl_players w).

(** * Properties *)

(** ** The definitions at work *)

Example lower_keeps_other_characters :
  PyStr.lower "John Serve ACE 7!" = "john serve ace 7!".
Proof. vm_compute. reflexivity. Qed.

Example split_drops_white_space :
  PyStr.split "  add a	kill  for john " = ["add"; "a"; "kill"; "for"; "john"].
Proof. vm_compute. reflexivity. Qed.

Example strip_keeps_inner_space : PyStr.strip "  a b  " = "a b".
Proof. vm_compute. reflexivity. Qed.

Example parse_players_skips_blank_lines :
  parse_players (lines ["Ann"; "  "; " Bo "; ""]) = ["Ann"; "Bo"].
Proof. vm_compute. reflexivity. Qed.

Example john_serve_ace :
  resolution ["John"; "Mary"] "john serve ace" = Some ("John", "Serve Ace").
Proof. vm_compute. reflexivity. Qed.

Example free_form_phrase :
  resolution ["John"; "Mary"] "Add a kill for John" = Some ("John", "Kill").
Proof. vm_compute. reflexivity. Qed.

Example loaded_ledger_columns :
  option_map columns (ledger loaded_app)
  = Some ("Dig"%string :: VOLLEYBALL_SKILLS).
Proof. vm_compute. reflexivity. Qed.

(** ** Strings and scans *)

Lemma prefix_spec (n h : string) :
  String.prefix n h = true <-> exists post, h = (n ++ post)%string.
Proof.
  revert h. induction n as [|c n IH]; intros h.
  - split; [intros _; now exists h | intros _; now destruct h].
  - destruct h as [|d h]; simpl.
    + split; [discriminate | intros [post H]; discriminate].
    + destruct (ascii_dec c d) as [->|ne].
      * rewrite IH. split; intros [post H]; exists post.
        -- now rewrite H.
        -- now injection H.
      * split; [discriminate |].
        intros [post H]. injection H as H1 _. now elim ne.
Qed.

Lemma contains_unfold (n h : string) :
  PyStr.contains n h
  = String.prefix n h
    || match h with
       | EmptyString => false
       | String _ r => PyStr.contains n r
       end.
Proof. now destruct h. Qed.

Lemma contains_spec (n h : string) :
  PyStr.contains n h = true <-> PyStr.occurs_in n h.
Proof.
  unfold PyStr.occurs_in. split.
  - induction h as [|c h IH]; rewrite contains_unfold; intros H.
    + rewrite orb_false_r in H. apply prefix_spec in H as [post H].
      now exists ""%string, post.
    + apply orb_true_iff in H as [H|H].
      * apply prefix_spec in H as [post H]. now exists ""%string, post.
      * destruct (IH H) as (pre & post & E).
        exists (String c pre), post. simpl. now rewrite E.
  - intros (pre & post & E). revert h E.
    induction pre as [|c pre IH]; intros h E.
    + rewrite contains_unfold. apply orb_true_iff. left.
      apply prefix_spec. now exists post.
    + subst h. rewrite contains_unfold. apply orb_true_iff. right.
      now apply IH.
Qed.

(** The test of the two scans, in words: the lowercased name occurs in
    the lowercased command. *)
Lemma mentions_spec (command name : string) :
  mentions command name = true
  <-> PyStr.occurs_in (PyStr.lower name) (PyStr.lower command).
Proof. apply contains_spec. Qed.

Lemma truthy_spec (s : string) : PyStr.truthy s = true <-> s <> ""%string.
Proof. destruct s; simpl; split; congruence. Qed.

Lemma find_first_such {A} (f : A -> bool) (l : list A) (x : A) :
  find f l = Some x <-> first_such f l x.
Proof.
  unfold first_such. induction l as [|y l IH]; simpl.
  - split; [discriminate |].
    intros (before & after & E & _). now destruct before.
  - destruct (f y) eqn:Fy.
    + split.
      * intros [= ->]. exists [], l. auto.
      * intros (before & after & E & Fx & Hb).
        destruct before as [|b before]; simpl in E.
        -- now injection E as ->.
        -- injection E as -> _. inversion Hb; congruence.
    + rewrite IH. split.
      * intros (before & after & -> & Fx & Hb).
        exists (y :: before), after. repeat split; auto.
      * intros (before & after & E & Fx & Hb).
        destruct before as [|b before]; simpl in E.
        -- injection E as -> _. congruence.
        -- injection E as -> ->. exists before, after.
           inversion Hb; auto.
Qed.

Lemma find_none_forall {A} (f : A -> bool) (l : list A) :
  find f l = None <-> Forall (fun y => f y = false) l.
Proof.
  induction l as [|y l IH]; simpl.
  - split; auto.
  - destruct (f y) eqn:Fy.
    + split; [discriminate | intros H; inversion H; congruence].
    + rewrite IH. split; [auto | intros H; now inversion H].
Qed.

(** Some element satisfying [f] means the scan finds one. *)
Lemma find_some_of_in {A} (f : A -> bool) (l : list A) (x : A) :
  In x l -> f x = true -> exists y, find f l = Some y.
Proof.
  intros Hin Fx. destruct (find f l) as [y|] eqn:E; [now exists y |].
  apply find_none_forall in E. rewrite Forall_forall in E.
  specialize (E x Hin). congruence.
Qed.

Lemma skills_truthy :
  Forall (fun s => PyStr.truthy s = true) VOLLEYBALL_SKILLS.
Proof. repeat constructor. Qed.

Lemma first_mention_skill_truthy (command skill : string) :
  first_mention command VOLLEYBALL_SKILLS = Some skill ->
  PyStr.truthy skill = true.
Proof.
  intros H. apply find_some in H as [Hin _].
  pose proof skills_truthy as T. rewrite Forall_forall in T. auto.
Qed.

(** [resolution] spelled out. *)
Lemma resolution_some (players : list string) (command p s : string) :
  resolution players command = Some (p, s)
  <-> 2 <= List.length (words command)
      /\ first_mention command players = Some p
      /\ PyStr.truthy p = true
      /\ first_mention command VOLLEYBALL_SKILLS = Some s.
Proof.
  unfold resolution.
  destruct (Nat.ltb_spec (List.length (words command)) 2) as [Hlt|Hge].
  - split; [discriminate | intros [H _]; lia].
  - destruct (first_mention command players) as [p'|] eqn:Ep.
    + destruct (PyStr.truthy p') eqn:Tp; cbn [negb].
      * destruct (first_mention command VOLLEYBALL_SKILLS) as [s'|] eqn:Es.
        -- rewrite (first_mention_skill_truthy _ _ Es). cbn [negb].
           split.
           ++ intros [= -> ->]. auto.
           ++ intros (_ & [= ->] & _ & [= ->]). reflexivity.
        -- split; [discriminate | intros (_ & _ & _ & H); discriminate].
      * split; [discriminate |].
        intros (_ & [= ->] & T & _). congruence.
    + split; [discriminate | intros (_ & H & _); discriminate].
Qed.

(** ** Frames *)

Lemma get_map_values {V} (g : string -> V -> V) (c : string)
  (d : list (string * V)) :
  PyDict.get String.eqb c (map (fun cv => (fst cv, g (fst cv) (snd cv))) d)
  = option_map (g c) (PyDict.get String.eqb c d).
Proof.
  induction d as [|[k v] d IH]; simpl; [reflexivity |].
  destruct (String.eqb_spec c k) as [->|ne]; [reflexivity | exact IH].
Qed.

Lemma loc_add1_data (label col : string) (df : DataFrame) :
  data (loc_add1 label col df)
  = map (fun cv =>
           (fst cv,
            (fun c vs => if String.eqb c col
                         then add1_rows (float_column vs) label (index df) vs
                         else vs)
              (fst cv) (snd cv)))
        (data df).
Proof.
  unfold loc_add1. simpl. apply map_ext. intros [c vs]. simpl.
  now destruct (String.eqb c col).
Qed.

Lemma nth_error_add1_rows (float : bool) (label : string)
  (idx : list string) (vs : list cell) (i : nat) :
  nth_error (add1_rows float label idx vs) i
  = match nth_error idx i with
    | Some l => if String.eqb l label
                then option_map (add1 float) (nth_error vs i)
                else nth_error vs i
    | None => nth_error vs i
    end.
Proof.
  revert vs i. induction idx as [|l idx IH]; intros vs i.
  - destruct vs; destruct i; reflexivity.
  - destruct vs as [|v vs].
    + destruct i; simpl; [now destruct (String.eqb l label) |].
      destruct (nth_error idx i); [now destruct (String.eqb _ _) | reflexivity].
    + destruct i; simpl.
      * now destruct (String.eqb l label).
      * apply IH.
Qed.

(** What [df.loc[label, col] += 1] does to each cell. *)
Lemma cell_at_loc_add1 (label col : string) (df : DataFrame) (i : nat)
  (c : string) :
  cell_at (loc_add1 label col df) i c
  = if String.eqb c col
    then match nth_error (index df) i with
         | Some l => if String.eqb l label
                     then option_map (add1 (float_at df c)) (cell_at df i c)
                     else cell_at df i c
         | None => cell_at df i c
         end
    else cell_at df i c.
Proof.
  unfold cell_at, float_at. rewrite loc_add1_data.
  rewrite (get_map_values
             (fun c vs => if String.eqb c col
                          then add1_rows (float_column vs) label (index df) vs
                          else vs)).
  destruct (PyDict.get String.eqb c (data df)) as [vs|]; simpl.
  - destruct (String.eqb c col); [| reflexivity].
    apply nth_error_add1_rows.
  - destruct (String.eqb c col); [| reflexivity].
    destruct (nth_error (index df) i); [| reflexivity].
    now destruct (String.eqb _ _).
Qed.

Lemma index_loc_add1 (label col : string) (df : DataFrame) :
  index (loc_add1 label col df) = index df.
Proof. reflexivity. Qed.

Lemma columns_loc_add1 (label col : string) (df : DataFrame) :
  columns (loc_add1 label col df) = columns df.
Proof.
  unfold columns. rewrite loc_add1_data, map_map. reflexivity.
Qed.

Lemma add1_rows_length (float : bool) (label : string) (idx : list string)
  (vs : list cell) :
  List.length (add1_rows float label idx vs) = List.length vs.
Proof.
  revert vs. induction idx as [|l idx IH]; intros [|v vs]; simpl; auto.
Qed.

Lemma rectangular_loc_add1 (label col : string) (df : DataFrame) :
  rectangular df -> rectangular (loc_add1 label col df).
Proof.
  unfold rectangular. rewrite loc_add1_data, index_loc_add1.
  rewrite Forall_map. apply Forall_impl. intros [c vs] H. simpl in *.
  destruct (String.eqb c col); [now rewrite add1_rows_length | exact H].
Qed.

(** ** Arithmetic of the columns *)


Lemma float64_exact (z : Z) : (Z.abs z <= 2 ^ 53)%Z -> float64 z = z.
Proof.
  intros H. unfold float64. cbv zeta.
  apply Z.leb_le in H. now rewrite H.
Qed.


Lemma is_missing_add1 (float : bool) (v : cell) :
  is_missing (add1 float v) = is_missing v.
Proof. now destruct v. Qed.

(** [df.loc[label, col] += 1] keeps the dtype of every column. *)
Lemma float_column_add1_rows (float : bool) (label : string)
  (idx : list string) (vs : list cell) :
  float_column (add1_rows float label idx vs) = float_column vs.
Proof.
  unfold float_column. revert vs.
  induction idx as [|l idx IH]; intros [|v vs]; cbn; auto.
  rewrite IH. destruct (String.eqb l label); [| reflexivity].
  now rewrite is_missing_add1.
Qed.

(** ** [handle_voice_command] in terms of [resolution] *)

Section HandleVoiceCommand.

Variable faults : nat -> bool.

(** A command that does not resolve is logged, when it is a non-empty
    string, and nothing else happens. *)
Lemma handle_voice_command_unresolved (command : pyobj) (a : App) :
  resolves (players (session a)) command = None ->
  handle_voice_command faults command a
  = (match command with
     | PyString c =>
         if PyStr.truthy c then mkApp (logged c (session a)) (world a) else a
     | PyNone | PyOther _ => a
     end, Returned).
Proof.
  destruct command as [c| |t]; [| reflexivity | reflexivity].
  unfold resolves, resolution, handle_voice_command. intros H.
  destruct (PyStr.truthy c); cbn [negb]; [| reflexivity].
  cbn [players set_command_history set_last_command session].
  fold (logged c (session a)).
  destruct (List.length (words c) <? 2); [reflexivity |].
  destruct (first_mention c (players (session a))) as [p|]; [| reflexivity].
  destruct (negb (PyStr.truthy p)); [reflexivity |].
  destruct (first_mention c VOLLEYBALL_SKILLS) as [s|]; [| reflexivity].
  destruct (negb (PyStr.truthy s)); [reflexivity | discriminate].
Qed.

(** A command that resolves to a cell of the ledger moves that cell and
    asks for a rerun. *)
Lemma handle_voice_command_resolved (c p s : string) (a : App)
  (df : DataFrame) :
  resolution (players (session a)) c = Some (p, s) ->
  ledger a = Some df ->
  has_label p (index df) = true ->
  has_label s (columns df) = true ->
  handle_voice_command faults (PyString c) a
  = (mkApp (set_stats_df (Some (loc_add1 p s df)) (logged c (session a)))
           (if team_id_truthy (current_team_id (session a))
            then write_through faults p s (world a) else world a),
     Rerun).
Proof.
  unfold ledger. intros R L Hp Hs.
  assert (T : PyStr.truthy c = true).
  { destruct c; [discriminate R | reflexivity]. }
  unfold resolution in R. unfold handle_voice_command.
  rewrite T. cbn [negb].
  cbn [players set_command_history set_last_command session stats_df
       current_team_id set_stats_df].
  fold (logged c (session a)).
  destruct (List.length (words c) <? 2); [discriminate |].
  destruct (first_mention c (players (session a))) as [p'|]; [| discriminate].
  destruct (negb (PyStr.truthy p')); [discriminate |].
  destruct (first_mention c VOLLEYBALL_SKILLS) as [s'|]; [| discriminate].
  destruct (negb (PyStr.truthy s')); [discriminate |].
  injection R as -> ->. rewrite L, Hp, Hs. reflexivity.
Qed.


(** The history after any call. *)
Lemma handle_voice_command_history (command : pyobj) (a : App) :
  command_history (session (fst (handle_voice_command faults command a)))
  = match command with
    | PyString c =>
        if PyStr.truthy c then firstn 10 (c :: command_history (session a))
        else command_history (session a)
    | PyNone | PyOther _ => command_history (session a)
    end.
Proof.
  destruct command as [c| |t]; [| reflexivity | reflexivity].
  unfold handle_voice_command.
  destruct (PyStr.truthy c); cbn [negb]; [| reflexivity].
  cbn [players set_command_history set_last_command session stats_df
       current_team_id set_stats_df].
  repeat match goal with
         | |- context [match ?x with _ => _ end] => destruct x
         end; reflexivity.
Qed.

End HandleVoiceCommand.

(** ** Command resolution *)

(** C3, as stated, fails: with the roster Ann, Joanne, the command
    "JoanneKill" has both names and the skill label Kill in it, Ann being
    the first player of the roster whose name it has, and resolution
    returns no pair: the command is one word.  And with a roster that
    lists the empty name before Ann, the command "Ann Kill" has both names
    in it, the empty one being the first, and resolution returns no pair:
    an empty name is taken for no player. *)
Lemma names_in_one_word_are_no_match :
  PyStr.occurs_in (PyStr.lower "Ann") (PyStr.lower "JoanneKill")
  /\ PyStr.occurs_in (PyStr.lower "Joanne") (PyStr.lower "JoanneKill")
  /\ PyStr.occurs_in (PyStr.lower "Kill") (PyStr.lower "JoanneKill")
  /\ first_such (mentions "JoanneKill") ["Ann"; "Joanne"] "Ann"
  /\ first_such (mentions "JoanneKill") VOLLEYBALL_SKILLS "Kill"
  /\ words "JoanneKill" = ["joannekill"]
  /\ resolution ["Ann"; "Joanne"] "JoanneKill" = None
  /\ resolution ["Ann"; "Joanne"] "JoanneKill" <> Some ("Ann", "Kill")
  /\ PyStr.occurs_in (PyStr.lower "") (PyStr.lower "Ann Kill")
  /\ PyStr.occurs_in (PyStr.lower "Ann") (PyStr.lower "Ann Kill")
  /\ first_such (mentions "Ann Kill") [""; "Ann"] ""
  /\ first_such (mentions "Ann Kill") VOLLEYBALL_SKILLS "Kill"
  /\ words "Ann Kill" = ["ann"; "kill"]
  /\ resolution [""; "Ann"] "Ann Kill" = None.
Proof.
  split; [now exists "jo"%string, "ekill"%string |].
  split; [now exists ""%string, "kill"%string |].
  split; [now exists "joanne"%string, ""%string |].
  split.
  { exists [], ["Joanne"]. split; [reflexivity |].
    split; [vm_compute; reflexivity | constructor]. }
  split.
  { exists (firstn 8 VOLLEYBALL_SKILLS), (skipn 9 VOLLEYBALL_SKILLS).
    split; [reflexivity |]. split; [vm_compute; reflexivity |].
    repeat (constructor; [vm_compute; reflexivity |]). constructor. }
  split; [vm_compute; reflexivity |].
  split; [vm_compute; reflexivity |].
  split; [vm_compute; discriminate |].
  split; [now exists ""%string, "ann kill"%string |].
  split; [now exists ""%string, " kill"%string |].
  split.
  { exists [], ["Ann"]. split; [reflexivity |].
    split; [vm_compute; reflexivity | constructor]. }
  split.
  { exists (firstn 8 VOLLEYBALL_SKILLS), (skipn 9 VOLLEYBALL_SKILLS).
    split; [reflexivity |]. split; [vm_compute; reflexivity |].
    repeat (constructor; [vm_compute; reflexivity |]). constructor. }
  split; vm_compute; reflexivity.
Qed.

(** C3, amended. Resolution returns a pair exactly when the command has
    at least two words, and then the pair is the first player of the
    roster, in its stored order, whose lowercased name occurs in the
    lowercased command (a non-empty name), with the first skill of the
    enumeration, in its declared order, whose lowercased label occurs in
    it: the first listed match wins, whatever the lengths of the names. *)
Theorem first_listed_match_wins (players : list string)
  (command p s : string) :
  resolution players command = Some (p, s)
  <-> 2 <= List.length (words command)
      /\ p <> ""%string
      /\ first_such (mentions command) players p
      /\ first_such (mentions command) VOLLEYBALL_SKILLS s.
Proof.
  rewrite resolution_some, truthy_spec.
  unfold first_mention. rewrite !find_first_such. tauto.
Qed.

Lemma first_listed_match_wins_witness :
  resolution ["Ann"; "Joanne"] "Joanne Kill" = Some ("Ann", "Kill").
Proof.
  apply (proj2 (first_listed_match_wins
                  ["Ann"; "Joanne"] "Joanne Kill" "Ann" "Kill")).
  split; [vm_compute; lia |].
  split; [discriminate |].
  split.
  - exists [], ["Joanne"]. split; [reflexivity |].
    split; [vm_compute; reflexivity | constructor].
  - exists (firstn 8 VOLLEYBALL_SKILLS), (skipn 9 VOLLEYBALL_SKILLS).
    split; [reflexivity |]. split; [vm_compute; reflexivity |].
    repeat (constructor; [vm_compute; reflexivity |]). constructor.
Defined.



Lemma create_stats_dataframe_data (players : list string) :
  data (create_stats_dataframe players)
  = map (fun skill => (skill, repeat (Num 0) (List.length players)))
        VOLLEYBALL_SKILLS.
Proof. reflexivity. Qed.

Lemma columns_create_stats_dataframe (players : list string) :
  columns (create_stats_dataframe players) = VOLLEYBALL_SKILLS.
Proof. reflexivity. Qed.

Lemma has_label_in (label : string) (labels : list string) :
  has_label label labels = true <-> In label labels.
Proof.
  unfold has_label. rewrite existsb_exists. split.
  - intros (x & Hin & E). apply String.eqb_eq in E. now subst.
  - intros Hin. exists label. split; [exact Hin | apply String.eqb_refl].
Qed.

Lemma holds_roster_create (players : list string) :
  holds_roster (create_stats_dataframe players) players.
Proof.
  split; intros x Hx; apply has_label_in.
  - exact Hx.
  - rewrite columns_create_stats_dataframe. exact Hx.
Qed.


(** C2, as stated, fails: with the roster John, Mary, in which nobody is
    called johnny, the command "johnny block" resolves to (John, Block),
    since the lowercased name "john" occurs in "johnny block". *)
Lemma johnny_block_resolves_to_john :
  In "John"%string ["John"; "Mary"]
  /\ existsb (fun q => String.eqb (PyStr.lower q) "johnny") ["John"; "Mary"]
     = false
  /\ PyStr.occurs_in (PyStr.lower "John") (PyStr.lower "johnny block")
  /\ resolution ["John"; "Mary"] "johnny block" = Some ("John", "Block")
  /\ resolution ["John"; "Mary"] "johnny block" <> None.
Proof.
  split; [now left |].
  split; [vm_compute; reflexivity |].
  split; [now exists ""%string, "ny block"%string |].
  split; [vm_compute; reflexivity |].
  vm_compute. discriminate.
Qed.

(** C2, amended. For the command "johnny block" and a roster that holds
    "John", with no earlier player whose name occurs in the command,
    resolution returns (John, Block): the check asks that the player's
    lowercased name be a substring of the lowercased command, and "john"
    is a substring of "johnny block". *)
Theorem johnny_block_matches_john (players before after : list string) :
  players = before ++ "John"%string :: after ->
  Forall (fun q => mentions "johnny block" q = false) before ->
  resolution players "johnny block" = Some ("John", "Block").
Proof.
  intros E Hb. apply resolution_some.
  split; [vm_compute; lia |].
  split.
  - apply find_first_such. exists before, after.
    split; [exact E |]. split; [vm_compute; reflexivity | exact Hb].
  - split; vm_compute; reflexivity.
Qed.

Lemma johnny_block_matches_john_witness :
  resolution ["Mary"; "John"; "Johnny B"] "johnny block"
  = Some ("John", "Block").
Proof.
  apply (johnny_block_matches_john
           ["Mary"; "John"; "Johnny B"] ["Mary"] ["Johnny B"]).
  - reflexivity.
  - constructor; [vm_compute; reflexivity | constructor].
Defined.

(** ** Effect on the ledger *)

(** C4. A command that resolves to no pair (no player found, no skill
    found, fewer than two words, an empty string, or a value that is not a
    string) leaves the in-memory ledger, the roster, the team and
    everything outside the session as they were, and the handler returns
    without a message: only the last command and the history may move. *)
Theorem unresolved_command_leaves_ledger (faults : nat -> bool)
  (command : pyobj) (a : App) :
  resolves (players (session a)) command = None ->
  let r := handle_voice_command faults command a in
  ledger (fst r) = ledger a
  /\ players (session (fst r)) = players (session a)
  /\ current_team_id (session (fst r)) = current_team_id (session a)
  /\ listening (session (fst r)) = listening (session a)
  /\ world (fst r) = world a
  /\ snd r = Returned.
Proof.
  intros H. cbv zeta. rewrite (handle_voice_command_unresolved _ _ _ H).
  destruct command as [c| |t]; [destruct (PyStr.truthy c) | |];
    repeat split; reflexivity.
Qed.

Lemma unresolved_command_leaves_ledger_witness :
  let r := handle_voice_command no_faults (PyString "zoe kill")
             (tracking_app ["Ann"; "Bo"]) in
  ledger (fst r) = ledger (tracking_app ["Ann"; "Bo"])
  /\ players (session (fst r)) = players (session (tracking_app ["Ann"; "Bo"]))
  /\ current_team_id (session (fst r))
     = current_team_id (session (tracking_app ["Ann"; "Bo"]))
  /\ listening (session (fst r))
     = listening (session (tracking_app ["Ann"; "Bo"]))
  /\ world (fst r) = world (tracking_app ["Ann"; "Bo"])
  /\ snd r = Returned.
Proof.
  apply (unresolved_command_leaves_ledger no_faults (PyString "zoe kill")
           (tracking_app ["Ann"; "Bo"])).
  vm_compute. reflexivity.
Defined.




(** ** The command history *)

Section History.

Variable faults : nat -> bool.

Ltac by_cases :=
  repeat match goal with
         | |- context [match ?x with _ => _ end] => destruct x
         end;
  reflexivity.

Lemma load_existing_team_history (load_team : bool) (a : App) :
  command_history (session (fst (load_existing_team faults load_team a)))
  = command_history (session a).
Proof. unfold load_existing_team. cbv zeta. by_cases. Qed.

Lemma start_tracking_history (now : Z) (team_name players_input : string)
  (a : App) :
  command_history
    (session (fst (start_tracking faults now team_name players_input a)))
  = command_history (session a).
Proof. unfold start_tracking. cbv zeta. by_cases. Qed.

Lemma save_stats_button_history (a : App) :
  command_history (session (fst (save_stats_button faults a)))
  = command_history (session a).
Proof. unfold save_stats_button. by_cases. Qed.

Lemma reset_stats_button_history (a : App) :
  command_history (session (fst (reset_stats_button faults a)))
  = command_history (session a).
Proof. unfold reset_stats_button. cbv zeta. by_cases. Qed.

Lemma start_over_button_history (a : App) :
  command_history (session (fst (start_over_button a)))
  = command_history (session a).
Proof. unfold start_over_button. by_cases. Qed.

Lemma then_added_session (command : string) (r : App * Flow) :
  session (fst (then_added command r)) = session (fst r).
Proof. unfold then_added. now destruct (snd r). Qed.

(** One run of the script leaves the history alone or puts one command,
    a non-empty string, in front of it, cut to ten entries. *)
Lemma run_script_history (ev : Event) (a : App) :
  command_history (session (fst (run_script faults ev a)))
  = command_history (session a)
  \/ exists c, c <> ""%string
               /\ command_history (session (fst (run_script faults ev a)))
                  = firstn 10 (c :: command_history (session a)).
Proof.
  unfold run_script.
  destruct (stats_df (session a)) eqn:L; destruct ev;
    try (left; apply load_existing_team_history);
    try (left; reflexivity).
  - left. apply save_stats_button_history.
  - left. apply reset_stats_button_history.
  - left. apply start_over_button_history.
  - unfold add_stat_from_dropdowns. rewrite L.
    destruct (nth_error (players (session a)) player) as [p|];
      [| now left].
    destruct (nth_error VOLLEYBALL_SKILLS skill) as [s|]; [| now left].
    destruct (PyStr.truthy p && PyStr.truthy s); [| now left].
    rewrite then_added_session, handle_voice_command_history.
    destruct (PyStr.truthy _) eqn:T; [| now left].
    right. eexists. split; [apply truthy_spec; exact T | reflexivity].
  - unfold add_stat_from_text. rewrite L.
    destruct (PyStr.truthy text_command) eqn:T; [| now left].
    rewrite then_added_session, handle_voice_command_history, T.
    right. exists text_command. split; [now apply truthy_spec | reflexivity].
  - destruct (Bool.eqb listening0 (listening (session a))); [| now left].
    destruct listening0; [| now left].
    unfold voice_tab. rewrite L. now left.
  - destruct (load_existing_team faults false a) as [a' f] eqn:E.
    assert (H : command_history (session a') = command_history (session a))
      by (change a' with (fst (a', f)); rewrite <- E;
          apply load_existing_team_history).
    left. destruct f; try exact H.
    now rewrite start_tracking_history.
Qed.

(** The history never holds more than ten commands. *)
Lemma reachable_history_bounded (a : App) :
  reachable faults a -> List.length (command_history (session a)) <= 10.
Proof.
  induction 1 as [db | ev a _ IH].
  - simpl. lia.
  - destruct (run_script_history ev a) as [E | [c [_ E]]]; rewrite E.
    + exact IH.
    + apply firstn_le_length.
Qed.

Lemma evict_oldest {A} (c : A) (h : list A) :
  List.length h = 10 -> firstn 10 (c :: h) = c :: removelast h.
Proof.
  intros H. rewrite removelast_firstn_len, H. reflexivity.
Qed.

End History.

(** C6. Every invocation with a command, that is with a non-empty string,
    matched or not, puts the raw command in front of the history and
    keeps the ten newest entries: the command is first, the history has at
    most ten entries, and when it already had ten the oldest one is
    dropped.  What is rejected as no command at all (the empty string,
    [None], any value that is not a string) leaves the history as it was,
    and no run of the script hands such a value over: a run leaves the
    history as it was or puts one non-empty command in front of it.  In
    every state the application can reach the history has at most ten
    entries. *)
Theorem command_history_newest_first_at_most_ten (faults : nat -> bool) :
  (forall (c : string) (a : App),
      c <> ""%string ->
      let h := command_history (session a) in
      let h' := command_history
                  (session (fst (handle_voice_command faults
                                   (PyString c) a))) in
      h' = firstn 10 (c :: h)
      /\ hd_error h' = Some c
      /\ List.length h' <= 10
      /\ (List.length h = 10 -> h' = c :: removelast h))
  /\ (forall (command : pyobj) (a : App),
         (forall c, command = PyString c -> c = ""%string) ->
         command_history
           (session (fst (handle_voice_command faults command a)))
         = command_history (session a))
  /\ (forall (ev : Event) (a : App),
         let h := command_history (session a) in
         let h' := command_history (session (fst (run_script faults ev a))) in
         h' = h \/ exists c, c <> ""%string /\ h' = firstn 10 (c :: h))
  /\ (forall (a : App),
         reachable faults a ->
         List.length (command_history (session a)) <= 10).
Proof.
  split; [| split; [| split]].
  - intros c a Hc. cbv zeta.
    rewrite handle_voice_command_history.
    apply truthy_spec in Hc. rewrite Hc.
    split; [reflexivity |]. split; [reflexivity |].
    split; [apply firstn_le_length | apply evict_oldest].
  - intros command a H. rewrite handle_voice_command_history.
    destruct command as [c| |t]; [| reflexivity | reflexivity].
    now rewrite (H c eq_refl).
  - intros ev a. cbv zeta. apply run_script_history.
  - apply reachable_history_bounded.
Qed.

Lemma command_history_newest_first_at_most_ten_witness :
  let a :=
    mkApp (set_command_history
             ["c10"; "c9"; "c8"; "c7"; "c6"; "c5"; "c4"; "c3"; "c2"; "c1"]
             (session (tracking_app ["Ann"; "Bo"])))
          (world (tracking_app ["Ann"; "Bo"])) in
  let h' := command_history
              (session (fst (handle_voice_command no_faults
                               (PyString "c11") a))) in
  h' = ["c11"; "c10"; "c9"; "c8"; "c7"; "c6"; "c5"; "c4"; "c3"; "c2"]
  /\ List.length h' <= 10.
Proof.
  cbv zeta.
  destruct (proj1 (command_history_newest_first_at_most_ten no_faults)
              "c11"%string
              (mkApp (set_command_history
                        ["c10"; "c9"; "c8"; "c7"; "c6"; "c5"; "c4"; "c3";
                         "c2"; "c1"]
                        (session (tracking_app ["Ann"; "Bo"])))
                     (world (tracking_app ["Ann"; "Bo"]))))
    as (E & _ & Hlen & Hev).
  - discriminate.
  - split; [| exact Hlen]. rewrite (Hev eq_refl). reflexivity.
Defined.

(** ** Team creation *)

Lemma combine_repeat {A B} (l : list A) (x : B) :
  combine l (repeat x (List.length l)) = map (fun a => (a, x)) l.
Proof. induction l as [|a l IH]; simpl; [reflexivity | now rewrite IH]. Qed.

(** The cells of a fresh ledger, column by column. *)
Lemma cells_create_stats_dataframe (players : list string) :
  cells (create_stats_dataframe players)
  = flat_map (fun skill => map (fun p => (p, skill, Num 0)) players)
             VOLLEYBALL_SKILLS.
Proof.
  unfold cells. rewrite create_stats_dataframe_data.
  change (index (create_stats_dataframe players)) with players.
  rewrite flat_map_concat_map, map_map, <- flat_map_concat_map.
  apply flat_map_ext. intros skill. cbn [fst snd].
  rewrite combine_repeat, map_map. reflexivity.
Qed.

Lemma flat_map_map_length {A B C} (f : A -> B -> C) (l : list B)
  (ks : list A) :
  List.length (flat_map (fun k => map (f k) l) ks)
  = List.length ks * List.length l.
Proof.
  induction ks as [|k ks IH]; simpl; [reflexivity |].
  now rewrite length_app, length_map, IH.
Qed.

(** A fresh ledger: one cell per player and skill, all zero. *)
Lemma create_stats_dataframe_cells (players : list string) :
  cell_keys (create_stats_dataframe players) = roster_keys players
  /\ List.length (cells (create_stats_dataframe players))
     = List.length players * 13
  /\ Forall (fun c => snd c = Num 0) (cells (create_stats_dataframe players)).
Proof.
  unfold cell_keys, roster_keys. rewrite cells_create_stats_dataframe.
  split; [| split].
  - rewrite flat_map_concat_map, concat_map, map_map,
      <- flat_map_concat_map.
    apply flat_map_ext. intros skill. now rewrite map_map.
  - rewrite (flat_map_map_length (fun skill p => (p, skill, Num 0))).
    change (List.length VOLLEYBALL_SKILLS) with 13. lia.
  - apply Forall_flat_map. apply Forall_forall. intros skill _.
    apply Forall_map. apply Forall_forall. now intros p _.
Qed.

(** Whatever the store does, submitting the form with at least one
    player sets the ledger to a fresh one for these players. *)
Lemma start_tracking_ledger (faults : nat -> bool) (now : Z)
  (team_name players_input : string) (a : App) :
  parse_players players_input <> [] ->
  ledger (fst (start_tracking faults now team_name players_input a))
  = Some (create_stats_dataframe (parse_players players_input))
  /\ players (session (fst (start_tracking faults now team_name
                              players_input a)))
     = parse_players players_input.
Proof.
  intros H. unfold start_tracking, ledger. cbv zeta.
  destruct (parse_players players_input) as [|p ps]; [congruence |].
  repeat match goal with
         | |- context [match ?x with _ => _ end] => destruct x
         end;
    split; reflexivity.
Qed.

(** C9. Creating a team with n players (the non-blank lines of the
    players box, at least one) builds a ledger with exactly one cell per
    (player, skill) pair, n * 13 cells, every one equal to 0, whether the
    store serves the creation or fails. *)
Theorem team_creation_builds_zero_ledger (faults : nat -> bool) (now : Z)
  (team_name players_input : string) (a : App) :
  parse_players players_input <> [] ->
  let players := parse_players players_input in
  let a' := fst (start_tracking faults now team_name players_input a) in
  exists df,
    ledger a' = Some df
    /\ index df = players
    /\ columns df = VOLLEYBALL_SKILLS
    /\ cell_keys df = roster_keys players
    /\ List.length (cells df) = List.length players * 13
    /\ Forall (fun c => snd c = Num 0) (cells df).
Proof.
  intros H. cbv zeta.
  exists (create_stats_dataframe (parse_players players_input)).
  split; [now apply start_tracking_ledger |].
  split; [reflexivity |]. split; [reflexivity |].
  apply create_stats_dataframe_cells.
Qed.

Lemma team_creation_builds_zero_ledger_witness :
  let a' := fst (start_tracking no_faults 0 "My Volleyball Team"
                   (lines ["Ann"; "Bo"]) fresh_app) in
  exists df,
    ledger a' = Some df
    /\ index df = ["Ann"; "Bo"]%string
    /\ columns df = VOLLEYBALL_SKILLS
    /\ cell_keys df = roster_keys ["Ann"; "Bo"]
    /\ List.length (cells df) = 26
    /\ Forall (fun c => snd c = Num 0) (cells df).
Proof.
  exact (team_creation_builds_zero_ledger no_faults 0 "My Volleyball Team"
           (lines ["Ann"; "Bo"]) fresh_app
           ltac:(vm_compute; discriminate)).
Defined.

(** ** The dropdown path *)

Lemma tracking_app_reachable (names : list string) :
  reachable no_faults (tracking_app names).
Proof. unfold tracking_app, fresh_app. apply reach_run, reach_start. Qed.

(** C10. There is a roster for which Add Stat from Dropdowns credits
    another player than the selected one: with the players Ann and Joanne,
    selecting Joanne and Kill builds the command "Joanne Kill"; Ann,
    listed first, has her name in it ("joANNe"), so it is Ann's Kill cell
    that goes from 0 to 1, and no cell of Joanne's row moves. *)
Theorem dropdown_can_credit_another_player :
  exists (names : list string) (i j : nat) (selected skill other : string),
    let a := tracking_app names in
    let a' := fst (run_script no_faults (AddFromDropdowns i j) a) in
    reachable no_faults a
    /\ nth_error (players (session a)) i = Some selected
    /\ nth_error VOLLEYBALL_SKILLS j = Some skill
    /\ other <> selected
    /\ mentions (selected ++ " " ++ skill)%string other = true
    /\ resolution (players (session a)) (selected ++ " " ++ skill)%string
       = Some (other, skill)
    /\ exists df df' k,
         ledger a = Some df /\ ledger a' = Some df'
         /\ nth_error (index df) k = Some other
         /\ cell_at df k skill = Some (Num 0)
         /\ cell_at df' k skill = Some (Num 1)
         /\ forall r c,
              nth_error (index df) r = Some selected ->
              cell_at df' r c = cell_at df r c.
Proof.
  exists ["Ann"; "Joanne"]%string, 1, 8,
         "Joanne"%string, "Kill"%string, "Ann"%string.
  cbv zeta.
  split; [apply tracking_app_reachable |].
  split; [vm_compute; reflexivity |].
  split; [vm_compute; reflexivity |].
  split; [discriminate |].
  split; [vm_compute; reflexivity |].
  split; [vm_compute; reflexivity |].
  exists (create_stats_dataframe ["Ann"; "Joanne"]),
         (loc_add1 "Ann" "Kill" (create_stats_dataframe ["Ann"; "Joanne"])),
         0.
  split; [vm_compute; reflexivity |].
  split; [vm_compute; reflexivity |].
  split; [vm_compute; reflexivity |].
  split; [vm_compute; reflexivity |].
  split; [vm_compute; reflexivity |].
  intros r c Hr. rewrite cell_at_loc_add1, Hr.
  destruct (String.eqb c "Kill"); reflexivity.
Qed.

(** ** Sessions against a failing store *)

Section Transactions.

Variable faults : nat -> bool.

Lemma tx_ok_ret {A} (b : bool) (x : A) : tx_ok faults b (ret x).
Proof.
  intros w W. simpl. repeat split; auto. intros n Hn. lia.
Qed.

Lemma tx_ok_raise {A} (b : bool) (e : exn) : tx_ok faults b (@raise A e).
Proof. intros w W. simpl. repeat split; auto. Qed.

Lemma tx_ok_statement {A} (b : bool) (f : Db -> A * Db) :
  tx_ok faults b (statement faults f).
Proof.
  intros w W. unfold statement.
  destruct (faults (sent W)) eqn:F; simpl.
  - repeat split; auto.
  - repeat split; auto.
    intros n Hn. assert (n = sent W) by lia. now subst.
Qed.

Lemma tx_ok_commit : tx_ok faults true (commit faults).
Proof.
  intros w W. unfold commit.
  destruct (faults (sent W)) eqn:F; simpl.
  - repeat split; auto.
  - repeat split; auto; try discriminate.
    intros n Hn. assert (n = sent W) by lia. now subst.
Qed.

Lemma tx_ok_bind {A B} (b : bool) (m : Tx A) (k : A -> Tx B) :
  tx_ok faults false m -> (forall x, tx_ok faults b (k x)) ->
  tx_ok faults b (bind m k).
Proof.
  intros Hm Hk w W. unfold bind. specialize (Hm w W).
  destruct (m w W) as [[r w1] W1]. destruct Hm as (Le & Sh & Hr).
  destruct r as [x|e].
  - destruct Hr as [Nf Du]. specialize (Hk x w1 W1).
    destruct (k x w1 W1) as [[r2 w2] W2]. destruct Hk as (Le2 & Sh2 & Hr2).
    split; [lia |]. split; [congruence |].
    destruct r2 as [y|e].
    + destruct Hr2 as [Nf2 Du2]. split.
      * intros n Hn. destruct (Nat.lt_ge_cases n (sent W1)).
        -- apply Nf. lia.
        -- apply Nf2. lia.
      * intros Hb. rewrite (Du2 Hb). now apply Du.
    + rewrite Hr2. now apply Du.
  - repeat split; auto.
Qed.

Lemma tx_ok_for_each {X} (b : bool) (l : list X) (body : X -> Tx unit) :
  (forall x, tx_ok faults false (body x)) ->
  tx_ok faults b (for_each l body).
Proof.
  intros Hb. induction l as [|x l IH]; simpl.
  - apply tx_ok_ret.
  - apply tx_ok_bind; [apply Hb | intros _; exact IH].
Qed.

(** The body of [save_current_stats]: statements, then one commit. *)
Lemma save_current_stats_outcome (team : Z) (df : DataFrame) (W : World) :
  let r := save_current_stats faults team df W in
  fst r = Ok tt
  /\ sent W <= sent (snd r)
  /\ ((forall n, sent W <= n < sent (snd r) -> faults n = false)
      /\ shown (snd r) = shown W
      \/ durable (snd r) = durable W
         /\ shown (snd r) = shown W ++ [Printed "Error saving stats"]).
Proof.
  cbv zeta. unfold save_current_stats, in_session, try_except.
  match goal with
  | |- context [match ?body (durable W) W with _ => _ end] =>
      assert (H : tx_ok faults true body)
  end.
  { apply tx_ok_bind; [apply tx_ok_statement |]. intros players.
    apply tx_ok_bind; [| intros _; apply tx_ok_commit].
    apply tx_ok_for_each. intros row.
    destruct (PyDict.get _ _ _) as [player|]; [| apply tx_ok_ret].
    apply tx_ok_for_each. intros item.
    destruct (int_of_cell (snd item)) as [count|e]; [| apply tx_ok_raise].
    apply tx_ok_bind; [apply tx_ok_statement |]. intros rowcount.
    destruct (rowcount =? 0); [| apply tx_ok_ret].
    apply tx_ok_bind; [apply tx_ok_statement |]. intros new_id.
    apply tx_ok_bind; [apply tx_ok_statement |]. intros _.
    apply tx_ok_ret. }
  specialize (H (durable W) W).
  match goal with
  | H : match ?x with _ => _ end |- _ => destruct x as [[r w'] W']
  end.
  destruct H as (Le & Sh & Hr). destruct r as [[]|e]; simpl.
  - split; [reflexivity |]. split; [exact Le |]. left. tauto.
  - split; [reflexivity |]. split; [exact Le |]. right.
    split; [exact Hr | now rewrite Sh].
Qed.

End Transactions.

(** C7. The Save Stats handler never changes the session: the ledger,
    cell by cell, and every other part of the in-memory state are what
    they were, whatever the store does, and the handler returns.  When a
    statement of the Save fails, the store is rolled back to its committed
    tables and the failure shows as a printed message only. *)
Theorem save_failure_leaves_ledger (faults : nat -> bool) (a : App) :
  let r := save_stats_button faults a in
  (session (fst r) = session a
   /\ ledger (fst r) = ledger a
   /\ snd r = Returned)
  /\ forall n,
       sent (world a) <= n < sent (world (fst r)) ->
       faults n = true ->
       durable (world (fst r)) = durable (world a)
       /\ In (Printed "Error saving stats") (shown (world (fst r))).
Proof.
  cbv zeta. unfold save_stats_button, ledger.
  destruct (stats_df (session a)) as [df|] eqn:L.
  2: { split; [auto |]. intros n Hn. cbn in Hn. lia. }
  destruct (current_team_id (session a)) as [team|].
  2: { split; [cbn; auto |]. intros n Hn. cbn in Hn. lia. }
  destruct (team_id_truthy (Some team)).
  2: { split; [cbn; auto |]. intros n Hn. cbn in Hn. lia. }
  pose proof (save_current_stats_outcome faults team df (world a)) as H.
  cbv zeta in H.
  destruct (save_current_stats faults team df (world a)) as [r W'].
  cbn [fst snd] in H. destruct H as (-> & Le & H).
  cbn [fst snd session world]. split; [auto |].
  intros n Hn Fn. cbn [sent show] in Hn.
  destruct H as [[Nf _] | [Du Sh]].
  - rewrite (Nf n Hn) in Fn. discriminate.
  - cbn [durable show shown]. split; [exact Du |].
    rewrite Sh. apply in_or_app. left. apply in_or_app. right. now left.
Qed.

Lemma save_failure_leaves_ledger_witness :
  let a := fst (handle_voice_command no_faults (PyString "Ann Kill")
                  (tracking_app ["Ann"; "Bo"])) in
  let r := save_stats_button (fun n => n =? 70) a in
  durable (world (fst r)) = durable (world a)
  /\ In (Printed "Error saving stats") (shown (world (fst r))).
Proof.
  cbv zeta.
  apply (proj2 (save_failure_leaves_ledger (fun n => n =? 70)
                  (fst (handle_voice_command no_faults (PyString "Ann Kill")
                          (tracking_app ["Ann"; "Bo"]))))
               70).
  - vm_compute. lia.
  - reflexivity.
Defined.

(** ** Reset *)

Lemma map_fst_combine {A B} (l : list A) (vs : list B) :
  List.length vs = List.length l -> map fst (combine l vs) = l.
Proof.
  revert vs. induction l as [|a l IH]; intros [|v vs] H; simpl in *;
    try discriminate; [reflexivity |].
  f_equal. apply IH. lia.
Qed.

(** The keys of a frame that has one value per row and column. *)
Lemma cell_keys_rectangular (df : DataFrame) :
  rectangular df ->
  cell_keys df
  = flat_map (fun c => map (fun p => (p, c)) (index df)) (columns df).
Proof.
  unfold rectangular, cell_keys, cells, columns.
  generalize (index df) as idx. intros idx.
  induction (data df) as [|[c vs] d IH]; intros H; simpl; [reflexivity |].
  inversion H as [|? ? Hc Hd]; subst. simpl in Hc.
  rewrite map_app, (IH Hd). f_equal.
  rewrite map_map. simpl.
  rewrite <- (map_fst_combine idx vs Hc) at 2.
  now rewrite map_map.
Qed.

Lemma roster_shaped_keys (df : DataFrame) (players : list string) :
  roster_shaped df players -> cell_keys df = roster_keys players.
Proof.
  intros (I & C & R). rewrite (cell_keys_rectangular df R), I, C.
  reflexivity.
Qed.

Lemma roster_shaped_create (players : list string) :
  roster_shaped (create_stats_dataframe players) players.
Proof.
  split; [reflexivity |]. split; [reflexivity |].
  unfold rectangular. rewrite create_stats_dataframe_data.
  apply Forall_map, Forall_forall. intros skill _. apply repeat_length.
Qed.

(** Commands keep the ledger the table of the roster. *)
Lemma roster_shaped_loc_add1 (label col : string) (df : DataFrame)
  (players : list string) :
  roster_shaped df players -> roster_shaped (loc_add1 label col df) players.
Proof.
  intros (I & C & R). split; [exact I |].
  split; [now rewrite columns_loc_add1 | now apply rectangular_loc_add1].
Qed.

Lemma reset_stats_button_ledger (faults : nat -> bool) (a : App)
  (df : DataFrame) :
  ledger a = Some df ->
  ledger (fst (reset_stats_button faults a))
  = Some (create_stats_dataframe (players (session a))).
Proof.
  unfold ledger, reset_stats_button. intros ->. reflexivity.
Qed.

(** C8, as stated, fails: after Load Team over a store that holds a count
    for the skill "Dig", the ledger has the cell (Ann, Dig); Reset Stats
    removes it. *)
Lemma reset_drops_loaded_cell :
  reachable no_faults loaded_app
  /\ players (session loaded_app) = ["Ann"%string]
  /\ In ("Ann"%string, "Dig"%string) (ledger_keys loaded_app)
  /\ List.length (ledger_keys loaded_app) = 14
  /\ ~ In ("Ann"%string, "Dig"%string)
         (ledger_keys (fst (run_script no_faults ResetStats loaded_app)))
  /\ List.length
       (ledger_keys (fst (run_script no_faults ResetStats loaded_app)))
     = 13.
Proof.
  split; [apply reach_run, reach_start |].
  split; [vm_compute; reflexivity |].
  split; [vm_compute; now left |].
  split; [vm_compute; reflexivity |].
  split; [| vm_compute; reflexivity].
  vm_compute. intros H.
  repeat (destruct H as [H|H]; [discriminate H |]). exact H.
Qed.

(** C8, amended. Reset Stats replaces the ledger by a fresh one for the
    roster: exactly one cell, equal to 0, per (player of the roster,
    skill of the enumeration).  When the ledger before the reset was the
    table of the roster, as it is after team creation and after any
    number of commands, the set of cells is the same as before; cells of
    other rows or columns, such as a column that was only loaded from
    durable data, are not kept. *)
Theorem reset_rebuilds_roster_ledger (faults : nat -> bool) (a : App)
  (df : DataFrame) :
  ledger a = Some df ->
  let a' := fst (reset_stats_button faults a) in
  exists df',
    ledger a' = Some df'
    /\ players (session a') = players (session a)
    /\ cell_keys df' = roster_keys (players (session a))
    /\ Forall (fun c => snd c = Num 0) (cells df')
    /\ (roster_shaped df (players (session a)) ->
        cell_keys df' = cell_keys df).
Proof.
  intros L. cbv zeta.
  exists (create_stats_dataframe (players (session a))).
  split; [now apply (reset_stats_button_ledger faults a df) |].
  split.
  { unfold reset_stats_button. unfold ledger in L. now rewrite L. }
  destruct (create_stats_dataframe_cells (players (session a)))
    as (K & _ & Z0).
  split; [exact K |]. split; [exact Z0 |].
  intros Sh. now rewrite K, (roster_shaped_keys df _ Sh).
Qed.

Lemma reset_rebuilds_roster_ledger_witness :
  let a := fst (handle_voice_command no_faults (PyString "Ann Kill")
                  (tracking_app ["Ann"; "Bo"])) in
  let df := loc_add1 "Ann" "Kill" (create_stats_dataframe ["Ann"; "Bo"]) in
  let a' := fst (reset_stats_button no_faults a) in
  exists df',
    ledger a' = Some df'
    /\ players (session a') = players (session a)
    /\ cell_keys df' = roster_keys (players (session a))
    /\ Forall (fun c => snd c = Num 0) (cells df')
    /\ (roster_shaped df (players (session a)) ->
        cell_keys df' = cell_keys df).
Proof.
  cbv zeta.
  apply (reset_rebuilds_roster_ledger no_faults
           (fst (handle_voice_command no_faults (PyString "Ann Kill")
                   (tracking_app ["Ann"; "Bo"])))
           (loc_add1 "Ann" "Kill" (create_stats_dataframe ["Ann"; "Bo"]))).
  vm_compute. reflexivity.
Defined.

(** * Further properties of the code *)

(** ** Case and white space *)

Lemma isspace_lower_char (c : ascii) :
  PyStr.isspace (PyStr.lower_char c) = PyStr.isspace c.
Proof. destruct c as [[] [] [] [] [] [] [] []]; vm_compute; reflexivity. Qed.

Lemma lower_char_idempotent (c : ascii) :
  PyStr.lower_char (PyStr.lower_char c) = PyStr.lower_char c.
Proof. destruct c as [[] [] [] [] [] [] [] []]; vm_compute; reflexivity. Qed.

Lemma lower_idempotent (s : string) :
  PyStr.lower (PyStr.lower s) = PyStr.lower s.
Proof.
  induction s as [|c s IH]; simpl; [reflexivity |].
  now rewrite lower_char_idempotent, IH.
Qed.

Lemma lower_app (s t : string) :
  PyStr.lower (s ++ t) = (PyStr.lower s ++ PyStr.lower t)%string.
Proof. induction s as [|c s IH]; simpl; [reflexivity | now rewrite IH]. Qed.

Lemma lower_lstrip (s : string) :
  PyStr.lower (PyStr.lstrip s) = PyStr.lstrip (PyStr.lower s).
Proof.
  induction s as [|c s IH]; simpl; [reflexivity |].
  rewrite isspace_lower_char. now destruct (PyStr.isspace c).
Qed.

Lemma lower_rstrip (s : string) :
  PyStr.lower (PyStr.rstrip s) = PyStr.rstrip (PyStr.lower s).
Proof.
  induction s as [|c s IH]; simpl; [reflexivity |].
  rewrite <- IH, isspace_lower_char.
  destruct (PyStr.rstrip s); simpl; [now destruct (PyStr.isspace c) |].
  reflexivity.
Qed.

Lemma lower_strip (s : string) :
  PyStr.lower (PyStr.strip s) = PyStr.strip (PyStr.lower s).
Proof. unfold PyStr.strip. now rewrite lower_rstrip, lower_lstrip. Qed.

Lemma lower_of_list (l : list ascii) :
  PyStr.lower (string_of_list_ascii l)
  = string_of_list_ascii (map PyStr.lower_char l).
Proof. induction l as [|c l IH]; simpl; [reflexivity | now rewrite IH]. Qed.

Lemma lower_of_rev (cur : list ascii) :
  string_of_list_ascii (rev (map PyStr.lower_char cur))
  = PyStr.lower (string_of_list_ascii (rev cur)).
Proof. now rewrite lower_of_list, map_rev. Qed.

Lemma split_from_lower (cur : list ascii) (s : string) :
  PyStr.split_from (map PyStr.lower_char cur) (PyStr.lower s)
  = map PyStr.lower (PyStr.split_from cur s).
Proof.
  revert cur. induction s as [|c s IH]; intros cur.
  - destruct cur as [|d cur]; [reflexivity |].
    cbn [PyStr.split_from PyStr.lower map]. now rewrite <- lower_of_rev.
  - cbn [PyStr.split_from PyStr.lower].
    rewrite isspace_lower_char. destruct (PyStr.isspace c).
    + pose proof (IH []) as IH0. cbn [map] in IH0. rewrite IH0.
      destruct cur as [|d cur]; [reflexivity |].
      cbn [map]. now rewrite <- lower_of_rev.
    + apply (IH (c :: cur)).
Qed.

(** White space on the left is skipped by [split]. *)
Lemma split_lstrip (s : string) :
  PyStr.split (PyStr.lstrip s) = PyStr.split s.
Proof.
  unfold PyStr.split. induction s as [|c s IH]; [reflexivity |].
  cbn [PyStr.lstrip]. destruct (PyStr.isspace c) eqn:E.
  - rewrite IH. cbn [PyStr.split_from]. now rewrite E.
  - reflexivity.
Qed.

Lemma rstrip_empty_split_from (cur : list ascii) (s : string) :
  PyStr.rstrip s = ""%string ->
  PyStr.split_from cur s = PyStr.split_from cur "".
Proof.
  revert cur. induction s as [|c s IH]; intros cur H; [reflexivity |].
  cbn [PyStr.rstrip] in H. destruct (PyStr.rstrip s) eqn:R; [| discriminate].
  destruct (PyStr.isspace c) eqn:E; [| discriminate].
  cbn [PyStr.split_from]. rewrite E, (IH [] eq_refl). now destruct cur.
Qed.

(** White space on the right is skipped by [split]. *)
Lemma split_from_rstrip (cur : list ascii) (s : string) :
  PyStr.split_from cur (PyStr.rstrip s) = PyStr.split_from cur s.
Proof.
  revert cur. induction s as [|c s IH]; intros cur; [reflexivity |].
  cbn [PyStr.rstrip]. destruct (PyStr.rstrip s) as [|d r] eqn:R.
  - destruct (PyStr.isspace c) eqn:E.
    + cbn [PyStr.split_from]. rewrite E.
      rewrite (rstrip_empty_split_from [] s R). now destruct cur.
    + cbn [PyStr.split_from]. rewrite E.
      now rewrite (rstrip_empty_split_from (c :: cur) s R).
  - cbn [PyStr.split_from]. destruct (PyStr.isspace c); now rewrite <- IH.
Qed.

Lemma split_strip (s : string) : PyStr.split (PyStr.strip s) = PyStr.split s.
Proof.
  unfold PyStr.strip, PyStr.split at 1. rewrite split_from_rstrip.
  apply split_lstrip.
Qed.

(** The words of a command are the lowercased runs of its characters that
    are not white space. *)
Lemma words_lower_split (command : string) :
  words command = map PyStr.lower (PyStr.split command).
Proof.
  unfold words. rewrite <- (split_strip command). unfold PyStr.split.
  apply (split_from_lower []).
Qed.

(** A white space character ends the word being read. *)
Lemma split_from_app_space (cur : list ascii) (x y : string) (sp : ascii) :
  PyStr.isspace sp = true ->
  PyStr.split_from cur (x ++ String sp y)
  = PyStr.split_from cur x ++ PyStr.split_from [] y.
Proof.
  intros Hsp. revert cur. induction x as [|c x IH]; intros cur.
  - cbn [String.append PyStr.split_from]. rewrite Hsp. now destruct cur.
  - cbn [String.append PyStr.split_from]. destruct (PyStr.isspace c).
    + rewrite IH. now destruct cur.
    + apply IH.
Qed.

Lemma split_from_pending (c : ascii) (cur : list ascii) (s : string) :
  PyStr.split_from (c :: cur) s <> [].
Proof.
  revert c cur. induction s as [|d s IH]; intros c cur;
    cbn [PyStr.split_from]; [discriminate |].
  destruct (PyStr.isspace d); [discriminate | apply IH].
Qed.

Lemma lstrip_head (s : string) (c : ascii) (r : string) :
  PyStr.lstrip s = String c r -> PyStr.isspace c = false.
Proof.
  induction s as [|d s IH]; cbn [PyStr.lstrip]; [discriminate |].
  destruct (PyStr.isspace d) eqn:E; [exact IH |].
  intros [= <- _]. exact E.
Qed.

(** A string that is not blank has a word. *)
Lemma split_of_not_blank (s : string) :
  PyStr.strip s <> ""%string -> PyStr.split s <> [].
Proof.
  intros H. rewrite <- split_lstrip.
  destruct (PyStr.lstrip s) as [|c r] eqn:L.
  - elim H. unfold PyStr.strip. now rewrite L.
  - unfold PyStr.split. cbn [PyStr.split_from].
    rewrite (lstrip_head s c r L). apply split_from_pending.
Qed.

Lemma length_pos_of_not_nil {A} (l : list A) : l <> [] -> 1 <= List.length l.
Proof. destruct l; [congruence | simpl; lia]. Qed.

Lemma skills_have_a_word :
  Forall (fun s => PyStr.split s <> []) VOLLEYBALL_SKILLS.
Proof. repeat (constructor; [vm_compute; discriminate |]). constructor. Qed.

(** The command built from the two select boxes has at least two words when
    the player's name is not blank. *)
Lemma dropdown_command_words (p s : string) :
  PyStr.strip p <> ""%string -> In s VOLLEYBALL_SKILLS ->
  2 <= List.length (words (p ++ " " ++ s)).
Proof.
  intros Hp Hs. rewrite words_lower_split, length_map.
  unfold PyStr.split. cbn [String.append].
  rewrite (split_from_app_space [] p s " "%char eq_refl), length_app.
  pose proof (length_pos_of_not_nil _ (split_of_not_blank p Hp)).
  pose proof skills_have_a_word as W. rewrite Forall_forall in W.
  pose proof (length_pos_of_not_nil _ (W s Hs)).
  unfold PyStr.split in *. lia.
Qed.

Lemma string_app_nil_r (s : string) : (s ++ "")%string = s.
Proof. induction s as [|c s IH]; simpl; [reflexivity | now rewrite IH]. Qed.

Lemma string_app_assoc (s t u : string) :
  ((s ++ t) ++ u)%string = (s ++ t ++ u)%string.
Proof. induction s as [|c s IH]; simpl; [reflexivity | now rewrite IH]. Qed.

Lemma strip_nonempty (s : string) :
  PyStr.strip s <> ""%string -> s <> ""%string.
Proof. intros H E. subst s. now apply H. Qed.

(** ** Case-insensitive matching *)

(** X1. Resolution reads the command only through its lowercased text: two
    commands that differ in case alone resolve alike. *)
Theorem resolution_ignores_case (players : list string) (c1 c2 : string) :
  PyStr.lower c1 = PyStr.lower c2 ->
  resolution players c1 = resolution players c2.
Proof.
  intros H. unfold resolution, words, first_mention, mentions.
  now rewrite !lower_strip, H.
Qed.

Lemma resolution_ignores_case_witness :
  resolution ["John"; "Mary"] "JOHN Serve Ace"
  = resolution ["John"; "Mary"] "john serve ace".
Proof.
  apply (resolution_ignores_case ["John"; "Mary"]
           "JOHN Serve Ace" "john serve ace").
  vm_compute. reflexivity.
Defined.

(** ** The manual input tab *)

Section ManualInput.

Variable faults : nat -> bool.

(** When [handle_voice_command] returns, as opposed to asking for a rerun,
    it has changed neither the ledger nor anything outside the session. *)
Lemma handle_voice_command_returned (command : pyobj) (a : App) :
  snd (handle_voice_command faults command a) = Returned ->
  ledger (fst (handle_voice_command faults command a)) = ledger a
  /\ world (fst (handle_voice_command faults command a)) = world a.
Proof.
  unfold handle_voice_command, ledger.
  destruct command as [c| |t]; [| auto | auto].
  destruct (PyStr.truthy c); cbn [negb]; [| auto].
  cbn [players set_command_history set_last_command session stats_df
       current_team_id set_stats_df].
  repeat match goal with
         | |- context [match ?x with _ => _ end] => destruct x eqn:?
         end; cbn; intros H; try discriminate H; auto.
Qed.

Lemma handle_voice_command_crashed (command : pyobj) (a : App) (e : exn) :
  snd (handle_voice_command faults command a) = Crashed e ->
  ledger a = None
  /\ world (fst (handle_voice_command faults command a)) = world a.
Proof.
  unfold handle_voice_command, ledger.
  destruct command as [c| |t]; [| discriminate | discriminate].
  destruct (PyStr.truthy c); cbn [negb]; [| discriminate].
  cbn [players set_command_history set_last_command session stats_df
       current_team_id set_stats_df].
  repeat match goal with
         | |- context [match ?x with _ => _ end] => destruct x eqn:?
         end; cbn; intros H; try discriminate H; auto.
Qed.

(** What the store part of a command may show. *)
Lemma write_through_shown (player_name skill : string) (W : World) :
  shown (write_through faults player_name skill W) = shown W
  \/ shown (write_through faults player_name skill W)
     = shown W ++ [Printed "Error updating stat"]
  \/ shown (write_through faults player_name skill W)
     = shown W ++ [StWarning "Could not save stat to database"].
Proof.
  unfold write_through, get_player_by_name, update_player_stat, in_session,
    query, statement, try_except, bind, commit, print, rollback, ret.
  destruct (faults (sent W)); cbn; [now right; right |].
  destruct (find _ _); cbn; [| now left].
  destruct (faults (S (sent W))); cbn; [now right; left |].
  destruct (faults (S (S (sent W)))); cbn; [now right; left | now left].
Qed.

Lemma handle_voice_command_rerun_shown (command : pyobj) (a : App) :
  snd (handle_voice_command faults command a) = Rerun ->
  shown (world (fst (handle_voice_command faults command a)))
  = shown (world a)
  \/ exists p s,
       shown (world (fst (handle_voice_command faults command a)))
       = shown (write_through faults p s (world a)).
Proof.
  unfold handle_voice_command.
  destruct command as [c| |t]; [| discriminate | discriminate].
  destruct (PyStr.truthy c); cbn [negb]; [| discriminate].
  cbn [players set_command_history set_last_command session stats_df
       current_team_id set_stats_df].
  repeat match goal with
         | |- context [match ?x with _ => _ end] => destruct x eqn:?
         end; cbn [snd fst world]; intros H; try discriminate H;
    solve [now left | right; eexists; eexists; reflexivity].
Qed.

End ManualInput.

Lemma shown_not_added (faults : nat -> bool) (command : pyobj) (a : App)
  (m : string) :
  snd (handle_voice_command faults command a) = Rerun ->
  shown (world (fst (handle_voice_command faults command a)))
  <> shown (world a) ++ [StSuccess m].
Proof.
  intros R E.
  destruct (handle_voice_command_rerun_shown faults command a R)
    as [S | (p & s & S)]; rewrite S in E.
  - rewrite <- (app_nil_r (shown (world a))) in E at 1.
    apply app_inv_head in E. discriminate.
  - destruct (write_through_shown faults p s (world a)) as [T | [T | T]];
      rewrite T in E.
    + rewrite <- (app_nil_r (shown (world a))) in E at 1.
      apply app_inv_head in E. discriminate.
    + apply app_inv_head in E. discriminate.
    + apply app_inv_head in E. discriminate.
Qed.

(** X2. On the text path the confirmation "Added: <command>" is shown exactly
    when the handler returns without a rerun, and then neither the ledger
    nor anything outside the session has changed apart from that message:
    the confirmation appears only for commands that added nothing. *)
Theorem text_confirmation_only_without_effect (faults : nat -> bool)
  (text : string) (a : App) (df : DataFrame) :
  ledger a = Some df ->
  text <> ""%string ->
  let r := add_stat_from_text faults text a in
  (shown (world (fst r))
   = shown (world a) ++ [StSuccess ("Added: " ++ text)]
   <-> snd r = Returned)
  /\ (snd r = Returned ->
      ledger (fst r) = ledger a
      /\ durable (world (fst r)) = durable (world a)
      /\ sent (world (fst r)) = sent (world a))
  /\ (snd r = Returned \/ snd r = Rerun).
Proof.
  intros L T. apply truthy_spec in T. cbv zeta.
  unfold add_stat_from_text. unfold ledger in L. rewrite L, T.
  unfold then_added.
  pose proof (handle_voice_command_returned faults (PyString text) a) as HR.
  pose proof (handle_voice_command_crashed faults (PyString text) a) as HC.
  pose proof (shown_not_added faults (PyString text) a
                ("Added: " ++ text)%string) as HS.
  destruct (handle_voice_command faults (PyString text) a) as [a' f].
  cbn [fst snd] in *. destruct f as [| |e]; cbn [fst snd session world].
  - destruct (HR eq_refl) as [HL HW]. rewrite HW. cbn [shown show].
    split; [tauto |]. split; [| now left].
    intros _. unfold ledger in *. cbn [session]. auto.
  - split; [| split; [discriminate | now right]].
    split; [intros E; now elim (HS eq_refl) | discriminate].
  - destruct (HC e eq_refl) as [HN _]. unfold ledger in HN. congruence.
Qed.

Lemma text_confirmation_only_without_effect_witness :
  let a := tracking_app ["Ann"; "Bo"] in
  let r := add_stat_from_text no_faults "zoe kill" a in
  (shown (world (fst r))
   = shown (world a) ++ [StSuccess ("Added: " ++ "zoe kill")]
   <-> snd r = Returned)
  /\ (snd r = Returned ->
      ledger (fst r) = ledger a
      /\ durable (world (fst r)) = durable (world a)
      /\ sent (world (fst r)) = sent (world a))
  /\ (snd r = Returned \/ snd r = Rerun).
Proof.
  cbv zeta.
  apply (text_confirmation_only_without_effect no_faults "zoe kill"
           (tracking_app ["Ann"; "Bo"])
           (create_stats_dataframe ["Ann"; "Bo"])).
  - vm_compute. reflexivity.
  - discriminate.
Defined.

(** The command built from the select boxes mentions the selected player
    and the selected skill. *)
Lemma dropdown_command_mentions (p s : string) :
  mentions (p ++ " " ++ s) p = true /\ mentions (p ++ " " ++ s) s = true.
Proof.
  split; apply mentions_spec; rewrite lower_app.
  - now exists ""%string, (PyStr.lower (" " ++ s)).
  - exists (PyStr.lower p ++ " ")%string, ""%string.
    rewrite string_app_nil_r, string_app_assoc. reflexivity.
Qed.

(** X3. Add Stat from Dropdowns never ends in "no match": for a roster without
    blank names, on a ledger that has the roster's rows and the skills'
    columns, the selection resolves to the first player of the roster
    whose name occurs in "<player> <skill>" and the first skill whose label
    occurs in it; that cell is incremented and the script is rerun, so the
    confirmation message is not shown. *)
Theorem dropdown_selection_always_resolves (faults : nat -> bool) (a : App)
  (df : DataFrame) (i j : nat) (p s : string) :
  ledger a = Some df ->
  holds_roster df (players (session a)) ->
  Forall (fun q => PyStr.strip q <> ""%string) (players (session a)) ->
  nth_error (players (session a)) i = Some p ->
  nth_error VOLLEYBALL_SKILLS j = Some s ->
  let command := (p ++ " " ++ s)%string in
  let r := run_script faults (AddFromDropdowns i j) a in
  exists q s',
    first_such (mentions command) (players (session a)) q
    /\ first_such (mentions command) VOLLEYBALL_SKILLS s'
    /\ ledger (fst r) = Some (loc_add1 q s' df)
    /\ snd r = Rerun.
Proof.
  intros L [Rows Cols] NB Hp Hs. cbv zeta.
  apply nth_error_In in Hp as Pin. apply nth_error_In in Hs as Sin.
  rewrite Forall_forall in NB.
  destruct (dropdown_command_mentions p s) as [Mp Ms].
  destruct (find_some_of_in _ _ _ Pin Mp) as [q Fq].
  destruct (find_some_of_in _ _ _ Sin Ms) as [s' Fs'].
  assert (Qin : In q (players (session a))) by now apply find_some in Fq.
  assert (R : resolution (players (session a)) (p ++ " " ++ s)
              = Some (q, s')).
  { apply resolution_some. split.
    - apply dropdown_command_words; auto.
    - split; [exact Fq |]. split; [| exact Fs'].
      apply truthy_spec, strip_nonempty. auto. }
  exists q, s'.
  split; [now apply find_first_such |].
  split; [now apply find_first_such |].
  unfold run_script, add_stat_from_dropdowns. unfold ledger in L.
  rewrite L, Hp, Hs.
  assert (Tp : PyStr.truthy p = true)
    by (apply truthy_spec, strip_nonempty; auto).
  assert (Ts : PyStr.truthy s = true).
  { pose proof skills_truthy as T. rewrite Forall_forall in T. auto. }
  rewrite Tp, Ts. cbn [andb].
  rewrite (handle_voice_command_resolved faults _ q s' a df R L).
  - unfold then_added. cbn [snd fst]. split; reflexivity.
  - apply Rows; exact Qin.
  - apply Cols. now apply find_some in Fs'.
Qed.

Lemma dropdown_selection_always_resolves_witness :
  let a := tracking_app ["Ann"; "Bo"] in
  let command := ("Bo" ++ " " ++ "Block")%string in
  let r := run_script no_faults (AddFromDropdowns 1 10) a in
  exists q s',
    first_such (mentions command) (players (session a)) q
    /\ first_such (mentions command) VOLLEYBALL_SKILLS s'
    /\ ledger (fst r)
       = Some (loc_add1 q s' (create_stats_dataframe ["Ann"; "Bo"]))
    /\ snd r = Rerun.
Proof.
  cbv zeta.
  apply (dropdown_selection_always_resolves no_faults
           (tracking_app ["Ann"; "Bo"])
           (create_stats_dataframe ["Ann"; "Bo"]) 1 10 "Bo" "Block").
  - vm_compute. reflexivity.
  - change (players (session (tracking_app ["Ann"; "Bo"])))
      with ["Ann"; "Bo"]%string.
    apply holds_roster_create.
  - vm_compute. repeat constructor; discriminate.
  - vm_compute. reflexivity.
  - vm_compute. reflexivity.
Defined.

(** ** The players box *)


Lemma rstrip_head (c : ascii) (r : string) :
  PyStr.isspace c = false ->
  exists r', PyStr.rstrip (String c r) = String c r'.
Proof.
  intros E. cbn [PyStr.rstrip]. destruct (PyStr.rstrip r) as [|d r'].
  - rewrite E. now exists ""%string.
  - now exists (String d r').
Qed.

Lemma rstrip_idempotent (s : string) :
  PyStr.rstrip (PyStr.rstrip s) = PyStr.rstrip s.
Proof.
  induction s as [|c s IH]; [reflexivity |].
  cbn [PyStr.rstrip]. destruct (PyStr.rstrip s) as [|d r] eqn:R.
  - destruct (PyStr.isspace c) eqn:E; [reflexivity |].
    cbn [PyStr.rstrip]. now rewrite E.
  - change (PyStr.rstrip (String c (String d r)))
      with (match PyStr.rstrip (String d r) with
            | EmptyString =>
                if PyStr.isspace c then EmptyString
                else String c EmptyString
            | String a b => String c (String a b)
            end).
    now rewrite IH.
Qed.

Lemma strip_idempotent (s : string) :
  PyStr.strip (PyStr.strip s) = PyStr.strip s.
Proof.
  unfold PyStr.strip. destruct (PyStr.lstrip s) as [|c r] eqn:L.
  - reflexivity.
  - destruct (rstrip_head c r (lstrip_head s c r L)) as [r' E].
    rewrite E. cbn [PyStr.lstrip]. rewrite (lstrip_head s c r L).
    rewrite <- E. apply rstrip_idempotent.
Qed.

(** X4. Every name read from the players box is non-empty and carries no white
    space at either end. *)
Theorem parse_players_names_are_stripped (players_input : string) :
  Forall (fun p => p <> ""%string /\ PyStr.strip p = p)
         (parse_players players_input).
Proof.
  unfold parse_players. apply Forall_map, Forall_forall.
  intros p Hp. apply filter_In in Hp as [_ T].
  split; [now apply truthy_spec | apply strip_idempotent].
Qed.

Lemma lstrip_all_space (l : list ascii) :
  forallb PyStr.isspace l = true ->
  PyStr.lstrip (string_of_list_ascii l) = ""%string.
Proof.
  induction l as [|c l IH]; [reflexivity |].
  cbn [forallb string_of_list_ascii PyStr.lstrip].
  intros H. apply andb_true_iff in H as [-> H]. auto.
Qed.

Lemma forallb_rev_true {A} (f : A -> bool) (l : list A) :
  forallb f l = true -> forallb f (rev l) = true.
Proof.
  rewrite !forallb_forall. intros H x Hx. apply H. now apply in_rev.
Qed.

Lemma split_on_from_all_space (sep : ascii) (cur : list ascii) (s : string) :
  forallb PyStr.isspace cur = true ->
  all_space s = true ->
  Forall (fun p => PyStr.strip p = ""%string)
         (PyStr.split_on_from sep cur s).
Proof.
  unfold all_space. revert cur.
  induction s as [|c s IH]; intros cur Hc Hs.
  - cbn [PyStr.split_on_from]. constructor; [| constructor].
    unfold PyStr.strip. rewrite lstrip_all_space; [reflexivity |].
    now apply forallb_rev_true.
  - cbn [list_ascii_of_string forallb] in Hs.
    apply andb_true_iff in Hs as [Hsp Hs].
    cbn [PyStr.split_on_from]. destruct (Ascii.eqb c sep).
    + constructor; [| now apply IH].
      unfold PyStr.strip. rewrite lstrip_all_space; [reflexivity |].
      now apply forallb_rev_true.
    + apply IH; [| exact Hs]. cbn [forallb]. now rewrite Hsp, Hc.
Qed.

Lemma parse_players_all_space (players_input : string) :
  all_space players_input = true -> parse_players players_input = [].
Proof.
  intros H. unfold parse_players, PyStr.split_on.
  pose proof (split_on_from_all_space "010"%char [] players_input
                eq_refl H) as F.
  induction F as [|p l Hp _ IH]; [reflexivity |].
  cbn [filter]. rewrite Hp. exact IH.
Qed.

(** X5. A players box that holds nothing but white space (it may be empty, or
    hold blank lines) is refused: the form shows an error, sends nothing to
    the store and leaves the session as it was. *)
Theorem blank_players_box_is_refused (faults : nat -> bool) (now : Z)
  (team_name players_input : string) (a : App) :
  all_space players_input = true ->
  start_tracking faults now team_name players_input a
  = (mkApp (session a)
           (show (StError "Please enter at least one player name.")
                 (world a)),
     Returned).
Proof.
  intros H. unfold start_tracking. cbv zeta.
  now rewrite (parse_players_all_space players_input H).
Qed.

Lemma blank_players_box_is_refused_witness :
  start_tracking no_faults 0 "My Volleyball Team" (lines ["  "; ""; " "])
    fresh_app
  = (mkApp (session fresh_app)
           (show (StError "Please enter at least one player name.")
                 (world fresh_app)),
     Returned).
Proof.
  apply (blank_players_box_is_refused no_faults 0 "My Volleyball Team"
           (lines ["  "; ""; " "]) fresh_app).
  vm_compute. reflexivity.
Defined.

(** ** A team without a durable identifier *)

Lemma handle_voice_command_in_memory (faults : nat -> bool)
  (command : pyobj) (a : App) :
  team_id_truthy (current_team_id (session a)) = false ->
  world (fst (handle_voice_command faults command a)) = world a
  /\ current_team_id (session (fst (handle_voice_command faults command a)))
     = current_team_id (session a).
Proof.
  intros T. unfold handle_voice_command.
  destruct command as [c| |t]; [| auto | auto].
  destruct (PyStr.truthy c); cbn [negb]; [| auto].
  cbn [players set_command_history set_last_command session stats_df
       current_team_id set_stats_df].
  rewrite T.
  repeat match goal with
         | |- context [match ?x with _ => _ end] => destruct x eqn:?
         end; cbn; auto.
Qed.

Lemma then_added_store (command : string) (r : App * Flow) :
  durable (world (fst (then_added command r))) = durable (world (fst r))
  /\ sent (world (fst (then_added command r))) = sent (world (fst r)).
Proof. unfold then_added. now destruct (snd r). Qed.

(** X6. While the team has no durable identifier ([None], or the identifier 0,
    which counts as none), nothing done on the tracking page sends a
    statement to the store or changes its tables: commands, Save, Reset and
    Start Over work in memory only, and the team stays without an
    identifier. *)
Theorem in_memory_team_never_touches_store (faults : nat -> bool)
  (ev : Event) (a : App) (df : DataFrame) :
  ledger a = Some df ->
  team_id_truthy (current_team_id (session a)) = false ->
  let r := run_script faults ev a in
  durable (world (fst r)) = durable (world a)
  /\ sent (world (fst r)) = sent (world a)
  /\ team_id_truthy (current_team_id (session (fst r))) = false.
Proof.
  intros L T. cbv zeta. unfold run_script. unfold ledger in L. rewrite L.
  destruct ev as [| now team_name players_input | | | | player skill
                  | text_command | on]; try (cbn; now auto).
  - unfold save_stats_button. rewrite L.
    destruct (current_team_id (session a)) as [team|] eqn:C;
      [rewrite T |]; cbn; rewrite ?C; auto.
  - unfold reset_stats_button. rewrite L. cbv zeta.
    cbn [current_team_id set_stats_df session].
    destruct (current_team_id (session a)) as [team|] eqn:C;
      [rewrite T |]; cbn; rewrite ?C; auto.
  - unfold start_over_button. rewrite L. cbn. auto.
  - unfold add_stat_from_dropdowns. rewrite L.
    destruct (nth_error (players (session a)) player) as [p|]; [| auto].
    destruct (nth_error VOLLEYBALL_SKILLS skill) as [s|]; [| auto].
    destruct (PyStr.truthy p && PyStr.truthy s); [| auto].
    destruct (then_added_store (p ++ " " ++ s)
                (handle_voice_command faults (PyString (p ++ " " ++ s)) a))
      as [-> ->].
    rewrite then_added_session.
    destruct (handle_voice_command_in_memory faults
                (PyString (p ++ " " ++ s)) a T) as [-> ->]. auto.
  - unfold add_stat_from_text. rewrite L.
    destruct (PyStr.truthy text_command); [| auto].
    destruct (then_added_store text_command
                (handle_voice_command faults (PyString text_command) a))
      as [-> ->].
    rewrite then_added_session.
    destruct (handle_voice_command_in_memory faults
                (PyString text_command) a T) as [-> ->]. auto.
  - destruct (Bool.eqb on (listening (session a))); [| cbn; auto].
    destruct on; [| auto]. unfold voice_tab. rewrite L. cbn. auto.
Qed.

Lemma in_memory_team_never_touches_store_witness :
  let a := mkApp (set_current_team_id (Some 0%Z)
                    (session (tracking_app ["Ann"; "Bo"])))
                 (world (tracking_app ["Ann"; "Bo"])) in
  let r := run_script no_faults SaveStats a in
  durable (world (fst r)) = durable (world a)
  /\ sent (world (fst r)) = sent (world a)
  /\ team_id_truthy (current_team_id (session (fst r))) = false.
Proof.
  cbv zeta.
  apply (in_memory_team_never_touches_store no_faults SaveStats
           (mkApp (set_current_team_id (Some 0%Z)
                     (session (tracking_app ["Ann"; "Bo"])))
                  (world (tracking_app ["Ann"; "Bo"])))
           (create_stats_dataframe ["Ann"; "Bo"])).
  - vm_compute. reflexivity.
  - vm_compute. reflexivity.
Defined.

(** ** The store: single calls *)

(** X7. [update_player_stat] never raises.  It returns [True] exactly when its
    update and its commit are both served, and then every stats row of the
    player and skill has its count raised by one while every other row,
    the number of rows and the other tables are as before; in particular
    it returns [True] and changes nothing when there is no such row.  When
    a statement fails it returns [False], prints a line and leaves the
    store as it was. *)
Theorem update_player_stat_contract (faults : nat -> bool) (player : Z)
  (skill : string) (W : World) :
  let r := update_player_stat faults player skill W in
  let hit s :=
    Z.eqb (stat_player_id s) player && String.eqb (stat_skill_name s) skill in
  (fst r = true <-> faults (sent W) = false /\ faults (S (sent W)) = false)
  /\ (fst r = true ->
      durable (snd r)
      = mkDb (tbl_teams (durable W)) (tbl_players (durable W))
          (map (fun s => if hit s
                         then mkStat (stat_id s) (stat_player_id s)
                                (stat_skill_name s) (stat_count s + 1)
                         else s)
               (tbl_stats (durable W)))
      /\ shown (snd r) = shown W
      /\ (filter hit (tbl_stats (durable W)) = [] ->
          tbl_stats (durable (snd r)) = tbl_stats (durable W)))
  /\ (fst r = false ->
      durable (snd r) = durable W
      /\ shown (snd r) = shown W ++ [Printed "Error updating stat"]).
Proof.
  cbv zeta.
  unfold update_player_stat, in_session, try_except, bind, statement,
    commit, print, rollback, ret, update_stats.
  destruct (faults (sent W)) eqn:F0; cbn.
  - split; [split; [discriminate | intros [H _]; discriminate] |].
    split; [discriminate | auto].
  - destruct (faults (S (sent W))) eqn:F1; cbn.
    + split; [split; [discriminate | intros [_ H]; discriminate] |].
      split; [discriminate | auto].
    + split; [tauto |]. split; [| discriminate].
      intros _. split; [reflexivity |]. split; [reflexivity |].
      intros Hn. induction (tbl_stats (durable W)) as [|s l IH];
        [reflexivity |].
      cbn [filter map] in *.
      destruct (Z.eqb (stat_player_id s) player
                && String.eqb (stat_skill_name s) skill);
        [discriminate | now rewrite IH].
Qed.

Lemma latest_fold (teams : list Team) (best : option Team) :
  match fold_left
          (fun best t =>
             match best with
             | None => Some t
             | Some b =>
                 if (team_created_at b <? team_created_at t)%Z
                 then Some t else best
             end)
          teams best
  with
  | None => best = None /\ teams = []
  | Some t =>
      (In t teams \/ best = Some t)
      /\ (forall t', In t' teams ->
                     (team_created_at t' <= team_created_at t)%Z)
      /\ (forall b, best = Some b ->
                    (team_created_at b <= team_created_at t)%Z)
  end.
Proof.
  revert best. induction teams as [|t teams IH]; intros best.
  - cbn. destruct best as [b|]; [| auto].
    split; [now right |]. split; [intros t' [] |].
    intros b' [= ->]. lia.
  - cbn [fold_left]. 
    set (best' := match best with
                  | None => Some t
                  | Some b => if (team_created_at b <? team_created_at t)%Z
                              then Some t else best
                  end).
    specialize (IH best').
    destruct (fold_left _ teams best') as [r|].
    + destruct IH as (Hin & Hmax & Hb).
      assert (Ht : (team_created_at t <= team_created_at r)%Z
                   /\ forall b, best = Some b ->
                                (team_created_at b <= team_created_at r)%Z).
      { subst best'. destruct best as [b|].
        - destruct (Z.ltb_spec (team_created_at b) (team_created_at t)).
          + pose proof (Hb t eq_refl). split; [lia |].
            intros b' [= ->]. lia.
          + pose proof (Hb b eq_refl). split; [lia |].
            intros b' [= ->]. lia.
        - pose proof (Hb t eq_refl). split; [lia | discriminate]. }
      destruct Ht as [Ht Hbest].
      split.
      * destruct Hin as [Hin | Hin]; [left; now right |].
        subst best'. destruct best as [b|].
        -- destruct (team_created_at b <? team_created_at t)%Z.
           ++ injection Hin as ->. left. now left.
           ++ now right.
        -- injection Hin as ->. left. now left.
      * split; [| exact Hbest].
        intros t' [<- | Hin']; [exact Ht | now apply Hmax].
    + destruct IH as [Hb _]. subst best'.
      destruct best as [b|]; [| discriminate].
      destruct (team_created_at b <? team_created_at t)%Z; discriminate.
Qed.

(** X8. When its query is served, [get_most_recent_team] changes nothing in
    the store and returns [None] exactly when there is no team; otherwise
    it returns a team of the table whose creation time no other team's
    exceeds.  When the query fails it raises. *)
Theorem most_recent_team_is_latest (faults : nat -> bool) (W : World) :
  let r := get_most_recent_team faults W in
  durable (snd r) = durable W
  /\ (faults (sent W) = true -> fst r = Raise StoreError)
  /\ (faults (sent W) = false ->
      match fst r with
      | Ok None => tbl_teams (durable W) = []
      | Ok (Some t) =>
          In t (tbl_teams (durable W))
          /\ forall t', In t' (tbl_teams (durable W)) ->
                        (team_created_at t' <= team_created_at t)%Z
      | Raise _ => False
      end).
Proof.
  cbv zeta. unfold get_most_recent_team, in_session, query, statement.
  destruct (faults (sent W)); cbn [fst snd durable tick].
  - split; [reflexivity |]. split; [reflexivity | discriminate].
  - split; [reflexivity |]. split; [discriminate |]. intros _.
    pose proof (latest_fold (tbl_teams (durable W)) None) as H.
    destruct (fold_left _ (tbl_teams (durable W)) None) as [t|].
    + destruct H as ([Hin | Hb] & Hmax & _); [| discriminate]. auto.
    + tauto.
Qed.

(** ** The store: inserts *)




Lemma max_id_nonneg (ids : list Z) : (0 <= fold_right Z.max 0%Z ids)%Z.
Proof. induction ids as [|x l IH]; simpl; lia. Qed.

Lemma max_id_bound (ids : list Z) (x : Z) :
  In x ids -> (x <= fold_right Z.max 0%Z ids)%Z.
Proof.
  induction ids as [|y l IH]; simpl; [tauto |].
  intros [-> | H]; [lia |]. specialize (IH H). lia.
Qed.

(** A new identifier is above every identifier in use. *)
Lemma next_id_fresh (ids : list Z) (x : Z) :
  In x ids -> (x < next_id ids)%Z.
Proof. intros H. unfold next_id. pose proof (max_id_bound ids x H). lia. Qed.

Lemma max_id_app (ids : list Z) (x : Z) :
  fold_right Z.max 0%Z (ids ++ [x])
  = Z.max (Z.max x 0) (fold_right Z.max 0%Z ids).
Proof. induction ids as [|y l IH]; simpl; [lia |]. rewrite IH. lia. Qed.

Lemma next_id_app (ids : list Z) :
  next_id (ids ++ [next_id ids]) = (next_id ids + 1)%Z.
Proof.
  unfold next_id. rewrite max_id_app.
  pose proof (max_id_nonneg ids). lia.
Qed.

Lemma ascending_above (lo : Z) (ids : list Z) (x : Z) :
  ascending_from lo ids -> In x ids -> (lo < x)%Z.
Proof.
  revert lo. induction ids as [|y l IH]; simpl; [tauto |].
  intros lo [H1 H2] [-> | Hin]; [exact H1 |].
  specialize (IH y H2 Hin). lia.
Qed.

Lemma ascending_NoDup (lo : Z) (ids : list Z) :
  ascending_from lo ids -> NoDup ids.
Proof.
  revert lo. induction ids as [|y l IH]; simpl; intros lo H;
    [constructor |].
  destruct H as [_ H]. constructor; [| now apply (IH y)].
  intros Hin. pose proof (ascending_above y l y H Hin). lia.
Qed.

(** Identifiers that are unique stay unique when larger, increasing ones
    are added. *)
Lemma NoDup_app_ascending (old new : list Z) :
  NoDup old -> ascending_from (fold_right Z.max 0%Z old) new ->
  NoDup (old ++ new).
Proof.
  intros Hold Hnew. apply NoDup_app; [exact Hold | |].
  - now apply (ascending_NoDup (fold_right Z.max 0%Z old)).
  - intros x Hx Hy. pose proof (max_id_bound old x Hx).
    pose proof (ascending_above _ _ x Hnew Hy). lia.
Qed.

(** The rows that [with_new_stats] adds. *)
Lemma with_new_stats_rows (player : Z) (skill_names : list string) (w : Db) :
  exists new,
    with_new_stats player skill_names w
    = mkDb (tbl_teams w) (tbl_players w) (tbl_stats w ++ new)
    /\ map stat_skill_name new = skill_names
    /\ Forall (fun s => stat_player_id s = player /\ stat_count s = 0%Z) new
    /\ ascending_from (fold_right Z.max 0%Z (map stat_id (tbl_stats w)))
         (map stat_id new).
Proof.
  unfold with_new_stats. revert w.
  induction skill_names as [|skill l IH]; intros w.
  - exists []. cbn. rewrite app_nil_r. destruct w; cbn. auto.
  - cbn [fold_left].
    set (s := mkStat (next_id (map stat_id (tbl_stats w))) player skill 0).
    destruct (IH (insert_stat s w)) as (new & E & Hn & Hf & Ha).
    exists (s :: new). rewrite E. cbn [insert_stat tbl_teams tbl_players
                                        tbl_stats] in *.
    rewrite <- app_assoc. split; [reflexivity |].
    split; [cbn; now rewrite Hn |].
    split; [constructor; [now split | exact Hf] |].
    cbn [map ascending_from stat_id s]. split; [unfold next_id; lia |].
    rewrite map_app in Ha. cbn [map stat_id s] in Ha.
    rewrite max_id_app in Ha.
    pose proof (max_id_nonneg (map stat_id (tbl_stats w))).
    unfold next_id in *.
    replace (Z.max (Z.max (1 + fold_right Z.max 0%Z (map stat_id (tbl_stats w))) 0)
               (fold_right Z.max 0%Z (map stat_id (tbl_stats w))))
      with (1 + fold_right Z.max 0%Z (map stat_id (tbl_stats w)))%Z in Ha
      by lia.
    exact Ha.
Qed.

Lemma with_new_players_rows (team : Z) (player_names : list string)
  (w : Db) :
  exists new,
    with_new_players team player_names w
    = mkDb (tbl_teams w) (tbl_players w ++ new) (tbl_stats w)
    /\ map player_name new = player_names
    /\ Forall (fun p => player_team_id p = team) new
    /\ ascending_from (fold_right Z.max 0%Z (map player_id (tbl_players w)))
         (map player_id new).
Proof.
  unfold with_new_players. revert w.
  induction player_names as [|name l IH]; intros w.
  - exists []. cbn. rewrite app_nil_r. destruct w; cbn. auto.
  - cbn [fold_left].
    set (p := mkPlayer (next_id (map player_id (tbl_players w))) name team).
    destruct (IH (insert_player p w)) as (new & E & Hn & Hf & Ha).
    exists (p :: new). rewrite E. cbn [insert_player tbl_teams tbl_players
                                        tbl_stats] in *.
    rewrite <- app_assoc. split; [reflexivity |].
    split; [cbn; now rewrite Hn |].
    split; [constructor; [reflexivity | exact Hf] |].
    cbn [map ascending_from player_id p]. split; [unfold next_id; lia |].
    rewrite map_app in Ha. cbn [map player_id p] in Ha.
    rewrite max_id_app in Ha.
    pose proof (max_id_nonneg (map player_id (tbl_players w))).
    unfold next_id in *.
    replace (Z.max (Z.max (1 + fold_right Z.max 0%Z
                                 (map player_id (tbl_players w))) 0)
               (fold_right Z.max 0%Z (map player_id (tbl_players w))))
      with (1 + fold_right Z.max 0%Z (map player_id (tbl_players w)))%Z in Ha
      by lia.
    exact Ha.
Qed.

Section Inserts.

Variable faults : nat -> bool.

(** A loop of insert statements: all are served, or one raises and
    nothing has been committed. *)
Lemma for_each_inserts {X} (step : X -> Db -> Db) (l : list X) (w : Db)
  (W : World) :
  (for_each l (fun x => statement faults (fun w => (tt, step x w))) w W
   = (Ok tt, fold_left (fun w x => step x w) l w,
      mkWorld (durable W) (sent W + List.length l) (shown W))
   /\ forall n, sent W <= n < sent W + List.length l -> faults n = false)
  \/ (exists e w' W',
        for_each l (fun x => statement faults (fun w => (tt, step x w))) w W
        = (Raise e, w', W')
        /\ durable W' = durable W /\ shown W' = shown W
        /\ exists n, sent W <= n < sent W + List.length l
                     /\ faults n = true).
Proof.
  revert w W. induction l as [|x l IH]; intros w W.
  - left. cbn. rewrite Nat.add_0_r. destruct W; cbn.
    split; [reflexivity | intros n Hn; lia].
  - assert (Hstep :
      for_each (x :: l)
        (fun x => statement faults (fun w => (tt, step x w))) w W
      = if faults (sent W) then (Raise StoreError, w, tick W)
        else for_each l
               (fun x => statement faults (fun w => (tt, step x w)))
               (step x w) (tick W)).
    { cbn [for_each]. unfold bind, statement at 1.
      now destruct (faults (sent W)). }
    rewrite Hstep. clear Hstep.
    destruct (faults (sent W)) eqn:F.
    + right. exists StoreError, w, (tick W). cbn.
      split; [reflexivity |]. split; [reflexivity |].
      split; [reflexivity |]. exists (sent W). split; [lia | exact F].
    + destruct (IH (step x w) (tick W))
        as [[E Nf] | (e & w' & W' & E & Du & Sh & n & Hn & Fn)].
      * left. rewrite E. cbn [tick durable sent shown List.length fold_left].
        split; [f_equal; f_equal; lia |].
        intros n Hn. destruct (Nat.eq_dec n (sent W)) as [-> | ne];
          [exact F |].
        apply Nf. cbn [tick sent]. lia.
      * right. exists e, w', W'. rewrite E.
        split; [reflexivity |]. split; [exact Du |]. split; [exact Sh |].
        exists n. cbn [tick sent List.length] in *. split; [lia | exact Fn].
Qed.

(** A loop of inserts followed by a commit, in a session of its own. *)
Lemma inserts_then_commit {X} (step : X -> Db -> Db) (l : list X)
  (W : World) :
  let r :=
    in_session
      (bind (for_each l (fun x =>
               statement faults (fun w => (tt, step x w)))) (fun _ =>
       commit faults)) W in
  shown (snd r) = shown W
  /\ ((fst r = Ok tt
       /\ durable (snd r) = fold_left (fun w x => step x w) l (durable W))
      \/ (exists e, fst r = Raise e /\ durable (snd r) = durable W))
  /\ ((forall n, sent W <= n <= sent W + List.length l ->
                 faults n = false) ->
      fst r = Ok tt).
Proof.
  cbv zeta. unfold in_session, bind.
  destruct (for_each_inserts step l (durable W) W)
    as [[E Nf] | (e & w' & W' & E & Du & Sh & n & Hn & Fn)]; rewrite E.
  - unfold commit. cbn [sent].
    destruct (faults (sent W + List.length l)) eqn:F; cbn.
    + split; [reflexivity |]. split; [right; now exists StoreError |].
      intros H. rewrite H in F by lia. discriminate.
    + split; [reflexivity |]. split; [now left | reflexivity].
  - cbn [fst snd]. split; [exact Sh |].
    split; [right; now exists e |].
    intros H. rewrite H in Fn by lia. discriminate.
Qed.

End Inserts.

(** X9. [initialize_player_stats] is all or nothing.  Either it returns and the
    store has gained, after the rows it had, one row per skill name, in
    order, for that player with count 0, with identifiers that keep the
    identifiers of the table unique; or it raises and the store is as it
    was.  It returns whenever the store serves its statements. *)
Theorem initialize_player_stats_all_or_nothing (faults : nat -> bool)
  (player : Z) (skill_names : list string) (W : World) :
  let r := initialize_player_stats faults player skill_names W in
  let old := durable W in
  ((fst r = Ok tt
    /\ exists new,
         durable (snd r)
         = mkDb (tbl_teams old) (tbl_players old) (tbl_stats old ++ new)
         /\ map stat_skill_name new = skill_names
         /\ Forall (fun s => stat_player_id s = player
                             /\ stat_count s = 0%Z) new
         /\ (NoDup (map stat_id (tbl_stats old)) ->
             NoDup (map stat_id (tbl_stats old ++ new))))
   \/ (exists e, fst r = Raise e /\ durable (snd r) = old))
  /\ ((forall n, sent W <= n <= sent W + List.length skill_names ->
                 faults n = false) ->
      fst r = Ok tt).
Proof.
  cbv zeta. unfold initialize_player_stats.
  destruct (inserts_then_commit faults
              (fun skill w =>
                 insert_stat
                   (mkStat (next_id (map stat_id (tbl_stats w)))
                           player skill 0) w)
              skill_names W) as (_ & [[E D] | (e & E & D)] & S).
  - split; [| exact S]. left. split; [exact E |].
    destruct (with_new_stats_rows player skill_names (durable W))
      as (new & En & Hn & Hf & Ha).
    exists new. unfold with_new_stats in En. rewrite D, En.
    split; [reflexivity |]. split; [exact Hn |]. split; [exact Hf |].
    intros ND. rewrite map_app. now apply NoDup_app_ascending.
  - split; [| exact S]. right. now exists e.
Qed.

(** X10. [add_players_to_team] is all or nothing.  Either it returns and the
    store has gained, after the players it had, one player per name, in
    order, in that team, with identifiers that keep the identifiers of the
    table unique; or it raises and the store is as it was.  It returns
    whenever the store serves its statements. *)
Theorem add_players_to_team_all_or_nothing (faults : nat -> bool)
  (team : Z) (player_names : list string) (W : World) :
  let r := add_players_to_team faults team player_names W in
  let old := durable W in
  ((fst r = Ok tt
    /\ exists new,
         durable (snd r)
         = mkDb (tbl_teams old) (tbl_players old ++ new) (tbl_stats old)
         /\ map player_name new = player_names
         /\ Forall (fun p => player_team_id p = team) new
         /\ (NoDup (map player_id (tbl_players old)) ->
             NoDup (map player_id (tbl_players old ++ new))))
   \/ (exists e, fst r = Raise e /\ durable (snd r) = old))
  /\ ((forall n, sent W <= n <= sent W + List.length player_names ->
                 faults n = false) ->
      fst r = Ok tt).
Proof.
  cbv zeta. unfold add_players_to_team.
  destruct (inserts_then_commit faults
              (fun name w =>
                 insert_player
                   (mkPlayer (next_id (map player_id (tbl_players w)))
                             name team) w)
              player_names W) as (_ & [[E D] | (e & E & D)] & S).
  - split; [| exact S]. left. split; [exact E |].
    destruct (with_new_players_rows team player_names (durable W))
      as (new & En & Hn & Hf & Ha).
    exists new. unfold with_new_players in En. rewrite D, En.
    split; [reflexivity |]. split; [exact Hn |]. split; [exact Hf |].
    intros ND. rewrite map_app. now apply NoDup_app_ascending.
  - split; [| exact S]. right. now exists e.
Qed.

(** X11. [create_team] returns an identifier only after the team is committed:
    the team table has then gained exactly the row (id, name, now), whose
    identifier is above every identifier the table had.  In every case the
    players and the stats are untouched and the team table is the old one
    or the old one with that row. *)
Theorem create_team_commits_fresh_row (faults : nat -> bool) (now : Z)
  (name : string) (W : World) :
  let r := create_team faults now name W in
  let old := durable W in
  let row := mkTeam (next_id (map team_id (tbl_teams old))) name now in
  (forall x, In x (map team_id (tbl_teams old)) -> (x < team_id row)%Z)
  /\ (durable (snd r) = old \/ durable (snd r) = insert_team row old)
  /\ (forall id, fst r = Ok id ->
                 id = team_id row /\ durable (snd r) = insert_team row old)
  /\ ((forall n, sent W <= n <= sent W + 2 -> faults n = false) ->
      fst r = Ok (team_id row)).
Proof.
  cbv zeta. split; [intros x Hx; now apply next_id_fresh |].
  unfold create_team, in_session, bind, query, statement, commit, ret.
  cbn [sent tick].
  destruct (faults (sent W)) eqn:F0; cbn [fst snd durable sent tick].
  - split; [now left |]. split; [discriminate |].
    intros H. rewrite H in F0 by lia. discriminate.
  - destruct (faults (S (sent W))) eqn:F1; cbn [fst snd durable sent tick].
    + split; [now left |]. split; [discriminate |].
      intros H. rewrite H in F1 by lia. discriminate.
    + destruct (faults (S (S (sent W)))) eqn:F2;
        cbn [fst snd durable sent tick].
      * split; [now right |]. split; [discriminate |].
        intros H. rewrite H in F2 by lia. discriminate.
      * split; [now right |]. split; [| reflexivity].
        intros id [= <-]. auto.
Qed.

(** ** Columns added on load *)


Lemma has_label_get {V} (c : string) (d : list (string * V)) :
  has_label c (map fst d) = true <-> PyDict.get String.eqb c d <> None.
Proof.
  unfold has_label. induction d as [|[k v] d IH]; cbn.
  - split; [discriminate | congruence].
  - destruct (String.eqb c k); cbn; [split; [discriminate | reflexivity] |].
    exact IH.
Qed.

Lemma dict_set_absent {V} (k : string) (v : V) (d : list (string * V)) :
  PyDict.get String.eqb k d = None ->
  PyDict.set String.eqb k v d = d ++ [(k, v)].
Proof.
  induction d as [|[k' v'] d IH]; cbn; [reflexivity |].
  destruct (String.eqb k k'); [discriminate |].
  intros H. now rewrite IH.
Qed.

Lemma dict_get_app {V} (c : string) (d e : list (string * V)) :
  PyDict.get String.eqb c (d ++ e)
  = match PyDict.get String.eqb c d with
    | Some v => Some v
    | None => PyDict.get String.eqb c e
    end.
Proof.
  induction d as [|[k v] d IH]; cbn; [reflexivity |].
  now destruct (String.eqb c k).
Qed.

(** One step of the loops that add missing columns. *)
Lemma backfill_step (skill : string) (df : DataFrame) :
  (if has_label skill (columns df) then df else set_column_zero skill df)
  = mkFrame (index df)
      (data df
       ++ if has_label skill (columns df) then []
          else [(skill, repeat (Num 0) (List.length (index df)))]).
Proof.
  destruct (has_label skill (columns df)) eqn:H.
  - rewrite app_nil_r. now destruct df.
  - unfold set_column_zero. f_equal. apply dict_set_absent.
    destruct (PyDict.get String.eqb skill (data df)) eqn:G; [| reflexivity].
    assert (has_label skill (columns df) = true)
      by (apply has_label_get; congruence).
    congruence.
Qed.

Lemma backfill_columns_spec (skills : list string) (df : DataFrame) :
  let df' := backfill_columns skills df in
  index df' = index df
  /\ (exists added, columns df' = columns df ++ added)
  /\ (forall c i, has_label c (columns df) = true ->
                  cell_at df' i c = cell_at df i c)
  /\ (forall s, In s skills -> has_label s (columns df') = true)
  /\ (forall s i, has_label s (columns df) = false ->
                  has_label s (columns df') = true ->
                  i < List.length (index df) ->
                  cell_at df' i s = Some (Num 0))
  /\ (rectangular df -> rectangular df').
Proof.
  cbv zeta. unfold backfill_columns. revert df.
  induction skills as [|skill l IH]; intros df.
  - cbn. split; [reflexivity |]. split; [exists []; now rewrite app_nil_r |].
    split; [reflexivity |]. split; [tauto |].
    split; [congruence | tauto].
  - cbn [fold_left]. rewrite backfill_step.
    set (extra := if has_label skill (columns df) then []
                  else [(skill, repeat (Num 0) (List.length (index df)))]).
    set (df1 := mkFrame (index df) (data df ++ extra)).
    destruct (IH df1) as (I & (added & C) & K & A & Z & R).
    assert (C1 : columns df1 = columns df ++ map fst extra)
      by (unfold columns, df1; cbn; apply map_app).
    assert (G1 : forall c vs,
               PyDict.get String.eqb c (data df) = Some vs ->
               PyDict.get String.eqb c (data df1) = Some vs).
    { intros c vs H. unfold df1. cbn [data]. now rewrite dict_get_app, H. }
    assert (L1 : forall c, has_label c (columns df) = true ->
                           has_label c (columns df1) = true).
    { intros c H. unfold columns in H. apply has_label_get in H.
      destruct (PyDict.get String.eqb c (data df)) as [vs|] eqn:G;
        [| congruence].
      unfold columns. apply has_label_get. now rewrite (G1 c vs G). }
    assert (S1 : has_label skill (columns df1) = true).
    { destruct (has_label skill (columns df)) eqn:H; [now apply L1 |].
      unfold df1, extra. rewrite ?H. unfold columns. cbn [data].
      apply has_label_get. rewrite dict_get_app.
      destruct (PyDict.get String.eqb skill (data df)); [discriminate |].
      cbn. now rewrite String.eqb_refl. }
    split; [exact I |].
    split.
    { exists (map fst extra ++ added). now rewrite C, C1, app_assoc. }
    split.
    { intros c i H. rewrite (K c i (L1 c H)). unfold cell_at.
      unfold columns in H. apply has_label_get in H.
      destruct (PyDict.get String.eqb c (data df)) as [vs|] eqn:G;
        [| congruence].
      now rewrite (G1 c vs G). }
    split.
    { intros s [<- | Hin]; [| now apply A].
      rewrite C. unfold has_label in *. rewrite existsb_app, S1.
      reflexivity. }
    split.
    { intros s i Hn Hy Hi.
      destruct (has_label s (columns df1)) eqn:H1.
      - rewrite (K s i H1).
        (* the column was added by this step *)
        assert (Hs : skill = s /\ has_label skill (columns df) = false).
        { rewrite C1 in H1. unfold has_label in H1, Hn.
          rewrite existsb_app, Hn in H1. cbn [orb] in H1.
          unfold extra in H1. destruct (has_label skill (columns df));
            [discriminate H1 |].
          cbn in H1. rewrite orb_false_r in H1.
          apply String.eqb_eq in H1. auto. }
        destruct Hs as [-> Hf]. unfold cell_at, df1, extra. cbn [data].
        rewrite Hf, dict_get_app.
        destruct (PyDict.get String.eqb s (data df)) eqn:G.
        + assert (has_label s (columns df) = true)
            by (apply has_label_get; congruence). congruence.
        + cbn. rewrite String.eqb_refl. now apply nth_error_repeat.
      - now apply (Z s i H1 Hy). }
    { intros Rdf. apply R. unfold rectangular, df1 in *. cbn [data index].
      apply Forall_app. split; [exact Rdf |].
      unfold extra. destruct (has_label skill (columns df));
        constructor; [| constructor]. cbn. apply repeat_length. }
Qed.

(** X12. The loops that add missing columns keep the rows and every column
    with its values; they add, after the columns that were there, a column
    of zeros for each name that was missing, so that afterwards every
    name of the list is a column, and a table with one value per row and
    column stays one. *)
Theorem backfill_keeps_data_adds_zero_columns (skills : list string)
  (df : DataFrame) :
  let df' := backfill_columns skills df in
  index df' = index df
  /\ (exists added, columns df' = columns df ++ added)
  /\ (forall c i, has_label c (columns df) = true ->
                  cell_at df' i c = cell_at df i c)
  /\ (forall s, In s skills -> has_label s (columns df') = true)
  /\ (forall s i, has_label s (columns df) = false ->
                  has_label s (columns df') = true ->
                  i < List.length (index df) ->
                  cell_at df' i s = Some (Num 0))
  /\ (rectangular df -> rectangular df').
Proof. exact (backfill_columns_spec skills df). Qed.

(** ** The ledger stays a full table *)

Lemma as_column_length (vs : list cell) :
  List.length (as_column vs) = List.length vs.
Proof.
  unfold as_column. destruct (float_column vs); [apply length_map | reflexivity].
Qed.

Lemma from_dict_index_rectangular (d : list (string * list (string * Z))) :
  rectangular (from_dict_index d).
Proof.
  unfold from_dict_index, rectangular. cbv zeta. cbn [data index].
  apply Forall_map, Forall_forall. intros col _. cbn [snd].
  rewrite as_column_length. apply length_map.
Qed.

Section FullTable.

Variable faults : nat -> bool.

Lemma get_all_stats_for_team_rectangular (team : Z) (W W' : World)
  (df : DataFrame) :
  get_all_stats_for_team faults team W = (Ok df, W') -> rectangular df.
Proof.
  unfold get_all_stats_for_team, in_session, bind, query, statement, ret,
    raise.
  destruct (faults (sent W)); [discriminate |]. cbn [fst snd tick sent].
  destruct (faults (S (sent W))); [discriminate |]. cbn [fst snd tick sent].
  destruct (fill_stats _ _ _) as [stats_dict|e]; [| discriminate].
  cbn [fst snd tick sent].
  destruct (faults _); [discriminate |].
  cbn [fst snd]. intros [= <- _].
  apply backfill_columns_spec, from_dict_index_rectangular.
Qed.

Lemma full_table_of_frame (a : App) (df : DataFrame) :
  ledger a = Some df -> rectangular df ->
  (forall s, In s VOLLEYBALL_SKILLS -> has_label s (columns df) = true) ->
  full_table a.
Proof. intros L R C df' L'. rewrite L in L'. injection L' as <-. auto. Qed.

Lemma full_table_same (a a' : App) :
  ledger a' = ledger a -> full_table a -> full_table a'.
Proof. intros E H df L. apply H. now rewrite <- E. Qed.

Lemma full_table_none (a : App) : ledger a = None -> full_table a.
Proof. intros E df L. congruence. Qed.

Lemma full_table_created (a : App) (names : list string) :
  ledger a = Some (create_stats_dataframe names) -> full_table a.
Proof.
  intros L. apply (full_table_of_frame a _ L).
  - apply roster_shaped_create.
  - intros s Hs. now apply has_label_in.
Qed.

Lemma load_existing_team_full_table (load_team : bool) (a : App) :
  full_table a -> full_table (fst (load_existing_team faults load_team a)).
Proof.
  intros H. unfold load_existing_team. cbv zeta.
  destruct (get_most_recent_team faults (world a)) as [[[t|]|e] W1];
    try exact H.
  destruct (get_team_with_players faults (team_id t) W1)
    as [[[t' ps]|e] W2]; try exact H.
  destruct load_team; try exact H.
  destruct (get_all_stats_for_team faults (team_id t) _)
    as [[df|e] W3] eqn:G.
  - apply (full_table_of_frame _ (backfill_columns VOLLEYBALL_SKILLS df));
      [reflexivity | |].
    + apply backfill_columns_spec.
      exact (get_all_stats_for_team_rectangular _ _ _ _ G).
    + apply backfill_columns_spec.
  - cbn [fst]. intros df L. unfold ledger in *. cbn in L. now apply H.
Qed.

Lemma start_tracking_full_table (now : Z) (team_name players_input : string)
  (a : App) :
  full_table a ->
  full_table (fst (start_tracking faults now team_name players_input a)).
Proof.
  intros H.
  destruct (parse_players players_input) as [|p ps] eqn:P.
  - unfold start_tracking. cbv zeta. rewrite P. exact H.
  - apply (full_table_created _ (parse_players players_input)).
    apply start_tracking_ledger. congruence.
Qed.

Lemma handle_voice_command_full_table (command : pyobj) (a : App) :
  full_table a -> full_table (fst (handle_voice_command faults command a)).
Proof.
  intros H.
  destruct (resolves (players (session a)) command) as [[p s]|] eqn:R.
  - destruct command as [c| |t]; try discriminate R. cbn [resolves] in R.
    destruct (ledger a) as [df|] eqn:L.
    + destruct (has_label p (index df) && has_label s (columns df)) eqn:B.
      * apply andb_true_iff in B as [Bp Bs].
        rewrite (handle_voice_command_resolved faults c p s a df R L Bp Bs).
        destruct (H df L) as [Rdf Cdf].
        apply (full_table_of_frame _ (loc_add1 p s df)); [reflexivity | |].
        -- now apply rectangular_loc_add1.
        -- intros s' Hs'. rewrite columns_loc_add1. auto.
      * apply (full_table_same a); [| exact H].
        unfold handle_voice_command, ledger in *.
        assert (T : PyStr.truthy c = true)
          by (destruct c; [discriminate R | reflexivity]).
        rewrite T. cbn [negb].
        cbn [players set_command_history set_last_command session stats_df
             current_team_id set_stats_df].
        unfold resolution in R.
        destruct (List.length (words c) <? 2); [discriminate |].
        destruct (first_mention c (players (session a))) as [p'|];
          [| discriminate].
        destruct (negb (PyStr.truthy p')); [discriminate |].
        destruct (first_mention c VOLLEYBALL_SKILLS) as [s'|];
          [| discriminate].
        destruct (negb (PyStr.truthy s')); [discriminate |].
        injection R as -> ->. rewrite L, B. cbn. congruence.
    + apply full_table_none. unfold handle_voice_command, ledger in *.
      destruct (PyStr.truthy c); cbn [negb]; [| exact L].
      cbn [players set_command_history set_last_command session stats_df
           current_team_id set_stats_df].
      repeat match goal with
             | |- context [match ?x with _ => _ end] => destruct x eqn:?
             end; cbn; congruence.
  - apply (full_table_same a); [| exact H].
    rewrite (handle_voice_command_unresolved faults command a R).
    destruct command as [c| |t]; [destruct (PyStr.truthy c) | |];
      reflexivity.
Qed.

Lemma run_script_full_table (ev : Event) (a : App) :
  full_table a -> full_table (fst (run_script faults ev a)).
Proof.
  intros H. unfold run_script.
  destruct (stats_df (session a)) as [df|] eqn:L;
    destruct ev as [| now team_name players_input | | | | player skill
                    | text_command | on];
    try (now apply load_existing_team_full_table); try exact H.
  - unfold save_stats_button. rewrite L.
    apply (full_table_same a); [| exact H].
    repeat match goal with
           | |- context [match ?x with _ => _ end] => destruct x
           end; reflexivity.
  - apply (full_table_created _ (players (session a))).
    now apply (reset_stats_button_ledger faults a df).
  - apply full_table_none. unfold start_over_button. now rewrite L.
  - unfold add_stat_from_dropdowns. rewrite L.
    destruct (nth_error (players (session a)) player) as [p|];
      [| exact H].
    destruct (nth_error VOLLEYBALL_SKILLS skill) as [s|]; [| exact H].
    destruct (PyStr.truthy p && PyStr.truthy s); [| exact H].
    apply (full_table_same (fst (handle_voice_command faults
                     (PyString (p ++ " " ++ s)) a))).
    + unfold ledger. now rewrite then_added_session.
    + now apply handle_voice_command_full_table.
  - unfold add_stat_from_text. rewrite L.
    destruct (PyStr.truthy text_command); [| exact H].
    apply (full_table_same (fst (handle_voice_command faults (PyString text_command) a))).
    + unfold ledger. now rewrite then_added_session.
    + now apply handle_voice_command_full_table.
  - apply (full_table_same a); [| exact H].
    destruct (Bool.eqb on (listening (session a))); [| reflexivity].
    destruct on; [| reflexivity]. unfold voice_tab. now rewrite L.
  - destruct (load_existing_team faults false a) as [a' f] eqn:E.
    assert (H' : full_table a')
      by (change a' with (fst (a', f)); rewrite <- E;
          now apply load_existing_team_full_table).
    destruct f; try exact H'. now apply start_tracking_full_table.
Qed.

Lemma reachable_full_table (a : App) : reachable faults a -> full_table a.
Proof.
  induction 1 as [db | ev a _ IH].
  - now apply full_table_none.
  - now apply run_script_full_table.
Qed.

End FullTable.

(** X13. In every state the application can reach, over any store and whatever
    statements fail, the ledger (when there is one) is a full table: every
    column has one value per row, and each of the 13 skills is a column. *)
Theorem reachable_ledger_is_full_table (faults : nat -> bool) (a : App)
  (df : DataFrame) :
  reachable faults a ->
  ledger a = Some df ->
  rectangular df
  /\ forall s, In s VOLLEYBALL_SKILLS -> has_label s (columns df) = true.
Proof. intros R L. exact (reachable_full_table faults a R df L). Qed.

Lemma reachable_ledger_is_full_table_witness :
  rectangular (backfill_columns VOLLEYBALL_SKILLS
                 (mkFrame ["Ann"] [("Dig", [Num 4])]))
  /\ forall s, In s VOLLEYBALL_SKILLS ->
               has_label s
                 (columns (backfill_columns VOLLEYBALL_SKILLS
                             (mkFrame ["Ann"] [("Dig", [Num 4])])))
               = true.
Proof.
  apply (reachable_ledger_is_full_table no_faults loaded_app).
  - apply reach_run, reach_start.
  - vm_compute. reflexivity.
Defined.

(** ** Saving the ledger *)

Lemma update_stats_tables (cond : Stat -> bool) (f : Z -> Z) (w : Db) :
  tbl_teams (snd (update_stats cond f w)) = tbl_teams w
  /\ tbl_players (snd (update_stats cond f w)) = tbl_players w.
Proof. now split. Qed.

Lemma in_update_stats (cond : Stat -> bool) (f : Z -> Z) (w : Db) (s : Stat) :
  In s (tbl_stats (snd (update_stats cond f w)))
  <-> exists s0, In s0 (tbl_stats w)
                 /\ s = (if cond s0
                         then mkStat (stat_id s0) (stat_player_id s0)
                                (stat_skill_name s0) (f (stat_count s0))
                         else s0).
Proof.
  cbn. rewrite in_map_iff. split; intros (s0 & A & B); exists s0; auto.
Qed.

Lemma rowcount_zero (cond : Stat -> bool) (f : Z -> Z) (w : Db) :
  fst (update_stats cond f w) = 0 <->
  forall s, In s (tbl_stats w) -> cond s = false.
Proof.
  cbn. split.
  - intros H s Hin. destruct (cond s) eqn:C; [| reflexivity].
    assert (Hf : In s (filter cond (tbl_stats w)))
      by (apply filter_In; auto).
    destruct (filter cond (tbl_stats w)); [destruct Hf | discriminate].
  - intros H. induction (tbl_stats w) as [|s l IH]; [reflexivity |].
    cbn. rewrite (H s (or_introl eq_refl)). apply IH.
    intros s' Hs'. apply H. now right.
Qed.

(** After the upsert the store holds the count. *)
Lemma upsert_holds (player : Z) (skill : string) (count : Z) (w : Db) :
  holds_count (upsert player skill count w) player skill count.
Proof.
  unfold upsert. cbv zeta.
  destruct (fst (update_stats (hits player skill) (fun _ => count) w) =? 0)
    eqn:RC.
  - apply Nat.eqb_eq in RC.
    pose proof (proj1 (rowcount_zero _ _ _) RC) as No.
    set (w1 := snd (update_stats (hits player skill) (fun _ => count) w)).
    set (id := next_id (map stat_id (tbl_stats w1))).
    assert (E1 : tbl_stats w1 = tbl_stats w).
    { unfold w1. cbn. rewrite <- (map_id (tbl_stats w)) at 2.
      apply map_ext_in. intros s Hs. now rewrite (No s Hs). }
    split.
    + exists (mkStat id player skill count). split.
      * apply in_update_stats. exists (mkStat id player skill 0).
        split; [cbn; apply in_or_app; right; now left |].
        cbn. now rewrite Z.eqb_refl.
      * unfold hits. cbn. now rewrite Z.eqb_refl, String.eqb_refl.
    + intros s Hin Hh. apply in_update_stats in Hin as (s0 & Hin0 & ->).
      cbn [insert_stat tbl_stats] in Hin0. apply in_app_or in Hin0.
      destruct Hin0 as [Hold | [<- | []]].
      * rewrite E1 in Hold.
        assert (Hlt : (stat_id s0 < id)%Z).
        { apply next_id_fresh. rewrite E1. now apply in_map. }
        destruct (Z.eqb_spec (stat_id s0) id) as [E | _]; [lia |].
        rewrite (No s0 Hold) in Hh. discriminate.
      * cbn. now rewrite Z.eqb_refl.
  - apply Nat.eqb_neq in RC. cbn [update_stats fst] in RC. split.
    + destruct (filter (hits player skill) (tbl_stats w)) as [|s0 l] eqn:F;
        [now elim RC |].
      assert (Hs0 : In s0 (filter (hits player skill) (tbl_stats w)))
        by (rewrite F; now left).
      apply filter_In in Hs0 as [Hin Hh].
      exists (mkStat (stat_id s0) (stat_player_id s0) (stat_skill_name s0)
                     count).
      split; [apply in_update_stats; exists s0; now rewrite Hh |].
      exact Hh.
    + intros s Hin Hh. apply in_update_stats in Hin as (s0 & Hin0 & ->).
      destruct (hits player skill s0) eqn:H0; [reflexivity |].
      congruence.
Qed.

Lemma hits_key (p : Z) (s : string) (r : Stat) :
  hits p s r = true <-> stat_player_id r = p /\ stat_skill_name r = s.
Proof.
  unfold hits. rewrite andb_true_iff, Z.eqb_eq, String.eqb_eq. tauto.
Qed.

(** The rows after an upsert: the rows of the player and skill, which
    carry the count, and the other rows, which are the ones from before. *)
Lemma upsert_rows (p : Z) (s : string) (c : Z) (w : Db) (r : Stat) :
  hits p s r = false ->
  (In r (tbl_stats (upsert p s c w)) <-> In r (tbl_stats w)).
Proof.
  intros Hr. unfold upsert. cbv zeta.
  destruct (fst (update_stats (hits p s) (fun _ => c) w) =? 0) eqn:RC.
  - apply Nat.eqb_eq in RC.
    pose proof (proj1 (rowcount_zero _ _ _) RC) as No.
    set (w1 := snd (update_stats (hits p s) (fun _ => c) w)).
    set (id := next_id (map stat_id (tbl_stats w1))).
    assert (E1 : tbl_stats w1 = tbl_stats w).
    { unfold w1. cbn. rewrite <- (map_id (tbl_stats w)) at 2.
      apply map_ext_in. intros x Hx. now rewrite (No x Hx). }
    assert (Fresh : forall x, In x (tbl_stats w) ->
                      Z.eqb (stat_id x) id = false).
    { intros x Hx. apply Z.eqb_neq.
      assert ((stat_id x < id)%Z); [| lia].
      apply next_id_fresh. rewrite E1. now apply in_map. }
    rewrite in_update_stats. cbn [insert_stat tbl_stats]. rewrite E1.
    split.
    + intros (s0 & Hin & E). apply in_app_or in Hin.
      destruct Hin as [Hold | [<- | []]].
      * rewrite (Fresh s0 Hold) in E. now subst.
      * cbn in E. rewrite Z.eqb_refl in E. subst r.
        unfold hits in Hr. cbn in Hr.
        now rewrite Z.eqb_refl, String.eqb_refl in Hr.
    + intros Hin. exists r. split; [apply in_or_app; now left |].
      now rewrite (Fresh r Hin).
  - rewrite in_update_stats. split.
    + intros (s0 & Hin & E). destruct (hits p s s0) eqn:H0.
      * subst r. exfalso. apply hits_key in H0 as [A B].
        unfold hits in Hr. cbn in Hr. rewrite A, B in Hr.
        now rewrite Z.eqb_refl, String.eqb_refl in Hr.
      * now subst.
    + intros Hin. exists r. now rewrite Hr.
Qed.

Lemma upsert_tables (p : Z) (s : string) (c : Z) (w : Db) :
  tbl_teams (upsert p s c w) = tbl_teams w
  /\ tbl_players (upsert p s c w) = tbl_players w.
Proof.
  unfold upsert. cbv zeta.
  destruct (fst (update_stats (hits p s) (fun _ => c) w) =? 0); now split.
Qed.

(** An upsert for another player or skill keeps the count held. *)
Lemma upsert_keeps (p p' : Z) (s s' : string) (c c' : Z) (w : Db) :
  (p', s') <> (p, s) ->
  holds_count w p s c -> holds_count (upsert p' s' c' w) p s c.
Proof.
  intros Ne [[r [Hin Hr]] All].
  assert (Other : forall x, hits p s x = true -> hits p' s' x = false).
  { intros x Hx. destruct (hits p' s' x) eqn:Hx'; [| reflexivity].
    apply hits_key in Hx as [A B]. apply hits_key in Hx' as [A' B'].
    elim Ne. congruence. }
  split.
  - exists r. split; [| exact Hr]. apply upsert_rows; auto.
  - intros x Hx Hh. apply All; [| exact Hh].
    apply (upsert_rows p' s' c' w x); auto.
Qed.

Lemma upsert_cells_keep (p : Z) (s : string) (c : Z)
  (l : list (Z * string * cell)) (w : Db) :
  Forall (fun x => fst x <> (p, s)) l ->
  holds_count w p s c -> holds_count (fold_left upsert_cell l w) p s c.
Proof.
  intros F. revert w. induction F as [|[[p' s'] v] l Hx F IH]; intros w H.
  - exact H.
  - cbn [fold_left]. apply IH. unfold upsert_cell. cbn [fst snd].
    destruct v as [c'|]; [| exact H]. now apply upsert_keeps.
Qed.

Lemma upsert_cells_tables (l : list (Z * string * cell)) (w : Db) :
  tbl_teams (fold_left upsert_cell l w) = tbl_teams w
  /\ tbl_players (fold_left upsert_cell l w) = tbl_players w.
Proof.
  revert w. induction l as [|[[p s] v] l IH]; intros w; [now split |].
  cbn [fold_left]. destruct (IH (upsert_cell w (p, s, v))) as [A B].
  rewrite A, B. unfold upsert_cell. cbn [fst snd].
  destruct v; [apply upsert_tables | now split].
Qed.

(** After the cells have been upserted in order, the store holds, for a
    player and skill, the count of the last cell of that player and
    skill. *)
Lemma upsert_cells_last (l1 l2 : list (Z * string * cell)) (p : Z)
  (s : string) (c : Z) (w : Db) :
  Forall (fun x => fst x <> (p, s)) l2 ->
  holds_count (fold_left upsert_cell (l1 ++ (p, s, Num c) :: l2) w) p s c.
Proof.
  intros F. rewrite fold_left_app. cbn [fold_left].
  apply upsert_cells_keep; [exact F |].
  unfold upsert_cell. cbn [fst snd]. apply upsert_holds.
Qed.

Section SaveServed.

Variable faults : nat -> bool.

Lemma later_refl (W : World) : later W W.
Proof. unfold later. auto. Qed.

Lemma later_trans (W1 W2 W3 : World) :
  later W1 W2 -> later W2 W3 -> later W1 W3.
Proof.
  unfold later. intros (A & B & C) (A' & B' & C').
  repeat split; [congruence | congruence | lia].
Qed.

Lemma later_tick (W : World) : later W (tick W).
Proof. unfold later, tick. cbn. auto. Qed.

Lemma served_later (W W' : World) :
  served faults W -> later W W' -> served faults W'.
Proof. intros S (_ & _ & Le) n Hn. apply S. lia. Qed.

Lemma statement_served {A} (f : Db -> A * Db) (w : Db) (W : World) :
  served faults W ->
  statement faults f w W = (Ok (fst (f w)), snd (f w), tick W).
Proof. intros S. unfold statement. now rewrite (S (sent W) (le_n _)). Qed.

Lemma save_cell_served (player : Z) (skill : string) (count : Z) (w : Db)
  (W : World) :
  served faults W ->
  exists W',
    save_cell faults player (skill, Num count) w W
    = (Ok tt, upsert player skill count w, W')
    /\ later W W'.
Proof.
  intros S. unfold save_cell. cbn [fst snd int_of_cell]. cbv zeta.
  change (fun s0 : Stat =>
            (stat_player_id s0 =? player)%Z
            && (stat_skill_name s0 =? skill)%string)
    with (hits player skill).
  unfold bind at 1. rewrite (statement_served _ w W S).
  unfold upsert. cbv zeta.
  destruct (fst (update_stats (hits player skill) (fun _ => count) w) =? 0)
    eqn:RC.
  - assert (S1 : served faults (tick W))
      by (eapply served_later; [exact S | apply later_tick]).
    assert (S2 : served faults (tick (tick W)))
      by (eapply served_later; [exact S1 | apply later_tick]).
    unfold bind. rewrite (statement_served _ _ _ S1).
    cbn [fst snd]. rewrite (statement_served _ _ _ S2).
    unfold ret. eexists. split; [reflexivity |].
    eapply later_trans; [apply later_tick |].
    eapply later_trans; apply later_tick.
  - unfold ret. eexists. split; [reflexivity | apply later_tick].
Qed.

Lemma save_cells_served (player : Z) (items : list (string * cell)) (w : Db)
  (W : World) :
  served faults W ->
  Forall (fun item => snd item <> NaN) items ->
  exists W',
    for_each items (save_cell faults player) w W
    = (Ok tt,
       fold_left upsert_cell
         (map (fun item => (player, fst item, snd item)) items) w, W')
    /\ later W W'.
Proof.
  intros S F. revert w W S.
  induction F as [|[skill v] items Hv F IH]; intros w W S.
  - exists W. split; [reflexivity | apply later_refl].
  - cbn [snd] in Hv. destruct v as [count|]; [| now elim Hv].
    destruct (save_cell_served player skill count w W S) as (W1 & E1 & L1).
    destruct (IH (upsert player skill count w) W1
                 (served_later _ _ S L1)) as (W2 & E2 & L2).
    exists W2. split; [| eapply later_trans; eauto].
    cbn [for_each map fold_left]. unfold bind. rewrite E1. exact E2.
Qed.

Lemma save_rows_served (name_to_id : list (string * Z))
  (rows : list (string * list (string * cell))) (w : Db) (W : World) :
  served faults W ->
  Forall (fun c => snd c <> NaN) (cells_of_rows name_to_id rows) ->
  exists W',
    for_each rows (save_row faults name_to_id) w W
    = (Ok tt, fold_left upsert_cell (cells_of_rows name_to_id rows) w, W')
    /\ later W W'.
Proof.
  revert w W. induction rows as [|row rows IH]; intros w W S F.
  - exists W. split; [reflexivity | apply later_refl].
  - unfold cells_of_rows in F. cbn [flat_map] in F.
    apply Forall_app in F as [F1 F2].
    assert (H1 : exists W1,
               save_row faults name_to_id row w W
               = (Ok tt,
                  fold_left upsert_cell
                    match PyDict.get String.eqb (fst row) name_to_id with
                    | None => []
                    | Some player =>
                        map (fun item => (player, fst item, snd item))
                            (snd row)
                    end w, W1)
               /\ later W W1).
    { unfold save_row.
      destruct (PyDict.get String.eqb (fst row) name_to_id) as [player|].
      - apply save_cells_served; [exact S |].
        apply Forall_forall. intros item Hi.
        rewrite Forall_forall in F1.
        apply (F1 (player, fst item, snd item)).
        apply in_map_iff. now exists item.
      - exists W. split; [reflexivity | apply later_refl]. }
    destruct H1 as (W1 & E1 & L1).
    match type of E1 with
    | _ = (_, ?w1, _) =>
        destruct (IH w1 W1 (served_later _ _ S L1) F2) as (W2 & E2 & L2)
    end.
    exists W2. split; [| eapply later_trans; eauto].
    cbn [for_each]. unfold bind. rewrite E1.
    unfold cells_of_rows at 1. cbn [flat_map]. rewrite fold_left_app.
    exact E2.
Qed.

(** A served Save of a ledger without a missing value comes to the
    upserts of its cells, committed. *)
Lemma save_current_stats_served (team : Z) (df : DataFrame) (W : World) :
  served faults W ->
  Forall (fun c => snd c <> NaN) (saved_cells team df (durable W)) ->
  exists W',
    save_current_stats faults team df W = (Ok tt, W')
    /\ durable W'
       = fold_left upsert_cell (saved_cells team df (durable W)) (durable W)
    /\ shown W' = shown W.
Proof.
  intros S F. unfold save_current_stats, in_session, try_except, query.
  unfold bind at 1. rewrite (statement_served _ _ _ S). cbn [fst snd].
  cbv zeta.
  destruct (save_rows_served (player_name_to_id team (durable W))
              (iterrows df) (durable W) (tick W)
              (served_later _ _ S (later_tick W)) F) as (W1 & E1 & L1).
  unfold bind.
  change (for_each (iterrows df) _ (durable W) (tick W))
    with (for_each (iterrows df)
            (save_row faults (player_name_to_id team (durable W)))
            (durable W) (tick W)).
  rewrite E1. unfold commit.
  assert (S1 : served faults W1).
  { eapply served_later; [exact S |].
    eapply later_trans; [apply later_tick | exact L1]. }
  rewrite (S1 (sent W1) (le_n _)).
  eexists. split; [reflexivity |]. cbn [durable shown].
  destruct L1 as (_ & Sh & _). rewrite Sh. now cbn.
Qed.

End SaveServed.

(** X14. A Save whose statements are all served, of a ledger without a missing
    value in the rows of the team's players, commits the count of every
    such cell: for a player and skill the store then has a row, and every
    row of that player and skill carries the count of the last cell saved
    for them.  The teams and players tables are what they were and nothing
    is shown. *)
Theorem served_save_stores_last_count (faults : nat -> bool) (team : Z)
  (df : DataFrame) (W : World) (l1 l2 : list (Z * string * cell)) (p : Z)
  (s : string) (c : Z) :
  served faults W ->
  Forall (fun x => snd x <> NaN) (saved_cells team df (durable W)) ->
  saved_cells team df (durable W) = l1 ++ (p, s, Num c) :: l2 ->
  Forall (fun x => fst x <> (p, s)) l2 ->
  let W' := snd (save_current_stats faults team df W) in
  holds_count (durable W') p s c
  /\ tbl_teams (durable W') = tbl_teams (durable W)
  /\ tbl_players (durable W') = tbl_players (durable W)
  /\ shown W' = shown W.
Proof.
  intros S F E F2. cbv zeta.
  destruct (save_current_stats_served faults team df W S F)
    as (W' & -> & D & Sh).
  cbn [snd]. rewrite D.
  destruct (upsert_cells_tables (saved_cells team df (durable W)) (durable W))
    as [T P].
  rewrite T, P, E. split; [| auto]. now apply upsert_cells_last.
Qed.

Lemma served_save_stores_last_count_witness :
  let df := loc_add1 "Ann" "Kill" (create_stats_dataframe ["Ann"; "Bo"]) in
  let W := mkWorld (mkDb [mkTeam 1 "Team" 0]
                         [mkPlayer 1 "Ann" 1; mkPlayer 2 "Bo" 1] []) 0 [] in
  let W' := snd (save_current_stats no_faults 1 df W) in
  holds_count (durable W') 1 "Kill" 1
  /\ tbl_teams (durable W') = tbl_teams (durable W)
  /\ tbl_players (durable W') = tbl_players (durable W)
  /\ shown W' = shown W.
Proof.
  cbv zeta.
  apply (served_save_stores_last_count no_faults 1
           (loc_add1 "Ann" "Kill" (create_stats_dataframe ["Ann"; "Bo"]))
           (mkWorld (mkDb [mkTeam 1 "Team" 0]
                          [mkPlayer 1 "Ann" 1; mkPlayer 2 "Bo" 1] []) 0 [])
           (firstn 8 (saved_cells 1
              (loc_add1 "Ann" "Kill" (create_stats_dataframe ["Ann"; "Bo"]))
              (mkDb [mkTeam 1 "Team" 0]
                    [mkPlayer 1 "Ann" 1; mkPlayer 2 "Bo" 1] [])))
           (skipn 9 (saved_cells 1
              (loc_add1 "Ann" "Kill" (create_stats_dataframe ["Ann"; "Bo"]))
              (mkDb [mkTeam 1 "Team" 0]
                    [mkPlayer 1 "Ann" 1; mkPlayer 2 "Bo" 1] [])))).
  - intros n _. reflexivity.
  - vm_compute. repeat constructor; discriminate.
  - vm_compute. reflexivity.
  - vm_compute. repeat constructor; discriminate.
Defined.

Section SaveMissing.

Variable faults : nat -> bool.

Lemma for_each_raises {X} (body : X -> Tx unit) (x : X) (l : list X) :
  In x l ->
  (forall w W, exists e w' W', body x w W = (Raise e, w', W')) ->
  forall w W, exists e w' W', for_each l body w W = (Raise e, w', W').
Proof.
  intros Hin Hb. induction l as [|y l IH]; [destruct Hin |].
  intros w W. cbn [for_each]. unfold bind. destruct Hin as [-> | Hin].
  - destruct (Hb w W) as (e & w' & W' & E). rewrite E. eauto.
  - destruct (body y w W) as [[[u|e] w1] W1]; [apply (IH Hin) | eauto].
Qed.

Lemma save_rows_raise (name_to_id : list (string * Z))
  (rows : list (string * list (string * cell))) (p : Z) (s : string) :
  In (p, s, NaN) (cells_of_rows name_to_id rows) ->
  forall w W, exists e w' W',
    for_each rows (save_row faults name_to_id) w W = (Raise e, w', W').
Proof.
  intros Hin. unfold cells_of_rows in Hin.
  apply in_flat_map in Hin as (row & Hrow & Hc).
  apply (for_each_raises _ row _ Hrow). intros w W. unfold save_row.
  destruct (PyDict.get String.eqb (fst row) name_to_id) as [player|];
    [| destruct Hc].
  apply in_map_iff in Hc as ([skill v] & E & Hi). cbn [fst snd] in E.
  injection E as -> -> ->.
  apply (for_each_raises _ (s, NaN) _ Hi). intros w0 W0.
  exists ValueError, w0, W0. reflexivity.
Qed.

Lemma tx_ok_save_row (name_to_id : list (string * Z))
  (row : string * list (string * cell)) :
  tx_ok faults false (save_row faults name_to_id row).
Proof.
  unfold save_row.
  destruct (PyDict.get _ _ _) as [player|]; [| apply tx_ok_ret].
  apply tx_ok_for_each. intros item. unfold save_cell. cbv zeta.
  destruct (int_of_cell (snd item)) as [count|e]; [| apply tx_ok_raise].
  apply tx_ok_bind; [apply tx_ok_statement |]. intros rowcount.
  destruct (rowcount =? 0); [| apply tx_ok_ret].
  apply tx_ok_bind; [apply tx_ok_statement |]. intros new_id.
  apply tx_ok_bind; [apply tx_ok_statement |]. intros _.
  apply tx_ok_ret.
Qed.

(** A Save of a ledger with a missing value in a row of a player of the
    team raises, whatever the store does: it is rolled back and the error
    is printed. *)
Lemma save_current_stats_missing_value (team : Z) (df : DataFrame)
  (W : World) (p : Z) (s : string) :
  In (p, s, NaN) (saved_cells team df (durable W)) ->
  exists W',
    save_current_stats faults team df W = (Ok tt, W')
    /\ durable W' = durable W
    /\ shown W' = shown W ++ [Printed "Error saving stats"].
Proof.
  intros Hin. unfold save_current_stats, in_session, try_except.
  match goal with
  | |- context [match ?body (durable W) W with _ => _ end] =>
      assert (H : tx_ok faults true body);
      [| assert (R : exists e w' W', body (durable W) W = (Raise e, w', W'))]
  end.
  - apply tx_ok_bind; [apply tx_ok_statement |]. intros players.
    apply tx_ok_bind; [| intros _; apply tx_ok_commit].
    apply tx_ok_for_each. intros row. apply tx_ok_save_row.
  - unfold bind at 1. unfold query, statement.
    destruct (faults (sent W)); [eauto |]. cbn [fst snd]. cbv zeta.
    destruct (save_rows_raise (player_name_to_id team (durable W))
                (iterrows df) p s Hin (durable W) (tick W))
      as (e & w' & W' & E).
    unfold bind.
    change (for_each (iterrows df) _ (durable W) (tick W))
      with (for_each (iterrows df)
              (save_row faults (player_name_to_id team (durable W)))
              (durable W) (tick W)).
    rewrite E. eauto.
  - destruct R as (e & w' & W' & E). specialize (H (durable W) W).
    rewrite E in H. rewrite E. destruct H as (_ & Sh & Du).
    unfold bind, print, rollback. eexists. split; [reflexivity |].
    cbn [show durable shown]. now rewrite Sh.
Qed.

End SaveMissing.

(** X15. The Save Stats button on a ledger with a missing value in a row of a
    player of the stored team: whatever the store does, nothing is saved,
    the error is printed, and the success message is shown all the same. *)
Theorem save_with_missing_value_stores_nothing (faults : nat -> bool)
  (a : App) (df : DataFrame) (team : Z) (p : Z) (s : string) :
  ledger a = Some df ->
  current_team_id (session a) = Some team ->
  team_id_truthy (Some team) = true ->
  In (p, s, NaN) (saved_cells team df (durable (world a))) ->
  let a' := fst (save_stats_button faults a) in
  durable (world a') = durable (world a)
  /\ shown (world a')
     = shown (world a)
       ++ [Printed "Error saving stats";
           StSuccess "Stats saved to database successfully!"].
Proof.
  intros L T Tr Hin. cbv zeta. unfold save_stats_button.
  unfold ledger in L. rewrite L, T, Tr.
  destruct (save_current_stats_missing_value faults team df (world a) p s Hin)
    as (W' & -> & D & Sh).
  cbn [fst world show durable shown]. split; [exact D |].
  rewrite Sh, <- app_assoc. reflexivity.
Qed.

Lemma save_with_missing_value_stores_nothing_witness :
  let a' := fst (save_stats_button no_faults ragged_app) in
  durable (world a') = durable (world ragged_app)
  /\ shown (world a')
     = shown (world ragged_app)
       ++ [Printed "Error saving stats";
           StSuccess "Stats saved to database successfully!"].
Proof.
  cbv zeta.
  apply (save_with_missing_value_stores_nothing no_faults ragged_app
           (backfill_columns VOLLEYBALL_SKILLS
              (mkFrame ["Ann"; "Bo"]
                 [("Kill", [Num 2; NaN]); ("Block", [NaN; Num 1])]))
           1%Z 1%Z "Block").
  - vm_compute. reflexivity.
  - vm_compute. reflexivity.
  - vm_compute. reflexivity.
  - vm_compute. right. left. reflexivity.
Defined.

(** ** Reading the store *)

Section Reads.

Variable faults : nat -> bool.

Lemma in_session_reads {A} (m : Tx A) (W : World) :
  tx_ok faults false m -> durable (snd (in_session m W)) = durable W.
Proof.
  intros H. unfold in_session. specialize (H (durable W) W).
  destruct (m (durable W) W) as [[r w] W']. destruct H as (_ & _ & Hr).
  destruct r; cbn [snd]; [now apply Hr | exact Hr].
Qed.

Lemma tx_ok_query {A} (f : Db -> A) : tx_ok faults false (query faults f).
Proof. apply tx_ok_statement. Qed.

Lemma get_most_recent_team_reads (W : World) :
  durable (snd (get_most_recent_team faults W)) = durable W.
Proof. apply in_session_reads, tx_ok_query. Qed.

Lemma get_team_with_players_reads (team : Z) (W : World) :
  durable (snd (get_team_with_players faults team W)) = durable W.
Proof.
  apply in_session_reads.
  apply tx_ok_bind; [apply tx_ok_query |]. intros t.
  apply tx_ok_bind; [apply tx_ok_query |]. intros ps. apply tx_ok_ret.
Qed.

Lemma get_all_stats_for_team_reads (team : Z) (W : World) :
  durable (snd (get_all_stats_for_team faults team W)) = durable W.
Proof.
  apply in_session_reads.
  apply tx_ok_bind; [apply tx_ok_query |]. intros ps. cbv zeta.
  apply tx_ok_bind; [apply tx_ok_query |]. intros all_stats.
  destruct (fill_stats _ _ _); [| apply tx_ok_raise].
  apply tx_ok_bind; [apply tx_ok_query |]. intros skills. apply tx_ok_ret.
Qed.

Lemma load_existing_team_outcome (load_team : bool) (a : App) :
  let r := load_existing_team faults load_team a in
  durable (world (fst r)) = durable (world a)
  /\ (load_team = false -> session (fst r) = session a)
  /\ (snd r = Returned /\ ledger (fst r) = ledger a
      \/ snd r = Rerun /\ load_team = true
         /\ exists df, ledger (fst r) = Some df).
Proof.
  cbv zeta. unfold load_existing_team. cbv zeta.
  pose proof (get_most_recent_team_reads (world a)) as D0.
  destruct (get_most_recent_team faults (world a)) as [[[recent|]|e] W0];
    cbn [snd] in D0; cbn [fst snd session world show durable ledger];
    try (split; [exact D0 |]; split; [reflexivity |]; left; split;
         reflexivity).
  pose proof (get_team_with_players_reads (team_id recent) W0) as D1.
  destruct (get_team_with_players faults (team_id recent) W0)
    as [[[t ps]|e] W1];
    cbn [snd] in D1; cbn [fst snd session world show durable];
    try (split; [congruence |]; split; [reflexivity |]; left; split;
         reflexivity).
  destruct load_team.
  - pose proof (get_all_stats_for_team_reads (team_id recent)
                  (show (StWarning "Found existing team") W1)) as D2.
    destruct (get_all_stats_for_team faults (team_id recent)
                (show (StWarning "Found existing team") W1))
      as [[df|e] W2];
      cbn [snd show durable] in D2;
      cbn [fst snd session world show durable];
      (split; [congruence |]); (split; [discriminate |]).
    + right. split; [reflexivity |]. split; [reflexivity |].
      eexists. reflexivity.
    + left. split; reflexivity.
  - cbn [fst snd session world show durable].
    split; [congruence |]. split; [reflexivity |]. left. split; reflexivity.
Qed.

End Reads.

(** X16. Looking for an existing team, and loading it, only reads the store:
    the committed tables are what they were, whatever the store does.
    Without the Load Team button the session is left as it is; the ledger
    changes only when the load went through, which ends in a rerun with a
    ledger in place. *)
Theorem load_existing_team_only_reads (faults : nat -> bool)
  (load_team : bool) (a : App) :
  let r := load_existing_team faults load_team a in
  durable (world (fst r)) = durable (world a)
  /\ (load_team = false -> session (fst r) = session a)
  /\ (snd r = Returned /\ ledger (fst r) = ledger a
      \/ snd r = Rerun /\ load_team = true
         /\ exists df, ledger (fst r) = Some df).
Proof. exact (load_existing_team_outcome faults load_team a). Qed.

(** ** The voice tab *)

(** X17. On the tracking page the voice tab changes the [listening] flag
    and nothing else in the session, and it sends nothing to the store:
    no stat is recorded and no command is logged.  A toggle that was moved
    is stored and the script is rerun.  Otherwise the tab is drawn: while
    listening, the component shows its warning and its information and
    yields no command; while not listening, the tab shows the invitation
    to enable voice recognition. *)
Theorem voice_toggle_records_nothing (faults : nat -> bool) (on : bool)
  (a : App) (df : DataFrame) :
  ledger a = Some df ->
  let r := run_script faults (ToggleVoice on) a in
  session (fst r) = set_listening on (session a)
  /\ durable (world (fst r)) = durable (world a)
  /\ sent (world (fst r)) = sent (world a)
  /\ shown (world (fst r))
     = shown (world a)
       ++ (if Bool.eqb on (listening (session a))
           then if on
                then [StWarning voice_warning; StInfo voice_info]
                else [StInfo voice_off]
           else [])
  /\ snd r = (if Bool.eqb on (listening (session a))
              then Returned else Rerun).
Proof.
  intros L. cbv zeta. unfold ledger in L. unfold run_script. rewrite L.
  destruct (Bool.eqb on (listening (session a))) eqn:E.
  - apply Bool.eqb_prop in E.
    assert (S : session a = set_listening on (session a)).
    { destruct (session a). cbn in E |- *. now subst. }
    destruct on.
    + unfold voice_tab, voice_recognition_component. rewrite L.
      cbn [fst snd session world show durable sent shown].
      rewrite <- app_assoc. auto.
    + cbn [fst snd session world show durable sent shown]. auto.
  - cbn [fst snd session world]. rewrite app_nil_r. auto.
Qed.

Lemma voice_toggle_records_nothing_witness :
  let a := tracking_app ["Ann"] in
  let r := run_script no_faults (ToggleVoice false) a in
  session (fst r) = set_listening false (session a)
  /\ durable (world (fst r)) = durable (world a)
  /\ sent (world (fst r)) = sent (world a)
  /\ shown (world (fst r))
     = shown (world a)
       ++ (if Bool.eqb false (listening (session a))
           then if false
                then [StWarning voice_warning; StInfo voice_info]
                else [StInfo voice_off]
           else [])
  /\ snd r = (if Bool.eqb false (listening (session a))
              then Returned else Rerun).
Proof.
  cbv zeta.
  apply (voice_toggle_records_nothing no_faults false (tracking_app ["Ann"])
           (create_stats_dataframe ["Ann"])).
  vm_compute. reflexivity.
Defined.

(** ** Writing a command through *)

Section WriteThrough.

Variable faults : nat -> bool.

Lemma get_player_by_name_served (name : string) (W : World) :
  served faults W ->
  get_player_by_name faults name W
  = (Ok (find (fun p => String.eqb (player_name p) name)
              (tbl_players (durable W))), tick W).
Proof.
  intros S. unfold get_player_by_name, in_session, query.
  now rewrite (statement_served faults _ _ _ S).
Qed.

Lemma update_player_stat_served (player : Z) (skill : string) (W : World) :
  served faults W ->
  exists W',
    update_player_stat faults player skill W = (true, W')
    /\ durable W'
       = snd (update_stats (hits player skill) (fun c => (c + 1)%Z)
                (durable W))
    /\ shown W' = shown W.
Proof.
  intros S. unfold update_player_stat, in_session, try_except.
  unfold bind at 1. rewrite (statement_served faults _ _ _ S).
  unfold bind, commit. cbn [fst snd tick sent].
  rewrite (S (Datatypes.S (sent W))) by lia.
  eexists. split; [reflexivity |]. cbn. auto.
Qed.

Lemma write_through_served (name skill : string) (W : World) :
  served faults W ->
  durable (write_through faults name skill W)
  = match find (fun p => String.eqb (player_name p) name)
               (tbl_players (durable W)) with
    | Some pl =>
        snd (update_stats (hits (player_id pl) skill)
               (fun c => (c + 1)%Z) (durable W))
    | None => durable W
    end
  /\ shown (write_through faults name skill W) = shown W.
Proof.
  intros S. unfold write_through. rewrite (get_player_by_name_served _ _ S).
  destruct (find _ (tbl_players (durable W))) as [pl|]; [| now cbn].
  destruct (update_player_stat_served (player_id pl) skill (tick W))
    as (W' & -> & D & Sh);
    [eapply served_later; [exact S | apply later_tick] |].
  cbn [snd]. now rewrite D, Sh.
Qed.

End WriteThrough.

(** X18. A command that resolves to a player and skill of the ledger, with a
    stored team and a store that serves its statements, is written
    through to the rows of the first player of that name in the whole
    players table, whatever team that player belongs to: the active team
    is not consulted.  When the table has no player of that name the store
    is left as it is.  Nothing is shown. *)
Theorem command_is_written_to_first_namesake (faults : nat -> bool)
  (c p s : string) (a : App) (df : DataFrame) :
  served faults (world a) ->
  resolution (players (session a)) c = Some (p, s) ->
  ledger a = Some df ->
  has_label p (index df) = true ->
  has_label s (columns df) = true ->
  team_id_truthy (current_team_id (session a)) = true ->
  let a' := fst (handle_voice_command faults (PyString c) a) in
  durable (world a')
  = match find (fun q => String.eqb (player_name q) p)
               (tbl_players (durable (world a))) with
    | Some pl =>
        snd (update_stats (hits (player_id pl) s) (fun n => (n + 1)%Z)
               (durable (world a)))
    | None => durable (world a)
    end
  /\ shown (world a') = shown (world a).
Proof.
  intros S R L Hp Hs T. cbv zeta.
  rewrite (handle_voice_command_resolved faults c p s a df R L Hp Hs).
  cbn [fst world]. rewrite T. now apply write_through_served.
Qed.

Lemma command_is_written_to_first_namesake_witness :
  let a' := fst (handle_voice_command no_faults (PyString "Ann Kill")
                   namesake_app) in
  durable (world a')
  = mkDb [mkTeam 1 "Juniors" 0; mkTeam 2 "Seniors" 1]
         [mkPlayer 1 "Ann" 1; mkPlayer 2 "Ann" 2]
         [mkStat 1 1 "Kill" 1; mkStat 2 2 "Kill" 0]
  /\ shown (world a') = shown (world namesake_app).
Proof.
  cbv zeta.
  assert (S : served no_faults (world namesake_app))
    by (intros n _; reflexivity).
  assert (R : resolution (players (session namesake_app)) "Ann Kill"
              = Some ("Ann", "Kill")) by (vm_compute; reflexivity).
  assert (L : ledger namesake_app = Some (create_stats_dataframe ["Ann"]))
    by (vm_compute; reflexivity).
  assert (Hp : has_label "Ann" (index (create_stats_dataframe ["Ann"]))
               = true) by (vm_compute; reflexivity).
  assert (Hs : has_label "Kill" (columns (create_stats_dataframe ["Ann"]))
               = true) by (vm_compute; reflexivity).
  assert (T : team_id_truthy (current_team_id (session namesake_app))
              = true) by (vm_compute; reflexivity).
  destruct (command_is_written_to_first_namesake no_faults
              "Ann Kill" "Ann" "Kill" namesake_app
              (create_stats_dataframe ["Ann"]) S R L Hp Hs T) as [D Sh].
  split; [| exact Sh]. rewrite D. vm_compute. reflexivity.
Defined.

(** ** Setting a team up and resetting it, over a store that serves *)

Lemma dict_get_set {V} (k k' : string) (v : V) (d : list (string * V)) :
  PyDict.get String.eqb k (PyDict.set String.eqb k' v d)
  = if String.eqb k k' then Some v else PyDict.get String.eqb k d.
Proof.
  induction d as [|[k0 v0] d IH]; cbn.
  - reflexivity.
  - destruct (String.eqb k' k0) eqn:E0; cbn.
    + apply String.eqb_eq in E0. subst k0.
      now destruct (String.eqb k k').
    + destruct (String.eqb k k0) eqn:E1.
      * apply String.eqb_eq in E1. subst k0.
        destruct (String.eqb k k') eqn:E2; [| reflexivity].
        apply String.eqb_eq in E2. subst k'.
        now rewrite String.eqb_refl in E0.
      * exact IH.
Qed.

Lemma dict_fold_set_get {V} (P : V -> Prop) (k : string)
  (l : list (string * V)) (d : list (string * V)) :
  (forall v, PyDict.get String.eqb k d = Some v -> P v) ->
  (forall v, In (k, v) l -> P v) ->
  In k (map fst l) \/ PyDict.get String.eqb k d <> None ->
  exists v,
    PyDict.get String.eqb k
      (fold_left (fun d kv => PyDict.set String.eqb (fst kv) (snd kv) d) l d)
    = Some v
    /\ P v.
Proof.
  revert d. induction l as [|[k0 v0] l IH]; intros d H1 H2 H3.
  - cbn. destruct H3 as [[] | H3].
    destruct (PyDict.get String.eqb k d) as [v|]; [| now elim H3].
    exists v. auto.
  - cbn [fold_left fst snd]. apply IH.
    + intros v. rewrite dict_get_set.
      destruct (String.eqb k k0) eqn:E; [| apply H1].
      apply String.eqb_eq in E. subst k0.
      intros [= <-]. apply H2. now left.
    + intros v Hv. apply H2. now right.
    + rewrite dict_get_set. destruct H3 as [[E | Hin] | H3].
      * cbn in E. subst k0. rewrite String.eqb_refl. right. discriminate.
      * now left.
      * right. destruct (String.eqb k k0); [discriminate | exact H3].
Qed.

(** Every name of a player of the team is a key of [player_name_to_id],
    and its value is the identifier of a player of the team with that
    name. *)
Lemma player_name_to_id_get (team : Z) (w : Db) (pl : Player) :
  In pl (tbl_players w) -> player_team_id pl = team ->
  exists id,
    PyDict.get String.eqb (player_name pl) (player_name_to_id team w)
    = Some id
    /\ exists pl', In pl' (tbl_players w) /\ player_team_id pl' = team
                   /\ player_name pl' = player_name pl
                   /\ player_id pl' = id.
Proof.
  intros Hin Ht. unfold player_name_to_id, PyDict.of_list.
  apply dict_fold_set_get.
  - cbn. discriminate.
  - intros v Hv. apply in_map_iff in Hv as (pl' & E & Hf).
    apply filter_In in Hf as [Hin' Ht']. apply Z.eqb_eq in Ht'.
    injection E as E1 E2. exists pl'. auto.
  - left. rewrite map_map. cbn [fst]. apply in_map_iff. exists pl.
    split; [reflexivity |]. apply filter_In. split; [exact Hin |].
    now apply Z.eqb_eq.
Qed.

Lemma float_column_zeros (n : nat) : float_column (repeat (Num 0) n) = false.
Proof. induction n as [|n IH]; [reflexivity | exact IH]. Qed.

(** A fresh table has int64 columns only. *)
Lemma in_row_create_stats_dataframe (players : list string) (v : cell) :
  in_row (create_stats_dataframe players) v = v.
Proof.
  unfold in_row. rewrite create_stats_dataframe_data.
  unfold VOLLEYBALL_SKILLS. cbn [map existsb snd].
  now rewrite !float_column_zeros.
Qed.

Lemma iterrows_create_stats_dataframe (players : list string) :
  iterrows (create_stats_dataframe players)
  = map (fun q => (q, map (fun s => (s, Num 0)) VOLLEYBALL_SKILLS)) players.
Proof.
  unfold iterrows.
  change (index (create_stats_dataframe players)) with players.
  set (n := List.length players).
  assert (G : forall l start, start + List.length l <= n ->
            map (fun il : nat * string =>
                   (snd il,
                    map (fun cv : string * list cell =>
                           (fst cv,
                            in_row (create_stats_dataframe players)
                              (nth (fst il) (snd cv) NaN)))
                      (data (create_stats_dataframe players))))
                (combine (seq start (List.length l)) l)
            = map (fun q => (q, map (fun s => (s, Num 0)) VOLLEYBALL_SKILLS))
                  l).
  { induction l as [|q l IH]; intros start Hs; [reflexivity |].
    cbn [List.length seq combine map fst snd]. f_equal.
    - f_equal. rewrite create_stats_dataframe_data, map_map.
      apply map_ext. intros s. cbn [fst snd].
      rewrite in_row_create_stats_dataframe.
      f_equal. apply nth_repeat_lt. cbn in Hs. fold n. lia.
    - apply IH. cbn in Hs. lia. }
  apply (G players 0). unfold n. lia.
Qed.

(** The cells a Save of a fresh table visits. *)
Lemma saved_cells_create (team : Z) (players : list string) (w : Db) :
  Forall (fun c => snd c = Num 0)
         (saved_cells team (create_stats_dataframe players) w)
  /\ forall q id s,
       In q players ->
       PyDict.get String.eqb q (player_name_to_id team w) = Some id ->
       In s VOLLEYBALL_SKILLS ->
       In (id, s, Num 0)
          (saved_cells team (create_stats_dataframe players) w).
Proof.
  unfold saved_cells, cells_of_rows.
  rewrite iterrows_create_stats_dataframe. split.
  - apply Forall_forall. intros c Hc.
    apply in_flat_map in Hc as (row & Hrow & Hc).
    apply in_map_iff in Hrow as (q & <- & Hq). cbn [fst snd] in Hc.
    destruct (PyDict.get String.eqb q (player_name_to_id team w));
      [| destruct Hc].
    apply in_map_iff in Hc as (item & <- & Hi).
    apply in_map_iff in Hi as (s & <- & _). reflexivity.
  - intros q id s Hq Hid Hs. apply in_flat_map.
    exists (q, map (fun s => (s, Num 0)) VOLLEYBALL_SKILLS).
    split; [apply in_map_iff; now exists q |].
    cbn [fst snd]. rewrite Hid. apply in_map_iff. exists (s, Num 0).
    split; [reflexivity |]. apply in_map_iff. now exists s.
Qed.

(** When the cells of a player and skill agree on a count, the store
    holds that count after the upserts. *)
Lemma upsert_cells_agree (l : list (Z * string * cell)) (p : Z) (s : string)
  (c : Z) (w : Db) :
  In (p, s, Num c) l ->
  Forall (fun x => fst x = (p, s) -> snd x = Num c) l ->
  holds_count (fold_left upsert_cell l w) p s c.
Proof.
  induction l as [|x l IH] using rev_ind; intros Hin F; [destruct Hin |].
  rewrite fold_left_app. cbn [fold_left].
  apply Forall_app in F as [F Fx]. inversion Fx as [|? ? Hx _]. subst.
  destruct x as [[p' s'] v]. cbn [fst snd] in Hx.
  destruct (Z.eq_dec p' p) as [-> | Np].
  - destruct (string_dec s' s) as [-> | Ns].
    + rewrite (Hx eq_refl). unfold upsert_cell. cbn [fst snd].
      apply upsert_holds.
    + assert (Hl : In (p, s, Num c) l).
      { apply in_app_or in Hin as [H | [H | []]]; [exact H |].
        injection H as -> _. now elim Ns. }
      unfold upsert_cell. cbn [fst snd]. destruct v as [c'|]; [| auto].
      apply upsert_keeps; [congruence | auto].
  - assert (Hl : In (p, s, Num c) l).
    { apply in_app_or in Hin as [H | [H | []]]; [exact H |].
      injection H as -> _ _. now elim Np. }
    unfold upsert_cell. cbn [fst snd]. destruct v as [c'|]; [| auto].
    apply upsert_keeps; [congruence | auto].
Qed.

Section SetupServed.

Variable faults : nat -> bool.

Lemma served_mono (W W' : World) :
  served faults W -> sent W <= sent W' -> served faults W'.
Proof. intros S Le n Hn. apply S. lia. Qed.

Lemma commit_served (w : Db) (W : World) :
  served faults W ->
  commit faults w W = (Ok tt, w, mkWorld w (S (sent W)) (shown W)).
Proof. intros S. unfold commit. now rewrite (S (sent W) (le_n _)). Qed.

Lemma create_team_served (now : Z) (name : string) (W : World) :
  served faults W ->
  let id := next_id (map team_id (tbl_teams (durable W))) in
  exists W',
    create_team faults now name W = (Ok id, W')
    /\ durable W' = insert_team (mkTeam id name now) (durable W)
    /\ shown W' = shown W
    /\ sent W <= sent W'.
Proof.
  intros S. cbv zeta. unfold create_team, in_session, query.
  unfold bind at 1. rewrite (statement_served faults _ _ _ S).
  cbn [fst snd]. unfold bind at 1.
  rewrite commit_served by (apply (served_mono W); [exact S | cbn; lia]).
  unfold bind at 1. rewrite statement_served
    by (apply (served_mono W); [exact S | cbn; lia]).
  cbn [fst snd]. unfold ret. eexists. split; [reflexivity |].
  cbn. repeat split. lia.
Qed.

Lemma inserts_then_commit_served {X} (step : X -> Db -> Db) (l : list X)
  (W : World) :
  served faults W ->
  exists W',
    in_session
      (bind (for_each l (fun x =>
               statement faults (fun w => (tt, step x w)))) (fun _ =>
       commit faults)) W
    = (Ok tt, W')
    /\ durable W' = fold_left (fun w x => step x w) l (durable W)
    /\ shown W' = shown W
    /\ sent W <= sent W'.
Proof.
  intros S. unfold in_session, bind.
  destruct (for_each_inserts faults step l (durable W) W)
    as [[E Nf] | (e & w' & W' & E & Du & Sh & n & Hn & Fn)].
  - rewrite E. rewrite commit_served
      by (apply (served_mono W); [exact S | cbn; lia]).
    eexists. split; [reflexivity |]. cbn. repeat split. lia.
  - rewrite (S n) in Fn by lia. discriminate.
Qed.

Lemma add_players_to_team_served (team : Z) (names : list string)
  (W : World) :
  served faults W ->
  exists W',
    add_players_to_team faults team names W = (Ok tt, W')
    /\ durable W' = with_new_players team names (durable W)
    /\ shown W' = shown W
    /\ sent W <= sent W'.
Proof.
  intros S.
  exact (inserts_then_commit_served
           (fun name w =>
              insert_player
                (mkPlayer (next_id (map player_id (tbl_players w))) name team)
                w) names W S).
Qed.

Lemma initialize_player_stats_served (player : Z) (skills : list string)
  (W : World) :
  served faults W ->
  exists W',
    initialize_player_stats faults player skills W = (Ok tt, W')
    /\ durable W' = with_new_stats player skills (durable W)
    /\ shown W' = shown W
    /\ sent W <= sent W'.
Proof.
  intros S.
  exact (inserts_then_commit_served
           (fun skill w =>
              insert_stat
                (mkStat (next_id (map stat_id (tbl_stats w))) player skill 0)
                w) skills W S).
Qed.

Lemma initialize_all_served (names : list string) (W : World) :
  served faults W ->
  exists W',
    initialize_all faults names W = (Ok tt, W')
    /\ tbl_teams (durable W') = tbl_teams (durable W)
    /\ tbl_players (durable W') = tbl_players (durable W)
    /\ shown W' = shown W
    /\ sent W <= sent W'.
Proof.
  revert W. induction names as [|name names IH]; intros W S.
  - exists W. cbn. auto.
  - cbn [initialize_all]. rewrite (get_player_by_name_served faults _ _ S).
    assert (S1 : served faults (tick W))
      by (apply (served_mono W); [exact S | cbn; lia]).
    destruct (find _ (tbl_players (durable W))) as [pl|].
    + destruct (initialize_player_stats_served (player_id pl)
                  VOLLEYBALL_SKILLS (tick W) S1) as (W1 & -> & D1 & Sh1 & Le1).
      destruct (IH W1 (served_mono _ _ S1 Le1))
        as (W2 & -> & T2 & P2 & Sh2 & Le2).
      exists W2. split; [reflexivity |].
      destruct (with_new_stats_rows (player_id pl) VOLLEYBALL_SKILLS
                  (durable (tick W))) as (new & E & _).
      rewrite T2, P2, D1, E, Sh2, Sh1. cbn in *. repeat split. lia.
    + destruct (IH (tick W) S1) as (W2 & -> & T2 & P2 & Sh2 & Le2).
      exists W2. split; [reflexivity |].
      rewrite T2, P2, Sh2. cbn in *. repeat split. lia.
Qed.

(** A served Save of a fresh table of the roster: the store then holds 0
    for every skill of every player of the team that the roster names. *)
Lemma save_fresh_table_served (team : Z) (players : list string)
  (W : World) :
  served faults W ->
  exists W',
    save_current_stats faults team (create_stats_dataframe players) W
    = (Ok tt, W')
    /\ tbl_teams (durable W') = tbl_teams (durable W)
    /\ tbl_players (durable W') = tbl_players (durable W)
    /\ shown W' = shown W
    /\ forall q id s,
         In q players ->
         PyDict.get String.eqb q (player_name_to_id team (durable W))
         = Some id ->
         In s VOLLEYBALL_SKILLS ->
         holds_count (durable W') id s 0.
Proof.
  intros S.
  destruct (saved_cells_create team players (durable W)) as [Z0 Hin].
  destruct (save_current_stats_served faults team
              (create_stats_dataframe players) W S) as (W' & E & D & Sh).
  { apply Forall_forall. intros c Hc. rewrite Forall_forall in Z0.
    rewrite (Z0 c Hc). discriminate. }
  exists W'. split; [exact E |]. rewrite D.
  destruct (upsert_cells_tables
              (saved_cells team (create_stats_dataframe players) (durable W))
              (durable W)) as [T P].
  split; [exact T |]. split; [exact P |]. split; [exact Sh |].
  intros q id s Hq Hid Hs. apply upsert_cells_agree.
  - now apply (Hin q).
  - apply Forall_forall. intros c Hc _. rewrite Forall_forall in Z0.
    now apply Z0.
Qed.

End SetupServed.

(** X19. Over a store that serves every statement, Start Tracking with at
    least one name ends in a rerun on a stored team: the team has a new
    identifier, which counts as one; the team table gains its row and the
    players table one row per name, in order, in that team; every name of
    the roster is then a key of the Save's name-to-identifier dictionary,
    and for the player it stands for the store holds the count 0 for each
    of the 13 skills.  The only message is the success. *)
Theorem served_start_tracking_stores_zero_table (faults : nat -> bool)
  (now : Z) (team_name players_input : string) (a : App) :
  served faults (world a) ->
  parse_players players_input <> [] ->
  let r := start_tracking faults now team_name players_input a in
  let names := parse_players players_input in
  let old := durable (world a) in
  let new := durable (world (fst r)) in
  let team := next_id (map team_id (tbl_teams old)) in
  snd r = Rerun
  /\ current_team_id (session (fst r)) = Some team
  /\ team_id_truthy (Some team) = true
  /\ ledger (fst r) = Some (create_stats_dataframe names)
  /\ tbl_teams new = tbl_teams old ++ [mkTeam team team_name now]
  /\ (exists rows,
        tbl_players new = tbl_players old ++ rows
        /\ map player_name rows = names
        /\ Forall (fun p => player_team_id p = team) rows)
  /\ (forall q, In q names ->
        exists id,
          PyDict.get String.eqb q (player_name_to_id team new) = Some id
          /\ forall s, In s VOLLEYBALL_SKILLS -> holds_count new id s 0)
  /\ shown (world (fst r))
     = shown (world a) ++ [StSuccess "Team created successfully!"].
Proof.
  intros S Ne. cbv zeta. unfold start_tracking. cbv zeta.
  destruct (parse_players players_input) as [|q0 names0] eqn:EP;
    [now elim Ne |].
  cbv beta iota. set (names := q0 :: names0) in *.
  set (team := next_id (map team_id (tbl_teams (durable (world a))))).
  destruct (create_team_served faults now team_name (world a) S)
    as (W1 & -> & D1 & Sh1 & Le1). fold team in D1 |- *. cbv beta iota.
  pose proof (served_mono faults _ _ S Le1) as S1.
  destruct (add_players_to_team_served faults team names W1 S1)
    as (W2 & -> & D2 & Sh2 & Le2). cbv beta iota.
  pose proof (served_mono faults _ _ S1 Le2) as S2.
  destruct (initialize_all_served faults names W2 S2)
    as (W3 & -> & T3 & P3 & Sh3 & Le3). cbv beta iota.
  pose proof (served_mono faults _ _ S2 Le3) as S3.
  destruct (save_fresh_table_served faults team names W3 S3)
    as (W4 & -> & T4 & P4 & Sh4 & H4). cbv beta iota.
  cbn [fst snd session world show durable shown ledger stats_df
       current_team_id set_stats_df set_players set_current_team_id].
  destruct (with_new_players_rows team names (durable W1))
    as (rows & E & Hn & Ht & _).
  assert (P : tbl_players (durable W4)
              = tbl_players (durable (world a)) ++ rows).
  { rewrite P4, P3, D2, E, D1. reflexivity. }
  split; [reflexivity |]. split; [reflexivity |].
  split.
  { unfold team_id_truthy, team, next_id.
    pose proof (max_id_nonneg (map team_id (tbl_teams (durable (world a))))).
    destruct (Z.eqb_spec
                (1 + fold_right Z.max 0%Z
                       (map team_id (tbl_teams (durable (world a)))))%Z 0);
      [lia | reflexivity]. }
  split; [reflexivity |].
  split; [rewrite T4, T3, D2, E, D1; reflexivity |].
  split; [exists rows; auto |].
  split.
  - intros q Hq. rewrite <- Hn in Hq.
    apply in_map_iff in Hq as (pl & <- & Hpl).
    assert (T : player_team_id pl = team)
      by (rewrite Forall_forall in Ht; now apply Ht).
    destruct (player_name_to_id_get team (durable W4) pl) as (id & G & _);
      [rewrite P; apply in_or_app; now right | exact T |].
    exists id. split; [exact G |]. intros s Hs.
    apply (H4 (player_name pl)); [| | exact Hs].
    + rewrite <- Hn. now apply in_map.
    + unfold player_name_to_id in *. now rewrite <- P4.
  - rewrite Sh4, Sh3, Sh2, Sh1. reflexivity.
Qed.

Lemma served_start_tracking_stores_zero_table_witness :
  let a := mkApp initial_session
             (mkWorld (mkDb [mkTeam 1 "Juniors" 0] [mkPlayer 1 "Ann" 1] [])
                      0 []) in
  let r := start_tracking no_faults 5 "Seniors" (lines ["Ann"; "Bo"]) a in
  let names := parse_players (lines ["Ann"; "Bo"]) in
  let old := durable (world a) in
  let new := durable (world (fst r)) in
  let team := next_id (map team_id (tbl_teams old)) in
  snd r = Rerun
  /\ current_team_id (session (fst r)) = Some team
  /\ team_id_truthy (Some team) = true
  /\ ledger (fst r) = Some (create_stats_dataframe names)
  /\ tbl_teams new = tbl_teams old ++ [mkTeam team "Seniors" 5]
  /\ (exists rows,
        tbl_players new = tbl_players old ++ rows
        /\ map player_name rows = names
        /\ Forall (fun p => player_team_id p = team) rows)
  /\ (forall q, In q names ->
        exists id,
          PyDict.get String.eqb q (player_name_to_id team new) = Some id
          /\ forall s, In s VOLLEYBALL_SKILLS -> holds_count new id s 0)
  /\ shown (world (fst r))
     = shown (world a) ++ [StSuccess "Team created successfully!"].
Proof.
  cbv zeta.
  apply (served_start_tracking_stores_zero_table no_faults 5 "Seniors"
           (lines ["Ann"; "Bo"])
           (mkApp initial_session
              (mkWorld (mkDb [mkTeam 1 "Juniors" 0] [mkPlayer 1 "Ann" 1] [])
                       0 []))).
  - intros n _. reflexivity.
  - vm_compute. discriminate.
Defined.

(** X20. Reset Stats on a stored team, over a store that serves every
    statement: the ledger is the fresh table of the roster, and for every
    name of the roster that the Save's name-to-identifier dictionary of
    the team knows, the store then holds the count 0 for each of the 13
    skills.  The teams and the players are what they were, and the message
    is the success. *)
Theorem served_reset_zeroes_store (faults : nat -> bool) (a : App)
  (df : DataFrame) (team : Z) :
  served faults (world a) ->
  ledger a = Some df ->
  current_team_id (session a) = Some team ->
  team_id_truthy (Some team) = true ->
  let r := reset_stats_button faults a in
  let old := durable (world a) in
  let new := durable (world (fst r)) in
  ledger (fst r) = Some (create_stats_dataframe (players (session a)))
  /\ tbl_teams new = tbl_teams old
  /\ tbl_players new = tbl_players old
  /\ (forall q id s,
        In q (players (session a)) ->
        PyDict.get String.eqb q (player_name_to_id team old) = Some id ->
        In s VOLLEYBALL_SKILLS ->
        holds_count new id s 0)
  /\ shown (world (fst r))
     = shown (world a) ++ [StSuccess "Stats reset and saved to database!"].
Proof.
  intros S L T Tr. cbv zeta. unfold reset_stats_button. unfold ledger in L.
  rewrite L. cbv zeta.
  cbn [current_team_id set_stats_df]. rewrite T, Tr.
  destruct (save_fresh_table_served faults team (players (session a))
              (world a) S) as (W' & -> & T' & P' & Sh & H).
  cbn [fst snd session world show durable shown ledger stats_df
       set_stats_df].
  split; [reflexivity |]. split; [exact T' |]. split; [exact P' |].
  split; [exact H |]. now rewrite Sh.
Qed.

Lemma served_reset_zeroes_store_witness :
  let a := fst (run_script no_faults (AddFromText "Ann Kill")
                  (tracking_app ["Ann"; "Bo"])) in
  let r := reset_stats_button no_faults a in
  let old := durable (world a) in
  let new := durable (world (fst r)) in
  ledger (fst r) = Some (create_stats_dataframe (players (session a)))
  /\ tbl_teams new = tbl_teams old
  /\ tbl_players new = tbl_players old
  /\ (forall q id s,
        In q (players (session a)) ->
        PyDict.get String.eqb q (player_name_to_id 1 old) = Some id ->
        In s VOLLEYBALL_SKILLS ->
        holds_count new id s 0)
  /\ shown (world (fst r))
     = shown (world a) ++ [StSuccess "Stats reset and saved to database!"].
Proof.
  cbv zeta.
  apply (served_reset_zeroes_store no_faults
           (fst (run_script no_faults (AddFromText "Ann Kill")
                   (tracking_app ["Ann"; "Bo"])))
           (loc_add1 "Ann" "Kill" (create_stats_dataframe ["Ann"; "Bo"]))
           1%Z).
  - intros n _. reflexivity.
  - vm_compute. reflexivity.
  - vm_compute. reflexivity.
  - vm_compute. reflexivity.
Defined.

(** ** Loading what the store holds *)

Section DictFacts.

Context {K V : Type}.
Variable eqb : K -> K -> bool.
Hypothesis eqb_eq : forall x y, eqb x y = true <-> x = y.

Lemma eqb_same (x : K) : eqb x x = true.
Proof. now apply eqb_eq. Qed.

Lemma get_set (k k' : K) (v : V) (d : list (K * V)) :
  PyDict.get eqb k (PyDict.set eqb k' v d)
  = if eqb k k' then Some v else PyDict.get eqb k d.
Proof.
  induction d as [|[k0 v0] d IH]; cbn.
  - reflexivity.
  - destruct (eqb k' k0) eqn:E0; cbn.
    + apply eqb_eq in E0. subst k0. now destruct (eqb k k').
    + destruct (eqb k k0) eqn:E1.
      * apply eqb_eq in E1. subst k0.
        destruct (eqb k k') eqn:E2; [| reflexivity].
        apply eqb_eq in E2. subst k'. rewrite eqb_same in E0. discriminate.
      * exact IH.
Qed.

Lemma in_keys_set (x k : K) (v : V) (d : list (K * V)) :
  In x (map fst (PyDict.set eqb k v d)) <-> x = k \/ In x (map fst d).
Proof.
  induction d as [|[k0 v0] d IH]; cbn.
  - intuition.
  - destruct (eqb k k0) eqn:E; cbn.
    + apply eqb_eq in E. subst k0. intuition.
    + rewrite IH. intuition.
Qed.

Lemma NoDup_keys_set (k : K) (v : V) (d : list (K * V)) :
  NoDup (map fst d) -> NoDup (map fst (PyDict.set eqb k v d)).
Proof.
  induction d as [|[k0 v0] d IH]; cbn; intros N.
  - constructor; [intros [] | constructor].
  - inversion N as [|? ? Hn N']. subst.
    destruct (eqb k k0) eqn:E; cbn.
    + apply eqb_eq in E. subst k0. now constructor.
    + constructor; [| now apply IH].
      rewrite in_keys_set. intros [-> | H]; [| now apply Hn].
      rewrite eqb_same in E. discriminate.
Qed.

Lemma Forall_set (P : K * V -> Prop) (k : K) (v : V) (d : list (K * V)) :
  Forall P d -> P (k, v) -> Forall P (PyDict.set eqb k v d).
Proof.
  intros F Pk. induction F as [|[k0 v0] d P0 F IH]; cbn.
  - now constructor.
  - destruct (eqb k k0); constructor; auto.
Qed.

Lemma get_in (k : K) (v : V) (d : list (K * V)) :
  PyDict.get eqb k d = Some v -> In (k, v) d.
Proof.
  induction d as [|[k0 v0] d IH]; cbn; [discriminate |].
  destruct (eqb k k0) eqn:E.
  - apply eqb_eq in E. subst k0. intros [= ->]. now left.
  - intros H. right. now apply IH.
Qed.

Lemma get_notin (k : K) (d : list (K * V)) :
  ~ In k (map fst d) -> PyDict.get eqb k d = None.
Proof.
  induction d as [|[k0 v0] d IH]; cbn; [reflexivity |].
  intros H. destruct (eqb k k0) eqn:E.
  - apply eqb_eq in E. subst k0. elim H. now left.
  - apply IH. intros Hin. apply H. now right.
Qed.

Lemma get_of_key (k : K) (d : list (K * V)) :
  In k (map fst d) -> PyDict.get eqb k d <> None.
Proof.
  induction d as [|[k0 v0] d IH]; cbn; [tauto |].
  intros [-> | H].
  - rewrite eqb_same. discriminate.
  - destruct (eqb k k0); [discriminate | now apply IH].
Qed.

Lemma fold_set_get (P : V -> Prop) (k : K) (l d : list (K * V)) :
  (forall v, PyDict.get eqb k d = Some v -> P v) ->
  (forall v, In (k, v) l -> P v) ->
  In k (map fst l) \/ PyDict.get eqb k d <> None ->
  exists v,
    PyDict.get eqb k
      (fold_left (fun d kv => PyDict.set eqb (fst kv) (snd kv) d) l d)
    = Some v
    /\ P v.
Proof.
  revert d. induction l as [|[k0 v0] l IH]; intros d H1 H2 H3.
  - cbn. destruct H3 as [[] | H3].
    destruct (PyDict.get eqb k d) as [v|]; [| now elim H3].
    exists v. auto.
  - cbn [fold_left fst snd]. apply IH.
    + intros v. rewrite get_set.
      destruct (eqb k k0) eqn:E; [| apply H1].
      apply eqb_eq in E. subst k0. intros [= <-]. apply H2. now left.
    + intros v Hv. apply H2. now right.
    + rewrite get_set. destruct H3 as [[E | Hin] | H3].
      * cbn in E. subst k0. rewrite eqb_same. right. discriminate.
      * now left.
      * right. destruct (eqb k k0); [discriminate | exact H3].
Qed.

Lemma NoDup_fold_set (l d : list (K * V)) :
  NoDup (map fst d) ->
  NoDup (map fst
           (fold_left (fun d kv => PyDict.set eqb (fst kv) (snd kv) d) l d)).
Proof.
  revert d. induction l as [|kv l IH]; intros d N; [exact N |].
  cbn [fold_left]. apply IH. now apply NoDup_keys_set.
Qed.

Lemma Forall_fold_set (P : K * V -> Prop) (l d : list (K * V)) :
  Forall P d -> Forall P l ->
  Forall P (fold_left (fun d kv => PyDict.set eqb (fst kv) (snd kv) d) l d).
Proof.
  revert d. induction l as [|[k v] l IH]; intros d Fd Fl; [exact Fd |].
  inversion Fl as [|? ? Pk Fl']. subst.
  cbn [fold_left fst snd]. apply IH; [| exact Fl']. now apply Forall_set.
Qed.

End DictFacts.

Lemma NoDup_map_same {A B} (f : A -> B) (l : list A) (x y : A) :
  NoDup (map f l) -> In x l -> In y l -> f x = f y -> x = y.
Proof.
  induction l as [|a l IH]; cbn; [tauto |].
  intros N Hx Hy E. inversion N as [|? ? Hn N']. subst.
  destruct Hx as [-> | Hx], Hy as [-> | Hy]; auto.
  - elim Hn. rewrite E. now apply in_map.
  - elim Hn. rewrite <- E. now apply in_map.
Qed.

Lemma lookup2_set {V} (d : list (string * list (string * V)))
  (n q s : string) (inner : list (string * V)) :
  lookup2 (PyDict.set String.eqb n inner d) q s
  = if String.eqb q n then PyDict.get String.eqb s inner
    else lookup2 d q s.
Proof.
  unfold lookup2. rewrite (get_set String.eqb String.eqb_eq).
  now destruct (String.eqb q n).
Qed.

(** [fill_stats] over rows whose players are known, seen from one player
    name and skill whose rows agree on a count. *)
Lemma fill_stats_spec (id_to_name : list (Z * string)) (q s : string)
  (c : Z) (stats : list Stat) (sd : list (string * list (string * Z))) :
  (forall st, In st stats ->
     exists n, PyDict.get Z.eqb (stat_player_id st) id_to_name = Some n
               /\ PyDict.get String.eqb n sd <> None) ->
  (forall st, In st stats ->
     PyDict.get Z.eqb (stat_player_id st) id_to_name = Some q ->
     stat_skill_name st = s -> stat_count st = c) ->
  (exists st, In st stats
              /\ PyDict.get Z.eqb (stat_player_id st) id_to_name = Some q
              /\ stat_skill_name st = s)
  \/ lookup2 sd q s = Some c ->
  NoDup (map fst sd) ->
  Forall (fun row => NoDup (map fst (snd row))) sd ->
  exists sd',
    fill_stats id_to_name stats sd = Ok sd'
    /\ lookup2 sd' q s = Some c
    /\ NoDup (map fst sd')
    /\ Forall (fun row => NoDup (map fst (snd row))) sd'.
Proof.
  revert sd. induction stats as [|st stats IH]; intros sd H1 H2 H3 N F.
  - cbn. exists sd. destruct H3 as [(st & [] & _) | H3]. auto.
  - destruct (H1 st (or_introl eq_refl)) as (n & En & Hn).
    cbn [fill_stats]. rewrite En.
    destruct (PyDict.get String.eqb n sd) as [inner|] eqn:Ei;
      [| now elim Hn].
    assert (Ni : NoDup (map fst inner)).
    { apply (get_in String.eqb String.eqb_eq) in Ei.
      rewrite Forall_forall in F. apply (F (n, inner) Ei). }
    apply IH.
    + intros st' Hst'. destruct (H1 st' (or_intror Hst')) as (n' & E' & Hn').
      exists n'. split; [exact E' |].
      rewrite (get_set String.eqb String.eqb_eq).
      destruct (String.eqb n' n); [discriminate | exact Hn'].
    + intros st' Hst'. apply H2. now right.
    + rewrite lookup2_set, (get_set String.eqb String.eqb_eq).
      destruct H3 as [(st' & [<- | Hst'] & E' & Es) | H3].
      * right. rewrite En in E'. injection E' as ->.
        rewrite String.eqb_refl, <- Es, String.eqb_refl. f_equal.
        apply H2; [now left | now rewrite En | exact Es].
      * left. now exists st'.
      * right. destruct (String.eqb q n) eqn:Eq; [| exact H3].
        apply String.eqb_eq in Eq. subst n.
        destruct (String.eqb s (stat_skill_name st)) eqn:Es.
        -- apply String.eqb_eq in Es. f_equal.
           apply H2; [now left | exact En | now symmetry].
        -- unfold lookup2 in H3. now rewrite Ei in H3.
    + now apply (NoDup_keys_set String.eqb String.eqb_eq).
    + apply Forall_set; [exact F |]. cbn [snd].
      now apply (NoDup_keys_set String.eqb String.eqb_eq).
Qed.

(** *** [from_dict_index] *)

Lemma from_dict_index_parts (d : list (string * list (string * Z))) :
  from_dict_index d
  = mkFrame (row_labels (transpose d))
      (map (fun col =>
              (fst col,
               as_column
                 (map (fun i => match PyDict.get String.eqb i (snd col) with
                                | Some z => Num z
                                | None => NaN
                                end) (row_labels (transpose d)))))
           (transpose d)).
Proof. reflexivity. Qed.

Lemma transpose_row_lookup (q' : string) (inner : list (string * Z))
  (nd : list (string * list (string * Z))) (s q : string) :
  NoDup (map fst inner) ->
  lookup2 (transpose_row (q', inner) nd) s q
  = if String.eqb q q'
    then match PyDict.get String.eqb s inner with
         | Some v => Some v
         | None => lookup2 nd s q
         end
    else lookup2 nd s q.
Proof.
  unfold transpose_row. cbn [fst snd]. revert nd.
  induction inner as [|[s0 v0] inner IH]; intros nd N.
  - cbn. now destruct (String.eqb q q').
  - inversion N as [|? ? Hn N']. subst. cbn [fold_left fst snd].
    rewrite (IH _ N'). rewrite lookup2_set.
    rewrite (get_set String.eqb String.eqb_eq). cbn [PyDict.get].
    assert (M : match PyDict.get String.eqb s0 nd with
                | Some m => PyDict.get String.eqb q m
                | None => PyDict.get String.eqb q []
                end = lookup2 nd s0 q).
    { unfold lookup2. now destruct (PyDict.get String.eqb s0 nd). }
    destruct (String.eqb s s0) eqn:Es.
    + apply String.eqb_eq in Es. subst s0.
      rewrite (get_notin String.eqb String.eqb_eq s inner Hn).
      destruct (String.eqb q q'); [reflexivity |].
      destruct (PyDict.get String.eqb s nd) eqn:G; unfold lookup2;
        rewrite G; reflexivity.
    + reflexivity.
Qed.

Lemma lookup2_cons {V} (q' : string) (inner : list (string * V))
  (d : list (string * list (string * V))) (q s : string) :
  lookup2 ((q', inner) :: d) q s
  = if String.eqb q q' then PyDict.get String.eqb s inner
    else lookup2 d q s.
Proof. unfold lookup2. cbn. now destruct (String.eqb q q'). Qed.

Lemma lookup2_notin {V} (d : list (string * list (string * V)))
  (q s : string) :
  ~ In q (map fst d) -> lookup2 d q s = None.
Proof.
  intros H. unfold lookup2.
  now rewrite (get_notin String.eqb String.eqb_eq q d H).
Qed.

Lemma transpose_lookup (d : list (string * list (string * Z)))
  (nd : list (string * list (string * Z))) (s q : string) :
  NoDup (map fst d) ->
  Forall (fun row => NoDup (map fst (snd row))) d ->
  lookup2 (fold_left (fun nd row => transpose_row row nd) d nd) s q
  = match lookup2 d q s with
    | Some v => Some v
    | None => lookup2 nd s q
    end.
Proof.
  revert nd. induction d as [|[q' inner] d IH]; intros nd N F.
  - reflexivity.
  - inversion N as [|? ? Hn N']. inversion F as [|? ? Fi F']. subst.
    cbn [fold_left]. rewrite (IH _ N' F').
    rewrite transpose_row_lookup by exact Fi.
    rewrite lookup2_cons.
    destruct (String.eqb q q') eqn:Eq; [| reflexivity].
    apply String.eqb_eq in Eq. subst q'.
    now rewrite (lookup2_notin d q s Hn).
Qed.

Lemma add_labels_in (q : string) (keys idx : list string) :
  In q idx \/ In q keys -> In q (fold_left add_label keys idx).
Proof.
  revert idx. induction keys as [|k keys IH]; intros idx H.
  - cbn. destruct H as [H | []]. exact H.
  - cbn [fold_left]. apply IH. unfold add_label.
    destruct (has_label k idx) eqn:E.
    + destruct H as [H | [-> | H]]; auto.
      left. now apply has_label_in.
    + destruct H as [H | [-> | H]]; auto.
      * left. apply in_or_app. now left.
      * left. apply in_or_app. right. now left.
Qed.

Lemma row_labels_in (nd : list (string * list (string * Z))) (s q : string)
  (m : list (string * Z)) :
  In (s, m) nd -> In q (map fst m) -> In q (row_labels nd).
Proof.
  unfold row_labels. intros Hs Hq.
  assert (G : forall idx,
             In q idx \/ In (s, m) nd ->
             In q (fold_left
                     (fun idx col =>
                        fold_left add_label (map fst (snd col)) idx)
                     nd idx)).
  { clear Hs. induction nd as [|col nd IH]; intros idx H.
    - cbn. destruct H as [H | []]. exact H.
    - cbn [fold_left]. apply IH.
      destruct H as [H | [-> | H]]; auto.
      + left. apply add_labels_in. now left.
      + left. apply add_labels_in. right. exact Hq. }
  apply G. now right.
Qed.

Lemma get_map_columns {V W} (g : V -> W) (c : string)
  (d : list (string * V)) :
  PyDict.get String.eqb c (map (fun cv => (fst cv, g (snd cv))) d)
  = option_map g (PyDict.get String.eqb c d).
Proof.
  induction d as [|[k v] d IH]; cbn; [reflexivity |].
  now destruct (String.eqb c k).
Qed.

(** An entry of the dictionary is a cell of the frame made from it. *)
Lemma nth_error_as_column (vs : list cell) (i : nat) (c : Z) :
  nth_error vs i = Some (Num c) ->
  (Z.abs c <= 2 ^ 53)%Z ->
  nth_error (as_column vs) i = Some (Num c).
Proof.
  intros H Range. unfold as_column.
  destruct (float_column vs); [| exact H].
  rewrite nth_error_map, H. cbn [option_map to_float].
  now rewrite float64_exact.
Qed.

Lemma from_dict_index_cell (d : list (string * list (string * Z)))
  (q s : string) (c : Z) :
  NoDup (map fst d) ->
  Forall (fun row => NoDup (map fst (snd row))) d ->
  lookup2 d q s = Some c ->
  (Z.abs c <= 2 ^ 53)%Z ->
  exists i,
    nth_error (index (from_dict_index d)) i = Some q
    /\ cell_at (from_dict_index d) i s = Some (Num c).
Proof.
  intros N F L Range. rewrite from_dict_index_parts.
  pose proof (transpose_lookup d [] s q N F) as T.
  rewrite L in T. fold (transpose d) in T. unfold lookup2 in T.
  destruct (PyDict.get String.eqb s (transpose d)) as [m|] eqn:G;
    [| discriminate].
  assert (Hq : In q (row_labels (transpose d))).
  { apply (row_labels_in _ s q m).
    - now apply (get_in String.eqb String.eqb_eq).
    - apply (get_in String.eqb String.eqb_eq) in T.
      apply in_map_iff. now exists (q, c). }
  apply In_nth_error in Hq as [i Hi]. exists i.
  split; [exact Hi |]. unfold cell_at. cbn [data index].
  rewrite (get_map_columns
             (fun m0 =>
                as_column
                  (map (fun i0 => match PyDict.get String.eqb i0 m0 with
                                  | Some z => Num z
                                  | None => NaN
                                  end) (row_labels (transpose d))))).
  rewrite G. cbn [option_map]. apply nth_error_as_column; [| exact Range].
  rewrite nth_error_map, Hi. cbn [option_map]. now rewrite T.
Qed.

(** *** [get_all_stats_for_team] over a store that serves *)

Lemma id_to_name_get (ps : list Player) (pl : Player) :
  NoDup (map player_id ps) -> In pl ps ->
  PyDict.get Z.eqb (player_id pl)
    (PyDict.of_list Z.eqb (map (fun p => (player_id p, player_name p)) ps))
  = Some (player_name pl).
Proof.
  intros N Hin. unfold PyDict.of_list.
  destruct (fold_set_get Z.eqb Z.eqb_eq
              (fun v => v = player_name pl) (player_id pl)
              (map (fun p => (player_id p, player_name p)) ps) [])
    as (v & E & ->); [cbn; discriminate | | | exact E].
  - intros v Hv. apply in_map_iff in Hv as (pl' & [= E1 E2] & Hin').
    rewrite (NoDup_map_same player_id ps pl' pl N Hin' Hin E1) in E2.
    now symmetry.
  - left. rewrite map_map. cbn [fst]. now apply in_map.
Qed.

Lemma stats_dict_start (names : list string) :
  let sd := PyDict.of_list String.eqb (map (fun n => (n, @nil (string * Z)))
                                          names) in
  NoDup (map fst sd)
  /\ Forall (fun row => NoDup (map fst (snd row))) sd
  /\ forall n, In n names -> PyDict.get String.eqb n sd <> None.
Proof.
  cbv zeta. unfold PyDict.of_list. split; [| split].
  - apply (NoDup_fold_set String.eqb String.eqb_eq). constructor.
  - apply Forall_fold_set; [constructor |].
    apply Forall_forall. intros row Hrow.
    apply in_map_iff in Hrow as (n & <- & _). constructor.
  - intros n Hn.
    destruct (fold_set_get String.eqb String.eqb_eq (fun _ => True) n
                (map (fun n => (n, @nil (string * Z))) names) [])
      as (v & E & _); auto.
    + left. rewrite map_map. cbn [fst]. now rewrite map_id.
    + rewrite E. discriminate.
Qed.

Section LoadServed.

Variable faults : nat -> bool.

Lemma get_all_stats_for_team_served (team : Z) (W : World) (pl : Player)
  (s : string) (c : Z) :
  served faults W ->
  NoDup (map player_id (team_players team (durable W))) ->
  NoDup (map player_name (team_players team (durable W))) ->
  In pl (team_players team (durable W)) ->
  holds_count (durable W) (player_id pl) s c ->
  (Z.abs c <= 2 ^ 53)%Z ->
  exists df W',
    get_all_stats_for_team faults team W = (Ok df, W')
    /\ durable W' = durable W
    /\ shown W' = shown W
    /\ exists i,
         nth_error (index df) i = Some (player_name pl)
         /\ cell_at df i s = Some (Num c).
Proof.
  intros S Ni Nn Hpl [[r [Hr Hh]] All] Range.
  unfold get_all_stats_for_team, in_session, query.
  unfold bind at 1. rewrite (statement_served faults _ _ _ S).
  cbn [fst snd]. cbv zeta.
  assert (S1 : served faults (tick W))
    by (apply (served_mono faults W); [exact S | cbn; lia]).
  assert (S2 : served faults (tick (tick W)))
    by (apply (served_mono faults W); [exact S | cbn; lia]).
  unfold bind at 1. rewrite (statement_served faults _ _ _ S1).
  cbn [fst snd].
  fold (team_players team (durable W)).
  set (ps := team_players team (durable W)) in *.
  set (id_to_name :=
         PyDict.of_list Z.eqb (map (fun p => (player_id p, player_name p)) ps)).
  set (all_stats :=
         filter (fun s0 => existsb (Z.eqb (stat_player_id s0))
                             (map player_id ps)) (tbl_stats (durable W))).
  destruct (stats_dict_start (map player_name ps)) as (N0 & F0 & G0).
  assert (Owner : forall st, In st all_stats ->
            exists pl', In pl' ps /\ player_id pl' = stat_player_id st).
  { intros st Hst. apply filter_In in Hst as [_ Hst].
    apply existsb_exists in Hst as (id & Hid & E).
    apply Z.eqb_eq in E. apply in_map_iff in Hid as (pl' & E' & Hin').
    exists pl'. split; [exact Hin' | congruence]. }
  destruct (fill_stats_spec id_to_name (player_name pl) s c all_stats
              (PyDict.of_list String.eqb
                 (map (fun n => (n, [])) (map player_name ps))))
    as (sd & E & L & N & F); [| | | exact N0 | exact F0 |].
  - intros st Hst. destruct (Owner st Hst) as (pl' & Hin' & E').
    exists (player_name pl'). split.
    + rewrite <- E'. now apply id_to_name_get.
    + apply G0. now apply in_map.
  - intros st Hst G Es. destruct (Owner st Hst) as (pl' & Hin' & E').
    rewrite <- E' in G. unfold id_to_name in G.
    rewrite (id_to_name_get ps pl' Ni Hin') in G. injection G as G.
    assert (pl' = pl) by (apply (NoDup_map_same player_name ps); auto).
    subst pl'. apply All.
    + apply filter_In in Hst. tauto.
    + apply hits_key. auto.
  - left. apply hits_key in Hh as [Hp Hs]. exists r. split; [| split].
    + apply filter_In. split; [exact Hr |].
      apply existsb_exists. exists (player_id pl).
      split; [now apply in_map | now apply Z.eqb_eq].
    + rewrite Hp. now apply id_to_name_get.
    + exact Hs.
  - rewrite E. unfold bind, ret.
    rewrite (statement_served faults _ _ _ S2). cbn [fst snd].
    eexists. eexists. split; [reflexivity |].
    split; [reflexivity |]. split; [reflexivity |].
    destruct (from_dict_index_cell sd (player_name pl) s c N F L Range)
      as (i & Hi & Hc).
    exists i.
    destruct (backfill_columns_spec (distinct_skill_names (durable W))
                (from_dict_index sd)) as (Ix & _ & Keep & _).
    rewrite Ix. split; [exact Hi |]. rewrite Keep; [exact Hc |].
    apply has_label_get. unfold cell_at in Hc.
    destruct (PyDict.get String.eqb s (data (from_dict_index sd)));
      [discriminate | discriminate].
Qed.

End LoadServed.

(** *** From the ledger to the store and back *)

Lemma fold_set_key {K V} (eqb : K -> K -> bool)
  (eqb_eq : forall x y, eqb x y = true <-> x = y) (k : K)
  (l d : list (K * V)) :
  PyDict.get eqb k
    (fold_left (fun d kv => PyDict.set eqb (fst kv) (snd kv) d) l d) <> None ->
  In k (map fst l) \/ PyDict.get eqb k d <> None.
Proof.
  revert d. induction l as [|[k0 v0] l IH]; intros d H; [now right |].
  cbn [fold_left fst snd] in H. apply IH in H as [H | H].
  - left. now right.
  - rewrite (get_set eqb eqb_eq) in H. destruct (eqb k k0) eqn:E.
    + apply eqb_eq in E. subst k0. left. now left.
    + now right.
Qed.

(** A value of [player_name_to_id] is the identifier of a player of the
    team with that name. *)
Lemma player_name_to_id_sound (team : Z) (w : Db) (q : string) (id : Z) :
  PyDict.get String.eqb q (player_name_to_id team w) = Some id ->
  exists pl, In pl (team_players team w)
             /\ player_name pl = q /\ player_id pl = id.
Proof.
  intros G. unfold player_name_to_id, PyDict.of_list in G.
  fold (team_players team w) in G.
  destruct (fold_set_get String.eqb String.eqb_eq
              (fun v => exists pl, In pl (team_players team w)
                                   /\ player_name pl = q /\ player_id pl = v)
              q (map (fun p => (player_name p, player_id p))
                     (team_players team w)) [])
    as (v & E & P).
  - cbn. discriminate.
  - intros v Hv. apply in_map_iff in Hv as (pl & [= E1 E2] & Hin).
    now exists pl.
  - assert (H : PyDict.get String.eqb q
                  (fold_left (fun d kv => PyDict.set String.eqb (fst kv)
                                            (snd kv) d)
                     (map (fun p => (player_name p, player_id p))
                          (team_players team w)) []) <> None)
      by (rewrite G; discriminate).
    apply (fold_set_key String.eqb String.eqb_eq) in H as [H | H];
      [now left | now right].
  - rewrite G in E. injection E as <-. exact P.
Qed.

Lemma combine_seq_in {A} (l : list A) (start i : nat) (x : A) :
  In (i, x) (combine (seq start (List.length l)) l) <->
  start <= i /\ nth_error l (i - start) = Some x.
Proof.
  revert start. induction l as [|a l IH]; intros start; cbn.
  - split; [tauto |]. intros [_ H]. destruct (i - start); discriminate.
  - rewrite IH. split.
    + intros [[= <- <-] | [Le H]].
      * split; [lia |]. now rewrite Nat.sub_diag.
      * split; [lia |]. replace (i - start) with (S (i - S start)) by lia.
        exact H.
    + intros [Le H]. destruct (Nat.eq_dec i start) as [-> | Ne].
      * rewrite Nat.sub_diag in H. cbn in H. injection H as ->. now left.
      * right. split; [lia |].
        replace (i - start) with (S (i - S start)) in H by lia. exact H.
Qed.

Lemma iterrows_in (df : DataFrame) (q : string)
  (items : list (string * cell)) :
  In (q, items) (iterrows df) <->
  exists i, nth_error (index df) i = Some q
            /\ items = map (fun cv => (fst cv, in_row df (nth i (snd cv) NaN)))
                           (data df).
Proof.
  unfold iterrows. rewrite in_map_iff. split.
  - intros ([i q'] & [= <- <-] & Hin). apply combine_seq_in in Hin as [_ H].
    rewrite Nat.sub_0_r in H. now exists i.
  - intros (i & Hi & ->). exists (i, q). split; [reflexivity |].
    apply combine_seq_in. rewrite Nat.sub_0_r. split; [lia | exact Hi].
Qed.

Lemma in_get_nodup {V} (k : string) (v : V) (d : list (string * V)) :
  NoDup (map fst d) -> In (k, v) d -> PyDict.get String.eqb k d = Some v.
Proof.
  induction d as [|[k0 v0] d IH]; cbn; [tauto |].
  intros N [[= -> ->] | Hin].
  - now rewrite String.eqb_refl.
  - inversion N as [|? ? Hn N']. subst.
    destruct (String.eqb k k0) eqn:E; [| now apply IH].
    apply String.eqb_eq in E. subst k0. elim Hn.
    apply in_map_iff. now exists (k, v).
Qed.

Lemma in_row_exact (df : DataFrame) (c : Z) :
  (Z.abs c <= 2 ^ 53)%Z -> in_row df (Num c) = Num c.
Proof.
  intros Range. unfold in_row.
  destruct (existsb _ (data df)); [| reflexivity].
  cbn [to_float]. now rewrite float64_exact.
Qed.

(** The cell of a player of the team, among the cells that a Save
    visits. *)
Lemma saved_cells_of_cell (team : Z) (df : DataFrame) (w : Db) (pl : Player)
  (i : nat) (s : string) (c : Z) :
  NoDup (map player_id (team_players team w)) ->
  NoDup (map player_name (team_players team w)) ->
  NoDup (index df) ->
  NoDup (columns df) ->
  In pl (team_players team w) ->
  nth_error (index df) i = Some (player_name pl) ->
  cell_at df i s = Some (Num c) ->
  (Z.abs c <= 2 ^ 53)%Z ->
  In (player_id pl, s, Num c) (saved_cells team df w)
  /\ Forall (fun x => fst x = (player_id pl, s) -> snd x = Num c)
            (saved_cells team df w).
Proof.
  intros Ni Nn Nx Nc Hpl Hi Hc Range. unfold cell_at in Hc.
  destruct (PyDict.get String.eqb s (data df)) as [vs|] eqn:G;
    [| discriminate].
  assert (Hv : in_row df (nth i vs NaN) = Num c)
    by (rewrite (nth_error_nth _ _ _ Hc); now apply in_row_exact).
  assert (Gid : PyDict.get String.eqb (player_name pl)
                  (player_name_to_id team w) = Some (player_id pl)).
  { assert (Hin : In pl (tbl_players w) /\ player_team_id pl = team).
    { unfold team_players in Hpl. apply filter_In in Hpl as [A B].
      apply Z.eqb_eq in B. auto. }
    destruct (player_name_to_id_get team w pl (proj1 Hin) (proj2 Hin))
      as (id & E & _).
    rewrite E. f_equal.
    apply player_name_to_id_sound in E as (pl' & Hin' & En & <-).
    f_equal. now apply (NoDup_map_same player_name (team_players team w)). }
  unfold saved_cells, cells_of_rows. split.
  - apply in_flat_map.
    exists (player_name pl,
            map (fun cv => (fst cv, in_row df (nth i (snd cv) NaN)))
                (data df)).
    split; [apply iterrows_in; now exists i |].
    cbn [fst snd]. rewrite Gid. apply in_map_iff.
    exists (s, Num c). split; [reflexivity |].
    apply in_map_iff. exists (s, vs). cbn [fst snd]. rewrite Hv.
    split; [reflexivity |]. now apply (get_in String.eqb String.eqb_eq).
  - apply Forall_forall. intros [[id' s'] v] Hx [= -> ->].
    cbn [snd]. apply in_flat_map in Hx as ([q' items] & Hrow & Hx).
    cbn [fst snd] in Hx.
    destruct (PyDict.get String.eqb q' (player_name_to_id team w))
      as [id'|] eqn:G'; [| destruct Hx].
    apply in_map_iff in Hx as ([s' v'] & [= -> -> ->] & Hitem).
    apply player_name_to_id_sound in G' as (pl' & Hin' & En' & Ei').
    assert (pl' = pl)
      by (now apply (NoDup_map_same player_id (team_players team w))).
    subst pl'. subst q'.
    apply iterrows_in in Hrow as (i' & Hi' & ->).
    assert (i' = i).
    { apply (proj1 (NoDup_nth_error (index df)) Nx).
      - apply nth_error_Some. rewrite Hi'. discriminate.
      - now rewrite Hi, Hi'. }
    subst i'. apply in_map_iff in Hitem as ([s' vs'] & [= E1 E2] & Hcol).
    cbn [fst snd] in E1, E2. subst s'.
    apply in_get_nodup in Hcol; [| exact Nc].
    rewrite G in Hcol. injection Hcol as <-. now rewrite <- E2.
Qed.

Lemma NoDup_by_nodup {A} (dec : forall x y : A, {x = y} + {x <> y})
  (l : list A) :
  nodup dec l = l -> NoDup l.
Proof. intros <-. apply NoDup_nodup. Qed.

(** X21. Over a store that serves its queries, [get_all_stats_for_team] reads
    back what the store holds: when the players of the team have distinct
    identifiers and distinct names, and the store holds a count for a
    player of the team and a skill (it has a row for them, and all their
    rows carry that count), and the count is at most 2^53 in absolute
    value, so that a column of floating-point numbers holds it exactly as
    a column of integers does, the frame returned has a row labelled with
    the player's name whose value in the skill's column is that count.  The
    store is not changed and nothing is shown. *)
Theorem stored_counts_are_loaded (faults : nat -> bool) (team : Z)
  (W : World) (pl : Player) (s : string) (c : Z) :
  served faults W ->
  NoDup (map player_id (team_players team (durable W))) ->
  NoDup (map player_name (team_players team (durable W))) ->
  In pl (team_players team (durable W)) ->
  holds_count (durable W) (player_id pl) s c ->
  (Z.abs c <= 2 ^ 53)%Z ->
  exists df W',
    get_all_stats_for_team faults team W = (Ok df, W')
    /\ durable W' = durable W
    /\ shown W' = shown W
    /\ exists i,
         nth_error (index df) i = Some (player_name pl)
         /\ cell_at df i s = Some (Num c).
Proof. exact (get_all_stats_for_team_served faults team W pl s c). Qed.

Lemma stored_counts_are_loaded_witness :
  exists df W',
    get_all_stats_for_team no_faults 1 (mkWorld ragged_db 0 [])
    = (Ok df, W')
    /\ durable W' = ragged_db
    /\ shown W' = []
    /\ exists i,
         nth_error (index df) i = Some "Bo"
         /\ cell_at df i "Block" = Some (Num 1).
Proof.
  apply (stored_counts_are_loaded no_faults 1 (mkWorld ragged_db 0 [])
           (mkPlayer 2 "Bo" 1) "Block" 1).
  - intros n _. reflexivity.
  - apply (NoDup_by_nodup Z.eq_dec). vm_compute. reflexivity.
  - apply (NoDup_by_nodup string_dec). vm_compute. reflexivity.
  - vm_compute. right. left. reflexivity.
  - split.
    + exists (mkStat 2 2 "Block" 1). split; [| vm_compute; reflexivity].
      vm_compute. right. left. reflexivity.
    + intros st Hin Hh. vm_compute in Hin.
      destruct Hin as [<- | [<- | []]]; [discriminate Hh | reflexivity].
  - vm_compute. discriminate.
Defined.

(** X22. Save, then load.  Over a store that serves every statement, for a
    team whose players have distinct identifiers and distinct names and a
    ledger with distinct row labels and distinct columns and no missing
    value in the rows of the team's players: after [save_current_stats],
    [get_all_stats_for_team] returns a frame that has, for every cell of
    the ledger in the row of a player of the team that holds a count of at
    most 2^53 in absolute value (a count that a column of floating-point
    numbers holds exactly), a row labelled with the player's name whose
    value in that column is the value of the cell. *)
Theorem saved_ledger_loads_back (faults : nat -> bool) (team : Z)
  (df : DataFrame) (W : World) (pl : Player) (i : nat) (s : string)
  (c : Z) :
  served faults W ->
  NoDup (map player_id (team_players team (durable W))) ->
  NoDup (map player_name (team_players team (durable W))) ->
  NoDup (index df) ->
  NoDup (columns df) ->
  Forall (fun x => snd x <> NaN) (saved_cells team df (durable W)) ->
  In pl (team_players team (durable W)) ->
  nth_error (index df) i = Some (player_name pl) ->
  cell_at df i s = Some (Num c) ->
  (Z.abs c <= 2 ^ 53)%Z ->
  let W1 := snd (save_current_stats faults team df W) in
  exists df' W2 j,
    get_all_stats_for_team faults team W1 = (Ok df', W2)
    /\ nth_error (index df') j = Some (player_name pl)
    /\ cell_at df' j s = Some (Num c).
Proof.
  intros S Ni Nn Nx Nc F Hpl Hi Hc Range. cbv zeta.
  pose proof (save_current_stats_outcome faults team df W) as O.
  cbv zeta in O. destruct O as (_ & Le & _).
  destruct (save_current_stats_served faults team df W S F)
    as (W1 & E & D & Sh).
  rewrite E in Le |- *. cbn [snd] in Le |- *.
  pose proof (served_mono faults _ _ S Le) as S1.
  destruct (saved_cells_of_cell team df (durable W) pl i s c
              Ni Nn Nx Nc Hpl Hi Hc Range) as [Hin Agree].
  destruct (upsert_cells_tables (saved_cells team df (durable W)) (durable W))
    as [_ P].
  assert (TP : team_players team (durable W1)
               = team_players team (durable W)).
  { unfold team_players. now rewrite D, P. }
  destruct (get_all_stats_for_team_served faults team W1 pl s c S1)
    as (df' & W2 & E2 & _ & _ & j & Hj & Hcj).
  - now rewrite TP.
  - now rewrite TP.
  - now rewrite TP.
  - rewrite D. now apply upsert_cells_agree.
  - exact Range.
  - exists df', W2, j. auto.
Qed.

Lemma saved_ledger_loads_back_witness :
  let df := loc_add1 "Ann" "Kill" (create_stats_dataframe ["Ann"; "Bo"]) in
  let W := mkWorld (mkDb [mkTeam 1 "Team" 0]
                         [mkPlayer 1 "Ann" 1; mkPlayer 2 "Bo" 1] []) 0 [] in
  let W1 := snd (save_current_stats no_faults 1 df W) in
  exists df' W2 j,
    get_all_stats_for_team no_faults 1 W1 = (Ok df', W2)
    /\ nth_error (index df') j = Some "Ann"
    /\ cell_at df' j "Kill" = Some (Num 1).
Proof.
  cbv zeta.
  apply (saved_ledger_loads_back no_faults 1
           (loc_add1 "Ann" "Kill" (create_stats_dataframe ["Ann"; "Bo"]))
           (mkWorld (mkDb [mkTeam 1 "Team" 0]
                          [mkPlayer 1 "Ann" 1; mkPlayer 2 "Bo" 1] []) 0 [])
           (mkPlayer 1 "Ann" 1) 0 "Kill" 1).
  - intros n _. reflexivity.
  - apply (NoDup_by_nodup Z.eq_dec). vm_compute. reflexivity.
  - apply (NoDup_by_nodup string_dec). vm_compute. reflexivity.
  - apply (NoDup_by_nodup string_dec). vm_compute. reflexivity.
  - apply (NoDup_by_nodup string_dec). vm_compute. reflexivity.
  - vm_compute. repeat constructor; discriminate.
  - vm_compute. left. reflexivity.
  - vm_compute. reflexivity.
  - vm_compute. reflexivity.
  - vm_compute. discriminate.
Defined.
